(** * U-Well: chat proxy (server.js) and guided-exercise client (chat.js)

    A shallow embedding of the request handlers of [server.js] and of the
    client-side state handlers of [chat.js], followed by the properties the
    specification states about them.

    Conventions of the embedding:
    - a JavaScript string is the list of its UTF-16 code units;
    - a JavaScript value that comes from JSON (request bodies, provider
      payloads, analysis results) is a [value]; a number is an IEEE 754
      double (a primitive float), printed as [Number::toString] prints it;
    - a conversion to a string that JavaScript answers with a TypeError is
      [None], and the handlers treat it as the exception it is;
    - the runtime's own functions that the code calls but does not define
      ([String.prototype.toLowerCase], [JSON.parse], [JSON.stringify]) are
      the fields of the class [JsRuntime];
    - the upstream provider and the network are oracles handed to the
      handlers; a handler returns its HTTP response together with the trace
      of attempts and sleeps it performed. *)

From Stdlib Require Import ZArith NArith List String Ascii Bool Lia ZifyBool DecimalString.
From Stdlib Require Import Floats.PrimFloat Floats.FloatOps Floats.SpecFloat.
Import ListNotations.
Open Scope Z_scope.
Set Warnings "-register-all".

(* ================================================================= *)
(** ** JavaScript strings *)

(** UTF-16 code units. *)
Definition jsstring := list N.

(** One code point as UTF-16: itself inside the BMP, a surrogate pair above. *)
Definition utf16_units (cp : N) : jsstring :=
  if (cp <? 65536)%N then [cp]
  else [(55296 + (cp - 65536) / 1024)%N; (56320 + (cp - 65536) mod 1024)%N].

(** Decoder of the UTF-8 bytes of a source literal: [acc] is the code point
    under construction and [need] the number of continuation bytes missing. *)
Fixpoint utf8_decode (bs : list N) (acc : N) (need : nat) : jsstring :=
  match bs with
  | [] => []
  | b :: rest =>
      match need with
      | O =>
          if (b <? 128)%N then b :: utf8_decode rest 0%N O
          else if (b <? 224)%N then utf8_decode rest (b - 192)%N 1%nat
          else if (b <? 240)%N then utf8_decode rest (b - 224)%N 2%nat
          else utf8_decode rest (b - 240)%N 3%nat
      | S O => utf16_units (acc * 64 + (b - 128))%N ++ utf8_decode rest 0%N O
      | S n => utf8_decode rest (acc * 64 + (b - 128))%N n
      end
  end.

(** The JavaScript string denoted by a literal of the source text. *)
Definition js (s : string) : jsstring :=
  utf8_decode (map N_of_ascii (list_ascii_of_string s)) 0%N O.

(** [s === t] on strings. *)
Fixpoint str_eqb (s t : jsstring) : bool :=
  match s, t with
  | [], [] => true
  | x :: s', y :: t' => (x =? y)%N && str_eqb s' t'
  | _, _ => false
  end.

(** [s.startsWith(t)]. *)
Fixpoint starts_with (s t : jsstring) {struct t} : bool :=
  match t, s with
  | [], _ => true
  | _ :: _, [] => false
  | y :: t', x :: s' => (x =? y)%N && starts_with s' t'
  end.

(** [s.endsWith(t)]. *)
Definition ends_with (s t : jsstring) : bool := starts_with (rev s) (rev t).

(** [s.includes(t)]: [t] occurs at some offset of [s]. *)
Fixpoint includes (s t : jsstring) : bool :=
  starts_with s t ||
  match s with
  | [] => false
  | _ :: s' => includes s' t
  end.

(** The class [\s] of regular expressions, which is also what [trim] removes:
    WhiteSpace and LineTerminator of ECMAScript. *)
Definition is_space (u : N) : bool :=
  ((9 <=? u) && (u <=? 13) || (u =? 32) || (u =? 160) || (u =? 5760)
   || (8192 <=? u) && (u <=? 8202) || (u =? 8232) || (u =? 8233)
   || (u =? 8239) || (u =? 8287) || (u =? 12288) || (u =? 65279))%N.

(** The class [\w]: ASCII letters, digits and the underscore. *)
Definition is_word (u : N) : bool :=
  ((48 <=? u) && (u <=? 57) || (65 <=? u) && (u <=? 90) || (u =? 95)
   || (97 <=? u) && (u <=? 122))%N.

Fixpoint drop_while (p : N -> bool) (s : jsstring) : jsstring :=
  match s with
  | [] => []
  | x :: s' => if p x then drop_while p s' else s
  end.

Definition trimStart (s : jsstring) : jsstring := drop_while is_space s.
Definition trimEnd (s : jsstring) : jsstring := rev (drop_while is_space (rev s)).

(** [s.trim()]. *)
Definition trim (s : jsstring) : jsstring := trimEnd (trimStart s).

(** Code units used by the patterns below. *)
Definition backtick : N := 96%N.
Definition dquote : N := 34%N.
Definition newline : N := 10%N.

(* ================================================================= *)
(** ** JavaScript numbers

    A number is a double.  [number_to_string] is Number::toString in radix
    10: the digits of the shortest decimal that reads back as the same
    double, laid out without an exponent when the decimal point falls
    within 21 digits before or 6 zeros after it, and with one otherwise. *)

(** The digits of a natural number. *)
Definition digits (n : Z) : jsstring := js (NilZero.string_of_int (Z.to_int n)).

(** The decimal exponent [n] of [x = num / den], that is
    [10^(n-1) <= x < 10^n], searched upwards from a lower estimate. *)
Fixpoint decimal_exponent (fuel : nat) (num den n : Z) : Z :=
  match fuel with
  | O => n
  | S fuel' =>
      if num * 10 ^ Z.max (- n) 0 <? den * 10 ^ Z.max n 0 then n
      else decimal_exponent fuel' num den (n + 1)
  end.

(** The digits [s] and the exponent [q] of the shortest decimal [s * 10^q]
    that rounds to [x = num / den]: the nearest to [x] among the shortest,
    the even one of two at the same distance.  [lo] and [hi] bound the
    numbers that round to [x], in units of [1 / den], and are among them
    when [closed].  With [k] digits the two candidates are the neighbours of
    [x] at the scale [10^(n-k)]; 17 digits always suffice. *)
Fixpoint shortest (fuel : nat) (num den lo hi : Z) (closed : bool) (n k : Z) : Z * Z :=
  match fuel with
  | O => (0, 0)
  | S fuel' =>
      let q := n - k in
      let scale := 10 ^ Z.max (- q) 0 in
      let unit := den * 10 ^ Z.max q 0 in
      let t := (num * scale) / unit in
      let inside (c : Z) :=
        if closed then (lo * scale <=? c * unit) && (c * unit <=? hi * scale)
        else (lo * scale <? c * unit) && (c * unit <? hi * scale) in
      let below := num * scale - t * unit in
      let above := (t + 1) * unit - num * scale in
      match inside t, inside (t + 1) with
      | true, true =>
          if below <? above then (t, q)
          else if above <? below then (t + 1, q)
          else if Z.even t then (t, q) else (t + 1, q)
      | true, false => (t, q)
      | false, true => (t + 1, q)
      | false, false => shortest fuel' num den lo hi closed n (k + 1)
      end
  end.

Fixpoint strip_zeros (fuel : nat) (s q : Z) : Z * Z :=
  match fuel with
  | O => (s, q)
  | S fuel' =>
      if (s mod 10 =? 0) && negb (s =? 0) then strip_zeros fuel' (s / 10) (q + 1) else (s, q)
  end.

Definition zero_unit : N := 48%N.

(** The text of [s * 10^q], where [s] does not end in 0: with [k] the
    number of digits of [s] and [n = q + k], the cases [k <= n <= 21],
    [0 < n <= 21], [-6 < n <= 0] and the exponent form of Number::toString. *)
Definition layout (s q : Z) : jsstring :=
  let ds := digits s in
  let k := Z.of_nat (List.length ds) in
  let n := q + k in
  if (k <=? n) && (n <=? 21) then ds ++ repeat zero_unit (Z.to_nat (n - k))
  else if (0 <? n) && (n <=? 21) then
    firstn (Z.to_nat n) ds ++ js "." ++ skipn (Z.to_nat n) ds
  else if (-6 <? n) && (n <=? 0) then
    js "0." ++ repeat zero_unit (Z.to_nat (- n)) ++ ds
  else
    let e := n - 1 in
    let exponent := js "e" ++ (if e <? 0 then js "-" else js "+") ++ digits (Z.abs e) in
    match ds with
    | [d] => [d] ++ exponent
    | d :: rest => [d] ++ js "." ++ rest ++ exponent
    | [] => exponent
    end.

(** Number::toString of the positive double [m * 2^e].  In units of
    [2^(e-2)] the double is [4m]; what rounds to it lies within half the
    distance to its neighbours, [4m - 2] to [4m + 2], or from [4m - 1] when
    [m] is the least mantissa of its binade and the neighbour below is at
    half the distance. *)
Definition finite_to_string (m : positive) (e : Z) : jsstring :=
  let m := Z.pos m in
  let den := 2 ^ Z.max (2 - e) 0 in
  let up := 2 ^ Z.max (e - 2) 0 in
  let num := 4 * m * up in
  let lo := (if (m =? 2 ^ 52) && (-1074 <? e) then 4 * m - 1 else 4 * m - 2) * up in
  let hi := (4 * m + 2) * up in
  let estimate := (Z.log2 m + e) * 30102 / 100000 - 1 in
  let n := decimal_exponent 8 num den estimate in
  let (s, q) := shortest 17 num den lo hi (Z.even m) n 1 in
  let (s, q) := strip_zeros 20 s q in
  layout s q.

Definition number_to_string (x : float) : jsstring :=
  match Prim2SF x with
  | S754_nan => js "NaN"
  | S754_zero _ => js "0"
  | S754_infinity neg => (if neg then js "-" else []) ++ js "Infinity"
  | S754_finite neg m e => (if neg then js "-" else []) ++ finite_to_string m e
  end.

(** The double of an integer that the code computes (an index, a length, a
    status): the integer itself below [2^53], the nearest double above. *)
Definition number_of_Z (z : Z) : float := SF2Prim (binary_normalize prec emax z 0 false).

(** The double that the decimal literal [d * 10^e10] denotes: the nearest
    one, the even one of two at the same distance. *)
Definition number_of_decimal (neg : bool) (d e10 : Z) : float :=
  if d <=? 0 then (if neg then (-0)%float else 0%float)
  else if 0 <=? e10 then
    SF2Prim (binary_normalize prec emax (if neg then - (d * 10 ^ e10) else d * 10 ^ e10) 0 false)
  else
    let '(mz, ez, lz) := SFdiv_core_binary prec emax d 0 (10 ^ (- e10)) 0 in
    SF2Prim (binary_round_aux prec emax neg mz ez lz).

(** The text of an integer that the code computes, as a template literal
    prints it. *)
Definition decimal (z : Z) : jsstring := number_to_string (number_of_Z z).

(* ================================================================= *)
(** ** JavaScript values that come from JSON *)

Inductive value : Type :=
| VUndefined
| VNull
| VBool (b : bool)
| VNum (x : float)
| VStr (s : jsstring)
| VArr (elems : list value)
| VObj (fields : list (jsstring * value)).

(** ToBoolean: a number is falsy when it is a zero or NaN. *)
Definition truthy (v : value) : bool :=
  match v with
  | VUndefined | VNull => false
  | VBool b => b
  | VNum x => negb (PrimFloat.eqb x 0) && PrimFloat.eqb x x
  | VStr s => match s with [] => false | _ => true end
  | VArr _ | VObj _ => true
  end.

(** [a || b]. *)
Definition js_or (a b : value) : value := if truthy a then a else b.

(** [v === 'lit'] for a string literal. *)
Definition is_str (v : value) (lit : jsstring) : bool :=
  match v with
  | VStr s => str_eqb s lit
  | _ => false
  end.

Definition isArray (v : value) : bool :=
  match v with VArr _ => true | _ => false end.

Fixpoint lookup (k : jsstring) (fields : list (jsstring * value)) : value :=
  match fields with
  | [] => VUndefined
  | (k', v) :: rest => if str_eqb k' k then v else lookup k rest
  end.

(** [v?.k] for a property name [k] that no built-in prototype defines (all
    names read by the handlers are such): an own property of an object,
    [undefined] on anything else.  Where the source writes [v.k] the receiver
    has been tested before, so the two agree. *)
Definition get (v : value) (k : jsstring) : value :=
  match v with
  | VObj fields => lookup k fields
  | _ => VUndefined
  end.

(** [v?.[0]]: first element of an array, first code unit of a string, the
    property ["0"] of an object. *)
Definition at0 (v : value) : value :=
  match v with
  | VArr (x :: _) => x
  | VStr (u :: _) => VStr [u]
  | VObj fields => lookup (js "0") fields
  | _ => VUndefined
  end.

(** ToString of a primitive value. *)
Definition primitive_to_string (v : value) : jsstring :=
  match v with
  | VUndefined => js "undefined"
  | VNull => js "null"
  | VBool true => js "true"
  | VBool false => js "false"
  | VNum x => number_to_string x
  | VStr s => s
  | VArr _ | VObj _ => []
  end.

(** ToString on JSON values, as template literals, [String(v)] and property
    keys apply it; [None] is a TypeError.  An array converts through [join],
    which converts its elements in turn ([null] gives the empty string).  An
    object converts through [Object.prototype.toString], unless it has a
    member [toString] of its own: a member that came from JSON is not
    callable, and the [valueOf] that is tried next gives no primitive. *)
Fixpoint to_string (v : value) : option jsstring :=
  match v with
  | VArr elems =>
      (fix join (l : list value) : option jsstring :=
         match l with
         | [] => Some []
         | x :: rest =>
             match (match x with
                    | VUndefined | VNull => Some []
                    | _ => to_string x
                    end), join rest with
             | Some s, Some t => Some (s ++ match rest with
                                            | [] => []
                                            | _ :: _ => 44%N :: t
                                            end)
             | _, _ => None
             end
         end) elems
  | VObj fields =>
      if existsb (fun kv => str_eqb (fst kv) (js "toString")) fields then None
      else Some (js "[object Object]")
  | _ => Some (primitive_to_string v)
  end.

(** The conversion to a string returns. *)
Definition converts (v : value) : bool :=
  match to_string v with
  | Some _ => true
  | None => false
  end.

(** An object literal [{ ..., k: v }]: a later key replaces an earlier one in
    place.  Fields are kept in the order they were written; nothing below
    observes the order. *)
Fixpoint set_field (fields : list (jsstring * value)) (k : jsstring) (v : value)
  : list (jsstring * value) :=
  match fields with
  | [] => [(k, v)]
  | (k', v') :: rest =>
      if str_eqb k' k then (k, v) :: rest else (k', v') :: set_field rest k v
  end.

(** The own enumerable properties that [...data] copies. *)
Definition own_properties (data : value) : list (jsstring * value) :=
  match data with
  | VObj fields => fields
  | VArr elems =>
      combine (map (fun i => decimal (Z.of_nat i)) (seq 0 (List.length elems))) elems
  | VStr s =>
      combine (map (fun i => decimal (Z.of_nat i)) (seq 0 (List.length s)))
              (map (fun u => VStr [u]) s)
  | _ => []
  end.

Definition spread (fields : list (jsstring * value)) (data : value)
  : list (jsstring * value) :=
  fold_left (fun acc kv => set_field acc (fst kv) (snd kv)) (own_properties data) fields.

(** The functions of the JavaScript runtime that the code calls. [JSON_parse]
    is [None] where [JSON.parse] throws a SyntaxError. *)
Class JsRuntime : Type := {
  toLowerCase : jsstring -> jsstring;
  JSON_parse : jsstring -> option value;
  JSON_stringify : value -> jsstring
}.

(* ================================================================= *)
(** ** server.js: helpers *)

Section Server.
Context `{JsRuntime}.

Definition fallbackHelplines : value :=
  VObj [ (js "en", VArr [ VObj [(js "name", VStr (js "AASRA")); (js "phone", VStr (js "+91-9820466726"))];
                          VObj [(js "name", VStr (js "NIMHANS")); (js "phone", VStr (js "080-46110007"))] ]);
         (js "hi", VArr [ VObj [(js "name", VStr (js "AASRA")); (js "phone", VStr (js "+91-9820466726"))];
                          VObj [(js "name", VStr (js "निमहांस")); (js "phone", VStr (js "080-46110007"))] ]) ].

(** [fallbackHelplines[lang]]: the key is [lang] converted to a string, a
    TypeError when that fails.  The table is a plain object, so a key that it
    does not hold is looked up in [Object.prototype]: ["__proto__"] gives
    that prototype itself, an object without enumerable members, which
    [res.json] sends as [{}]; every other name found there is a function,
    which [res.json] leaves out of the body as it does [undefined], and is
    written [VUndefined] like a name found nowhere. *)
Definition helplines_for (lang : value) : option value :=
  match to_string lang with
  | None => None
  | Some key =>
      Some (if existsb (fun kv => str_eqb (fst kv) key)
                       (match fallbackHelplines with VObj table => table | _ => [] end)
            then get fallbackHelplines key
            else if str_eqb key (js "__proto__") then VObj []
            else VUndefined)
  end.

Definition ticks3 : jsstring := [backtick; backtick; backtick].

(** [/^```[\s\S]*```$/.test(out)]: an opening and a closing fence that do not
    overlap. *)
Definition fence_test (out : jsstring) : bool :=
  starts_with out ticks3 && ends_with out ticks3 && (6 <=? List.length out)%nat.

(** The group [$1] of [/^```(?:\w+)?\s*([\s\S]*?)\s*```$/] on a string that
    passed [fence_test]: the greedy [(?:\w+)?] and [\s*] take the longest runs
    of word characters and of white space after the opening fence (neither
    can reach into the closing fence), the lazy group then takes the shortest
    text after which only white space precedes the closing fence.  The
    pattern spans the whole string, so the replacement is the group. *)
Definition fence_capture (out : jsstring) : jsstring :=
  let inner := firstn (List.length out - 6) (skipn 3 out) in
  trimEnd (drop_while is_space (drop_while is_word inner)).

(** The second [replace]: a string that begins and ends with one backtick
    (and has both) loses them; the dot of the pattern spans line breaks. *)
Definition unwrap_backticks (out : jsstring) : jsstring :=
  match out with
  | b :: rest =>
      if (b =? backtick)%N && ends_with rest [backtick] then removelast rest else out
  | [] => []
  end.

Definition stripCodeFences (s : value) : value :=
  match s with
  | VStr ((_ :: _) as str) =>
      let out := trim str in
      let out := if fence_test out then fence_capture out else out in
      let out := unwrap_backticks out in
      VStr (trim out)
  | _ => js_or s (VStr [])
  end.

Definition parseJsonSafe (s : value) : value :=
  match s with
  | VStr ((_ :: _) as str) =>
      match JSON_parse str with
      | Some j => j
      | None => VNull
      end
  | _ => VNull
  end.

Definition safeText (v : value) : value :=
  match v with
  | VStr _ => v
  | _ => VStr []
  end.

(** [j?.response?.candidates?.[0]?.content?.parts?.[0]?.text]. *)
Definition gemini_text (j : value) : value :=
  get (at0 (get (get (at0 (get (get j (js "response")) (js "candidates")))
                     (js "content")) (js "parts"))) (js "text").

(** [j.choices[0]?.message?.content]. *)
Definition openai_content (j : value) : value :=
  get (get (at0 (get j (js "choices"))) (js "message")) (js "content").

Definition extractReplyFromProviderObj (j : value) : value :=
  if negb (truthy j) then VNull
  else if truthy (gemini_text j) then
    let text := stripCodeFences (gemini_text j) in
    let parsed := parseJsonSafe text in
    if truthy parsed then safeText (js_or (get parsed (js "text")) text)
    else text
  else if isArray (get j (js "choices")) && truthy (openai_content j) then
    stripCodeFences (openai_content j)
  else VNull.

(* ================================================================= *)
(** ** server.js: POST /api/chat *)

Record response : Type := { status : Z; body : value }.

(** [res.json(b)] and [res.status(code).json(b)]. *)
Definition res_json (b : value) : response := {| status := 200; body := b |}.
Definition res_status_json (code : Z) (b : value) : response :=
  {| status := code; body := b |}.

(** The environment variables the handler reads; [None] is an unset one. *)
Record environment : Type := {
  LLM_PROVIDER : option jsstring;
  GOOGLE_API_KEY : option jsstring;
  OPENAI_API_KEY : option jsstring
}.

Definition env_set (v : option jsstring) : bool :=
  match v with
  | Some (_ :: _) => true
  | _ => false
  end.

(** [process.env.LLM_PROVIDER || 'google']. *)
Definition provider_name (env : environment) : jsstring :=
  match LLM_PROVIDER env with
  | Some ((_ :: _) as p) => p
  | _ => js "google"
  end.

Inductive client : Type := GeminiClient | OpenAIClient.

Definition select_client (env : environment) : option client :=
  if str_eqb (provider_name env) (js "google") && env_set (GOOGLE_API_KEY env)
  then Some GeminiClient
  else if str_eqb (provider_name env) (js "openai") && env_set (OPENAI_API_KEY env)
  then Some OpenAIClient
  else None.

(** The fields of [req.body] as sent; [VUndefined] is an absent one. *)
Record chat_request : Type := {
  message : value;
  lang : value;
  history : value
}.

(** The destructuring default [lang = 'en']. *)
Definition lang_of (req : chat_request) : value :=
  match lang req with
  | VUndefined => VStr (js "en")
  | l => l
  end.

(** Whether the callback of [history.map] runs through on the entry [h].
    Reading [h.role] is a TypeError on [null]; for Gemini the entry becomes
    the template literal [`${h.role}: ${h.parts?.[0]?.text || h.content}`],
    which converts both to strings, for OpenAI the two are stored as they
    are. *)
Definition history_entry_maps (c : client) (h : value) : bool :=
  match h with
  | VUndefined | VNull => false
  | _ =>
      match c with
      | GeminiClient =>
          converts (get h (js "role"))
          && converts (js_or (get (at0 (get h (js "parts"))) (js "text"))
                             (get h (js "content")))
      | OpenAIClient => true
      end
  end.

(** Whether [history.map(...)] runs through ([history = []] by default): the
    receiver must be an array, and the callback must run through on every
    entry. *)
Definition history_maps (c : client) (h : value) : bool :=
  match h with
  | VUndefined => true
  | VArr elems => forallb (history_entry_maps c) elems
  | _ => false
  end.

(** Whether the message goes into the request: Gemini's prompt ends with the
    template literal [`User: ${message}`], which converts it to a string;
    OpenAI's list of messages stores it as it is. *)
Definition message_goes_in (c : client) (msg : value) : bool :=
  match c with
  | GeminiClient => converts msg
  | OpenAIClient => true
  end.

(** What one call of the provider does: it throws (an [Error], as the
    provider libraries do), or it returns a result. *)
Inductive provider_outcome : Type :=
| Throws
| Returns (result : value).

(** The upstream provider: its outcome at each attempt. *)
Definition upstream : Type := Z -> provider_outcome.

Inductive event : Type :=
| Attempt (n : Z)
| Sleep (ms : Z).

Definition maxAttempts : Z := 3.

Definition triggers : list jsstring :=
  [js "suicide"; js "kill myself"; js "end my life"; js "hopeless"; js "want to die"].

Definition empty_reply_text (lang : value) : jsstring :=
  if is_str lang (js "hi")
  then js "क्षमा करें, मैं अभी जवाब नहीं दे पाया। आप कैसा महसूस कर रहे हैं?"
  else js "Sorry, I couldn’t generate a response. How are you feeling?".

Definition crisis_text (lang : value) : jsstring :=
  if is_str lang (js "hi")
  then js "आप अकेले नहीं हैं, और मैं आपकी मदद के लिए हूँ। कृपया किसी से संपर्क करें जो आपका समर्थन कर सके।"
  else js "You’re not alone, and I’m here to help. Please reach out to someone who can support you.".

Definition server_error_text (lang : value) : jsstring :=
  if is_str lang (js "hi")
  then js "क्षमा करें, सर्वर में त्रुटि हुई। कृपया फिर से कोशिश करें।"
  else js "Sorry, a server error occurred. Please try again.".

Definition reply_body (text : value) (request_photo : value) : value :=
  VObj [(js "type", VStr (js "reply")); (js "text", text);
        (js "request_photo", request_photo)].

Definition crisis_body (text : value) (helplines : value) : value :=
  VObj [(js "type", VStr (js "crisis")); (js "text", text);
        (js "helplines", helplines)].

(** The [try] block after the provider returned [result]: [Some r] when it
    reaches [return res.json(r)], [None] when it throws a TypeError
    ([replyText.trim] on a reply that is not a string, [message.toLowerCase]
    on a message that is not a string, [fallbackHelplines[lang]] on a
    language that does not convert to a key). *)
Definition classify_reply (req : chat_request) (result : value) : option response :=
  let replyText := extractReplyFromProviderObj result in
  if negb (truthy replyText) then
    Some (res_json (reply_body (VStr (empty_reply_text (lang_of req))) (VBool false)))
  else
    match replyText with
    | VStr reply =>
        match trim reply with
        | [] =>
            Some (res_json (reply_body (VStr (empty_reply_text (lang_of req))) (VBool false)))
        | _ :: _ =>
            let parsed := parseJsonSafe replyText in
            if is_str (get parsed (js "type")) (js "crisis") then
              if truthy (get parsed (js "helplines")) then
                Some (res_json (crisis_body (get parsed (js "text"))
                                            (get parsed (js "helplines"))))
              else
                match helplines_for (lang_of req) with
                | Some helplines =>
                    Some (res_json (crisis_body (get parsed (js "text")) helplines))
                | None => None
                end
            else
              match message req with
              | VStr msg =>
                  let lower := toLowerCase msg in
                  if existsb (fun t => includes lower t) triggers then
                    match helplines_for (lang_of req) with
                    | Some helplines =>
                        Some (res_json (crisis_body (VStr (crisis_text (lang_of req)))
                                                    helplines))
                    | None => None
                    end
                  else
                    Some (res_json (reply_body (VStr (trim reply))
                            (js_or (get parsed (js "request_photo")) (VBool false))))
              | _ => None
              end
        end
    | _ => None
    end.

(** Whether the request to the provider gets built. *)
Definition request_builds (c : client) (req : chat_request) : bool :=
  history_maps c (history req) && message_goes_in c (message req).

(** The whole [try] block of attempt [n]: the request is built from the
    history and the message, the provider is called, its result
    classified. *)
Definition try_attempt (c : client) (req : chat_request) (up : upstream) (n : Z)
  : option response :=
  if request_builds c req then
    match up n with
    | Throws => None
    | Returns result => classify_reply req result
    end
  else None.

(** [Math.min(1000 * 2 ** (attempt - 1), 60000)]. *)
Definition backoff (attempt : Z) : Z := Z.min (1000 * 2 ^ (attempt - 1)) 60000.

(** The [for] loop from [attempt] on, and the statement after it.  [fuel]
    bounds the number of iterations the model unfolds. *)
Fixpoint chat_loop (fuel : nat) (c : client) (req : chat_request) (up : upstream)
                   (attempt : Z)
  : option (list event * response) :=
  match fuel with
  | O => None
  | S fuel' =>
      if attempt <=? maxAttempts then
        match try_attempt c req up attempt with
        | Some r => Some ([Attempt attempt], r)
        | None =>
            if attempt >=? maxAttempts then
              Some ([Attempt attempt],
                    res_json (reply_body (VStr (server_error_text (lang_of req))) (VBool false)))
            else
              match chat_loop fuel' c req up (attempt + 1) with
              | Some (trace, r) => Some (Attempt attempt :: Sleep (backoff attempt) :: trace, r)
              | None => None
              end
        end
      else
        Some ([], res_status_json 429 (VObj [(js "error", VStr (js "Quota exceeded"))]))
  end.

(** The handler of [POST /api/chat]. *)
Definition chat (env : environment) (req : chat_request) (up : upstream)
  : option (list event * response) :=
  match select_client env with
  | Some c => chat_loop (Z.to_nat maxAttempts + 1) c req up 1
  | None =>
      Some ([], res_status_json 500
                  (VObj [(js "error", VStr (js "Missing API credentials for selected provider"))]))
  end.

(* ================================================================= *)
(** ** server.js: POST /api/analyze *)

(** What [fetch] of the pose service and the reading of its body give:
    [Unreachable] is a rejected [fetch] (or a form that could not be built),
    [Answered ok data] an HTTP answer with [pyRes.ok = ok] whose body parses
    to [data] ([None] when [pyRes.json()] rejects). *)
Inductive pose_service : Type :=
| Unreachable
| Answered (ok : bool) (data : option value).

Record analyze_request : Type := {
  file : bool;           (** whether multer attached [req.file] *)
  analyze_lang : value
}.

Definition analyze_lang_of (req : analyze_request) : value :=
  match analyze_lang req with
  | VUndefined => VStr (js "en")
  | l => l
  end.

Definition fallback_analysis (lang : value) : value :=
  VObj [ (js "type", VStr (js "analysis"));
         (js "summary", VStr (if is_str lang (js "hi") then js "डेमो: अच्छा पोस्टर।"
                               else js "Demo: Good posture."));
         (js "recommendations", VArr [VStr (if is_str lang (js "hi") then js "सीधे रहें!"
                                             else js "Keep going!")]);
         (js "notes", VStr (js "Python server offline or unreachable.")) ].

Definition analyze (req : analyze_request) (py : pose_service) : response :=
  if negb (file req) then
    res_status_json 400 (VObj [(js "error", VStr (js "No image"))])
  else
    match py with
    | Answered true (Some data) =>
        res_json (VObj (spread [(js "type", VStr (js "analysis"))] data))
    | _ => res_json (fallback_analysis (analyze_lang_of req))
    end.

End Server.

(* ================================================================= *)
(** ** chat.js: client state and its handlers *)

Inductive role : Type := User | Model.

(** A transcript entry [{ role, parts: [{ text }] }]. *)
Record turn : Type := { turn_role : role; turn_text : value }.

(** [exerciseState = { analysis, currentStep, totalSteps }]. *)
Record ExerciseState : Type := {
  analysis : value;
  currentStep : Z;
  totalSteps : Z
}.

(** What a handler shows or says.  [StepControls header idx total] stands for
    the step header, the step bubble and the Prev / Next / Complete buttons
    of one rendering; the buttons keep the [idx] they were rendered with. *)
Inductive ui_event : Type :=
| UserBubble (text : jsstring)
| BotBubble (text : jsstring)
| StepControls (header : jsstring) (idx total : Z)
| Speak (text : value) (langCode : jsstring)
| CrisisNumbers (helplines : list value)
| CallLink (href text : jsstring)
| CrisisShown
| CrisisHidden.

(** The module-level variables of [chat.js] and the parts of the page its
    handlers test for. *)
Record client_state : Type := {
  chatHistory : list turn;
  exerciseState : option ExerciseState;
  selectedLang : jsstring;
  langSelect : option jsstring;   (** value of the language selector, if in the page *)
  msgContainer : bool;            (** element [chat-messages] is in the page *)
  crisisBox : bool;               (** element [crisis-box] is in the page *)
  crisisNumbers : bool;           (** element [crisis-numbers] is in the page *)
  callHelpline : bool;            (** element [call-helpline] is in the page *)
  speechSynthesis : bool;         (** ['speechSynthesis' in window] *)
  autoSpeak : bool;
  ui : list ui_event
}.

Definition with_history (h : list turn) (st : client_state) : client_state :=
  {| chatHistory := h; exerciseState := exerciseState st;
     selectedLang := selectedLang st; langSelect := langSelect st;
     msgContainer := msgContainer st; crisisBox := crisisBox st;
     crisisNumbers := crisisNumbers st; callHelpline := callHelpline st;
     speechSynthesis := speechSynthesis st;
     autoSpeak := autoSpeak st; ui := ui st |}.

Definition with_exercise (e : option ExerciseState) (st : client_state) : client_state :=
  {| chatHistory := chatHistory st; exerciseState := e;
     selectedLang := selectedLang st; langSelect := langSelect st;
     msgContainer := msgContainer st; crisisBox := crisisBox st;
     crisisNumbers := crisisNumbers st; callHelpline := callHelpline st;
     speechSynthesis := speechSynthesis st;
     autoSpeak := autoSpeak st; ui := ui st |}.

Definition with_ui (u : list ui_event) (st : client_state) : client_state :=
  {| chatHistory := chatHistory st; exerciseState := exerciseState st;
     selectedLang := selectedLang st; langSelect := langSelect st;
     msgContainer := msgContainer st; crisisBox := crisisBox st;
     crisisNumbers := crisisNumbers st; callHelpline := callHelpline st;
     speechSynthesis := speechSynthesis st;
     autoSpeak := autoSpeak st; ui := u |}.

(** Exceptions a handler can raise: the rejection of an aborted [fetch], and
    every other error (a rejected [fetch], a TypeError). *)
Inductive error : Type := AbortError | OtherError.

Inductive result (A : Type) : Type :=
| Ok (a : A)
| Err (e : error).
Arguments Ok {A} a.
Arguments Err {A} e.

(** A handler runs on the client state and either completes or throws; the
    mutations made before a throw stay. *)
Definition handler (A : Type) : Type := client_state -> client_state * result A.

Definition ret {A : Type} (a : A) : handler A := fun st => (st, Ok a).

Definition throw {A : Type} (e : error) : handler A := fun st => (st, Err e).

Definition bind {A B : Type} (c : handler A) (k : A -> handler B) : handler B :=
  fun st =>
    match c st with
    | (st', Ok a) => k a st'
    | (st', Err e) => (st', Err e)
    end.

Definition try_catch {A : Type} (c : handler A) (h : error -> handler A) : handler A :=
  fun st =>
    match c st with
    | (st', Ok a) => (st', Ok a)
    | (st', Err e) => h e st'
    end.

Definition modify (f : client_state -> client_state) : handler unit :=
  fun st => (f st, Ok tt).

Definition state : handler client_state := fun st => (st, Ok st).

Declare Scope handler_scope.
Delimit Scope handler_scope with handler.
Notation "x <- c ;; k" := (bind c (fun x => k))
  (at level 61, c at next level, right associativity) : handler_scope.
Notation "c ;; k" := (bind c (fun _ => k))
  (at level 61, right associativity) : handler_scope.
Open Scope handler_scope.

Definition show (e : ui_event) : handler unit :=
  modify (fun st => with_ui (ui st ++ [e]) st).

(** [chatHistory.push(...)] and [chatHistory.pop()]. *)
Definition push_turn (r : role) (text : value) : handler unit :=
  modify (fun st => with_history (chatHistory st ++ [{| turn_role := r; turn_text := text |}]) st).

Definition pop_turn : handler unit :=
  modify (fun st => with_history (removelast (chatHistory st)) st).

(** The result of a conversion, its TypeError raised. *)
Definition lift {A : Type} (r : option A) : handler A :=
  match r with
  | Some a => ret a
  | None => throw OtherError
  end.

Definition is_hi (l : jsstring) : bool := str_eqb l (js "hi").

Definition is_string (v : value) : bool :=
  match v with VStr _ => true | _ => false end.

(** [typeof v === 'object'] on a truthy value. *)
Definition is_object (v : value) : bool :=
  match v with VArr _ | VObj _ => true | _ => false end.

(** [v[i]] for an integer [i]. *)
Definition at_index (v : value) (i : Z) : value :=
  match v with
  | VArr elems => if 0 <=? i then nth (Z.to_nat i) elems VUndefined else VUndefined
  | VStr s =>
      if 0 <=? i then match nth_error s (Z.to_nat i) with
                      | Some u => VStr [u]
                      | None => VUndefined
                      end
      else VUndefined
  | VObj fields => lookup (decimal i) fields
  | _ => VUndefined
  end.

Definition escape_unit (u : N) : jsstring :=
  if (u =? 38)%N then js "&amp;"
  else if (u =? 60)%N then js "&lt;"
  else if (u =? 62)%N then js "&gt;"
  else if (u =? dquote)%N then js "&quot;"
  else if (u =? 39)%N then js "&#039;"
  else [u].

(** The five chained [replace] calls rewrite disjoint characters and none
    reads what an earlier one wrote, so they act as one pass. *)
Definition escapeHtml (s : value) : jsstring :=
  match s with
  | VStr str => flat_map escape_unit str
  | _ => []
  end.

Section Client.
Context `{JsRuntime}.

Definition appendUserBubble (text : jsstring) : handler unit :=
  st <- state ;;
  if negb (msgContainer st) then ret tt else show (UserBubble text).

(** [(text || '').substring] is a TypeError on a truthy value that is not a
    string; it is read before anything is added to the page.  The bubble
    holds [String(text || '')]. *)
Definition appendBotBubble (text : value) : handler unit :=
  st <- state ;;
  if negb (msgContainer st) then ret tt
  else if truthy text && negb (is_string text) then throw OtherError
  else
    match to_string (js_or text (VStr [])) with
    | Some shown => show (BotBubble shown)
    | None => throw OtherError
    end.

(** [speakText] catches whatever the synthesis throws. *)
Definition speakText (text : value) (langCode : jsstring) : handler unit :=
  st <- state ;;
  if negb (speechSynthesis st) || negb (autoSpeak st) then ret tt
  else show (Speak text langCode).

Definition tts_code (l : jsstring) : jsstring :=
  if is_hi l then js "hi-IN" else js "en-US".

Definition hideCrisis : handler unit :=
  st <- state ;;
  if negb (crisisBox st) then ret tt else show CrisisHidden.

(** [helplines.map(h => ... h.name ... h.phone ...)] is a TypeError on a
    [null] element; the list is written into [crisis-numbers], then the two
    template literals of the call link convert the phone and the name of the
    first helpline to strings, and only then is the box shown. *)
Definition showCrisis (helplines : list value) : handler unit :=
  st <- state ;;
  if negb (crisisNumbers st) || negb (crisisBox st) then ret tt
  else if existsb (fun h => match h with VUndefined | VNull => true | _ => false end) helplines
  then throw OtherError
  else
    show (CrisisNumbers helplines) ;;
    match helplines with
    | first :: _ =>
        if callHelpline st then
          phone <- lift (to_string (get first (js "phone"))) ;;
          name <- lift (to_string (get first (js "name"))) ;;
          show (CallLink (js "tel:" ++ phone) (js "📞 Call " ++ name))
        else ret tt
    | [] => ret tt
    end ;;
    show CrisisShown ;;
    speakText (VStr (if is_hi (selectedLang st)
                     then js "आप ठीक हैं? मदद के लिए हेल्पलाइन पर कॉल करें।"
                     else js "Are you okay? Please call the helpline for help."))
              (tts_code (selectedLang st)).

Definition formatStepNumber (l : jsstring) (idx total : Z) : jsstring :=
  if total <=? 0 then []
  else if is_hi l then js "कदम " ++ decimal idx ++ js "/" ++ decimal total
  else js "Step " ++ decimal idx ++ js " of " ++ decimal total.

Definition formatStepText (l : jsstring) (stepObj : value) (idx total : Z) : jsstring :=
  if negb (truthy stepObj) then []
  else
    let stepNumber :=
      if is_hi l then js "कदम " ++ decimal idx ++ js "/" ++ decimal total
      else js "Step " ++ decimal idx ++ js " of " ++ decimal total in
    let stepTitle :=
      if is_object stepObj && truthy (get stepObj (js "title"))
      then escapeHtml (get stepObj (js "title")) ++ js ": " else [] in
    let stepDetail :=
      if is_object stepObj
      then js_or (get stepObj (js "detail"))
                 (js_or (get stepObj (js "text")) (VStr (JSON_stringify stepObj)))
      else VStr (primitive_to_string stepObj) in
    stepNumber ++ js " - " ++ stepTitle ++ escapeHtml stepDetail.

Definition renderCurrentExerciseStep : handler unit :=
  st <- state ;;
  match exerciseState st with
  | None => ret tt
  | Some e =>
      if negb (msgContainer st) then ret tt
      else
        let idx := currentStep e in
        let total := totalSteps e in
        let step :=
          if truthy (analysis e) && truthy (get (analysis e) (js "recommendations"))
          then at_index (get (analysis e) (js "recommendations")) idx
          else VNull in
        if negb (truthy step) then
          appendBotBubble (VStr (if is_hi (selectedLang st) then js "कदम उपलब्ध नहीं।"
                                 else js "Step not available."))
        else show (StepControls (formatStepNumber (selectedLang st) (idx + 1) total) idx total)
  end.

(** The summary of an analysis; [String(result.score || 'N/A')] is a
    TypeError on a score that does not convert to a string. *)
Definition summary_text (l : jsstring) (result : value) : option jsstring :=
  let posture := escapeHtml (js_or (get result (js "summary"))
                               (js_or (get result (js "posture")) (VStr (js "Unknown")))) in
  match to_string (js_or (get result (js "score")) (VStr (js "N/A"))) with
  | Some text =>
      let score := escapeHtml (VStr text) in
      Some (if is_hi l
            then js "पोस्टर चिन्ह: " ++ posture ++ [newline] ++ js "स्कोर: " ++ score
            else js "Posture: " ++ posture ++ [newline] ++ js "Score: " ++ score)
  | None => None
  end.

Definition handleAnalysisResult (result : value) : handler unit :=
  st <- state ;;
  let l := selectedLang st in
  if negb (truthy result) then
    appendBotBubble (VStr (if is_hi l then js "विश्लेषण उपलब्ध नहीं है।"
                           else js "Analysis not available."))
  else
    summaryText <- lift (summary_text l result) ;;
    appendBotBubble (VStr summaryText) ;;
    (if truthy (get result (js "notes")) then appendBotBubble (get result (js "notes"))
     else ret tt) ;;
    let recommendations := js_or (get result (js "recommendations")) (VArr []) in
    match recommendations with
    | VArr ((first :: _) as recs) =>
        modify (with_exercise (Some {| analysis := result; currentStep := 0;
                                       totalSteps := Z.of_nat (List.length recs) |})) ;;
        renderCurrentExerciseStep ;;
        let firstStepText := formatStepText l first 1 (Z.of_nat (List.length recs)) in
        speakText (VStr (if is_hi l
                         then js "मैं आपकी एक्सरसाइज़ शुरू कर रहा हूँ। पहला कदम: " ++ firstStepText
                         else js "Starting your exercise. First step: " ++ firstStepText))
                  (tts_code l)
    | _ =>
        appendBotBubble (VStr (if is_hi l
                               then js "विश्लेषण पूरा, लेकिन कोई सुझाव उपलब्ध नहीं।"
                               else js "Analysis complete, but no recommendations available.")) ;;
        modify (with_exercise None)
    end ;;
    textToStore <-
      (if truthy (get result (js "notes"))
       then notes <- lift (to_string (get result (js "notes"))) ;;
            ret (summaryText ++ [newline] ++ notes)
       else ret summaryText) ;;
    push_turn Model (VStr textToStore).

Definition goToStep (newIndex : Z) : handler unit :=
  st <- state ;;
  match exerciseState st with
  | None => ret tt
  | Some e =>
      let total := totalSteps e in
      let newIndex := Z.max 0 (Z.min (total - 1) newIndex) in
      modify (with_exercise (Some {| analysis := analysis e; currentStep := newIndex;
                                     totalSteps := totalSteps e |})) ;;
      renderCurrentExerciseStep
  end.

(** [exerciseState.analysis.score ? exerciseState.analysis.score : 0]. *)
Definition final_score (e : ExerciseState) : value :=
  if truthy (analysis e) && truthy (get (analysis e) (js "score"))
  then get (analysis e) (js "score") else VNum 0.

(** The completion message around the text of the final score. *)
Definition completion_message (l : jsstring) (total : Z) (finalScore : jsstring) : jsstring :=
  if is_hi l
  then js "अभ्यास पूरा! " ++ decimal total ++ js " कदम पूरे। अंतिम स्कोर: "
       ++ finalScore ++ js "/100। शानदार!"
  else js "Exercise complete! " ++ decimal total ++ js " steps done. Final score: "
       ++ finalScore ++ js "/100. Great job!".

(** The template literal of the message converts the final score to a
    string, a TypeError on a score that does not convert. *)
Definition completeExercise : handler unit :=
  st <- state ;;
  match exerciseState st with
  | None => ret tt
  | Some e =>
      finalScore <- lift (to_string (final_score e)) ;;
      let completionMsg := completion_message (selectedLang st) (totalSteps e) finalScore in
      appendBotBubble (VStr completionMsg) ;;
      speakText (VStr completionMsg) (tts_code (selectedLang st)) ;;
      modify (with_exercise None)
  end.

End Client.

(* ================================================================= *)
(** ** chat.js: sendMessage *)

(** What [fetch] of [/api/chat] and the reading of the answer give.
    [Rejected AbortError] is the abort fired by the 30 second timer,
    [Rejected OtherError] a network failure; [Resolved ok status raw json] is
    an answer with [resp.ok = ok], whose body reads as the text [raw] (empty
    when [resp.text()] fails) and parses as [json] ([None] when [resp.json()]
    rejects). *)
Inductive fetch_outcome : Type :=
| Rejected (e : error)
| Resolved (ok : bool) (status : Z) (raw : jsstring) (json : option value).

Section Send.
Context `{JsRuntime}.

(** [safeTrim] of chat.js, on a string. *)
Definition safeTrim (s : jsstring) (n : nat) : jsstring :=
  match s with
  | [] => s
  | _ :: _ => if (n <? List.length s)%nat then firstn n s ++ js "…" else s
  end.

(** [(langSelect && langSelect.value) ? langSelect.value : selectedLang || 'en']. *)
Definition request_lang (st : client_state) : jsstring :=
  match langSelect st with
  | Some ((_ :: _) as v) => v
  | _ => match selectedLang st with
         | [] => js "en"
         | (_ :: _) as l => l
         end
  end.

Definition server_error_bubble (reqLang : jsstring) (status : Z) (raw : jsstring) : jsstring :=
  if is_hi reqLang
  then js "सर्वर त्रुटि " ++ decimal status ++ js ": "
       ++ match raw with [] => js "कोई जवाब नहीं" | _ :: _ => safeTrim raw 800 end
  else js "Server error " ++ decimal status ++ js ": "
       ++ match raw with [] => js "No response body" | _ :: _ => safeTrim raw 800 end.

(** From [appendBotBubble(finalText)] to the end of the [try] block. *)
Definition show_reply (reqLang : jsstring) (finalText helplines : value) : handler unit :=
  appendBotBubble finalText ;;
  push_turn Model finalText ;;
  match helplines with
  | VArr ((_ :: _) as hs) => showCrisis hs
  | _ => hideCrisis
  end ;;
  st <- state ;;
  if autoSpeak st then speakText finalText (tts_code reqLang) else ret tt.

(** The [try] block once [resp.json()] gave [parsedResponse]. *)
Definition handle_response (reqLang : jsstring) (parsedResponse : value) : handler unit :=
  if truthy parsedResponse && is_object parsedResponse then
    if is_str (get parsedResponse (js "type")) (js "reply")
       && truthy (get parsedResponse (js "text")) then
      text <- lift (to_string (get parsedResponse (js "text"))) ;;
      show_reply reqLang (VStr (trim text)) VNull
    else if is_str (get parsedResponse (js "type")) (js "crisis")
            && truthy (get parsedResponse (js "text")) then
      text <- lift (to_string (get parsedResponse (js "text"))) ;;
      show_reply reqLang (VStr (trim text))
        (if isArray (get parsedResponse (js "helplines"))
         then get parsedResponse (js "helplines") else VNull)
    else if is_str (get parsedResponse (js "type")) (js "analysis") then
      handleAnalysisResult parsedResponse ;;
      show_reply reqLang
        (js_or (get parsedResponse (js "summary"))
               (js_or (get parsedResponse (js "notes")) (VStr (js "Received analysis."))))
        VNull
    else
      show_reply reqLang
        (VStr (if is_hi reqLang then js "क्षमा करें, मुझे समझ नहीं आया।"
               else js "Sorry, I could not understand the response.")) VNull
  else
    show_reply reqLang
      (VStr (if is_hi reqLang then js "क्षमा करें, जवाब प्राप्त नहीं हुआ।"
             else js "Sorry, no response received.")) VNull.

(** The [try] block: the request, then the handling of the answer. *)
Definition send_try (reqLang : jsstring) (net : fetch_outcome) : handler unit :=
  match net with
  | Rejected e => throw e
  | Resolved false status raw _ =>
      appendBotBubble (VStr (server_error_bubble reqLang status raw)) ;;
      pop_turn
  | Resolved true _ _ None => throw OtherError
  | Resolved true _ _ (Some parsedResponse) => handle_response reqLang parsedResponse
  end.

(** The [catch] block. *)
Definition send_catch (err : error) : handler unit :=
  st <- state ;;
  match err with
  | AbortError =>
      appendBotBubble (VStr (if is_hi (selectedLang st)
                             then js "अनुरोध का समय समाप्त—दुबारा कोशिश करें।"
                             else js "Request timed out — try again."))
  | OtherError =>
      appendBotBubble (VStr (if is_hi (selectedLang st)
                             then js "नेटवर्क या सर्वर त्रुटि—बाद में कोशिश करें।"
                             else js "Network or server error — try again later."))
  end ;;
  pop_turn.

(** [sendMessage] is an [async] function: it runs up to [await fetch(...)],
    and goes on when the request has settled and the body has been read;
    in between, any other handler of the page may run, another send among
    them, as the send button is never disabled.

    [send_start] is the part before the request: [Some reqLang] when a
    request is made, with the language it carries. *)
Definition send_start (text : jsstring) : handler (option jsstring) :=
  match text with
  | [] => ret None
  | _ :: _ =>
      hideCrisis ;;
      appendUserBubble text ;;
      push_turn User (VStr text) ;;
      st <- state ;;
      if negb (msgContainer st) then ret None
      else ret (Some (request_lang st))
  end.

(** [send_settle] is the part after the request: the rest of the [try]
    block, and the [catch]. *)
Definition send_settle (reqLang : jsstring) (net : fetch_outcome) : handler unit :=
  try_catch (send_try reqLang net) send_catch.

(** A send during which no other handler runs. *)
Definition sendMessage (text : jsstring) (net : fetch_outcome) : handler unit :=
  pending <- send_start text ;;
  match pending with
  | Some reqLang => send_settle reqLang net
  | None => ret tt
  end.

(** ** chat.js: what the user and the network can do to the client *)

(** [AnalysisArrived result] is the [if (result) handleAnalysisResult(result)]
    of the two upload handlers (their own bubbles are left out).
    [ClickPrev idx total] and [ClickNext idx total] are clicks on the buttons
    of a rendering [StepControls _ idx total]: disabled for [idx <= 0] and
    for [idx >= total - 1], they call [goToStep(idx - 1)] and
    [goToStep(idx + 1)] with the [idx] of that rendering.
    [Send text net] is a send that nothing interrupts; [SendStart text] and
    [SendSettle reqLang net] are the two parts of a send that other actions
    may come between, the second with the language that the first gave. *)
Inductive action : Type :=
| AnalysisArrived (result : value)
| ClickPrev (idx total : Z)
| ClickNext (idx total : Z)
| ClickComplete
| Send (text : jsstring) (net : fetch_outcome)
| SendStart (text : jsstring)
| SendSettle (reqLang : jsstring) (net : fetch_outcome).

Definition perform (a : action) : handler unit :=
  match a with
  | AnalysisArrived result =>
      if truthy result then handleAnalysisResult result else ret tt
  | ClickPrev idx _ => if idx <=? 0 then ret tt else goToStep (idx - 1)
  | ClickNext idx total => if idx >=? total - 1 then ret tt else goToStep (idx + 1)
  | ClickComplete => completeExercise
  | Send text net => sendMessage text net
  | SendStart text => send_start text ;; ret tt
  | SendSettle reqLang net => send_settle reqLang net
  end.

(** The state after a sequence of actions; an action whose handler throws
    leaves the state as it was at the throw. *)
Definition run_actions (acts : list action) (st : client_state) : client_state :=
  fold_left (fun s a => fst (perform a s)) acts st.

End Send.

(** The state once [chat.js] is loaded in a page that has all its elements,
    for the stored language [l]: the greeting is the only bubble. *)
Definition initial_state (l : jsstring) : client_state :=
  {| chatHistory := []; exerciseState := None; selectedLang := l;
     langSelect := Some l; msgContainer := true; crisisBox := true;
     crisisNumbers := true; callHelpline := true; speechSynthesis := true;
     autoSpeak := true;
     ui := [BotBubble
              (if is_hi l
               then js "हाय! मैं यू-वेल हूँ, आपका दोस्ताना AI साथी। टाइप करें या बोलें। अगर आप असुरक्षित महसूस करते हैं, तो बताएं और मैं हेल्पलाइन साझा करूँगा।"
               else js "Hi! I'm U-Well — your friendly AI companion. Type or speak to start. If you feel unsafe, say so and I'll share helplines.")] |}.

(* ================================================================= *)
(** ** server.js: the other helper and the two demo endpoints *)

Module ServerJs.

(** [safeTrim] of server.js (chat.js has one of its own, above):
    [(String(s || '').length > len) ? String(s).slice(0, len) + '…' : s];
    [None] when [String] throws. *)
Definition safeTrim (s : value) (len : nat) : option value :=
  match to_string (js_or s (VStr [])) with
  | Some text =>
      if (len <? List.length text)%nat then Some (VStr (firstn len text ++ js "…"))
      else Some s
  | None => None
  end.

End ServerJs.

(** A value of [Math.random()]: the number [numer / denom].  Every double
    is such a fraction, and on a double of [0, 1) the two uses below are
    exact: [r > 0.5] is [denom < 2 * numer], and [r * 2] is computed without
    rounding, so that [Math.floor(r * 2)] is the quotient of [2 * numer] by
    [denom]. *)
Record random_draw : Type := { numer : Z; denom : Z }.

(** The handler of [POST /api/posture]. *)
Definition posture (landmarks : value) (rnd : random_draw) : response :=
  if negb (truthy landmarks) then
    res_status_json 400 (VObj [(js "error", VStr (js "No landmarks"))])
  else
    let score := if denom rnd <? 2 * numer rnd then js "Good" else js "Adjust shoulders" in
    res_json (VObj [(js "message", VStr (js "Posture score: " ++ score));
                    (js "recommendations", VArr [VStr (js "Straighten up")])]).

Definition insight_texts : list value :=
  [VStr (js "Balanced moods—great!"); VStr (js "More positives ahead.")].

(** The handler of [POST /api/insights]. *)
Definition insights (rnd : random_draw) : response :=
  res_json (VObj [(js "insight",
                   at_index (VArr insight_texts)
                            (Z.of_nat (List.length insight_texts) * numer rnd / denom rnd))]).

(* ================================================================= *)
(** ** chat.js: uploads and the send button *)

Section Uploads.
Context `{JsRuntime}.

(** [uploadImageForAnalysis]: the value it resolves to, [null] after a
    failure that it has reported in a bubble.  [fileBlob] tells whether the
    argument is a picture; [FormData.append], which comes before the [try],
    throws on anything else. *)
Definition uploadImageForAnalysis (fileBlob : bool) (net : fetch_outcome) : handler value :=
  st <- state ;;
  let l := selectedLang st in
  appendBotBubble (VStr (if is_hi l then js "विश्लेषण के लिए फोटो अपलोड कर रहा हूँ..."
                         else js "Uploading image for analysis...")) ;;
  (if fileBlob then ret tt else throw OtherError) ;;
  try_catch
    match net with
    | Rejected e => throw e
    | Resolved false status _ _ =>
        appendBotBubble (VStr (if is_hi l then js "सर्वर त्रुटि: " ++ decimal status
                               else js "Server error: " ++ decimal status)) ;;
        ret VNull
    | Resolved true _ _ None => throw OtherError
    | Resolved true _ _ (Some json) => ret json
    end
    (fun _ =>
       appendBotBubble (VStr (if is_hi l then js "नेटवर्क त्रुटि—दुबारा कोशिश करें।"
                              else js "Network error — try again.")) ;;
       ret VNull).

(** [handleFileSelected]: [file] tells whether the input holds a file; the
    [then] and [catch] of the promise are the [try] and [catch] here. *)
Definition handleFileSelected (file : bool) (net : fetch_outcome) : handler unit :=
  if negb file then ret tt
  else
    st <- state ;;
    appendUserBubble (if is_hi (selectedLang st) then js "[फ़ोटो अपलोड किया]"
                      else js "[Photo uploaded]") ;;
    try_catch
      (result <- uploadImageForAnalysis true net ;;
       if truthy result then handleAnalysisResult result else ret tt)
      (fun _ =>
         st' <- state ;;
         appendBotBubble (VStr (if is_hi (selectedLang st') then js "अपलोड विफल।"
                                else js "Upload failed."))).

(** The click on the capture button.  [blob] is what [captureFrameAsBlob]
    gives: [None] when it rejects (no video), [Some false] when the canvas
    yields no picture ([null]), [Some true] for a picture. *)
Definition captureClick (blob : option bool) (net : fetch_outcome) : handler unit :=
  try_catch
    match blob with
    | None => throw OtherError
    | Some fileBlob =>
        st <- state ;;
        appendUserBubble (if is_hi (selectedLang st) then js "[फ़ोटो कैप्चर किया]"
                          else js "[Photo captured]") ;;
        result <- uploadImageForAnalysis fileBlob net ;;
        if truthy result then handleAnalysisResult result else ret tt
    end
    (fun _ =>
       st' <- state ;;
       appendBotBubble (VStr (if is_hi (selectedLang st') then js "फ़ोटो कैप्चर विफल।"
                              else js "Failed to capture photo."))).

(** The click on the send button: [inputValue] is the text of the input
    field, [None] when the page has none. *)
Definition sendClick (inputValue : option jsstring) (net : fetch_outcome) : handler unit :=
  let txt := match inputValue with
             | Some v => trim v
             | None => []
             end in
  match txt with
  | [] => ret tt
  | _ :: _ => sendMessage txt net
  end.

End Uploads.

(* ================================================================= *)
(** ** journal.js: the insights button *)

(** What a click on the insights button ends in: the toast that there are
    no entries, the list item written into the insights list (the modal is
    then opened), or a TypeError that leaves the handler before it shows
    anything. *)
Inductive insights_outcome : Type :=
| NoEntriesToast
| InsightShown (html : jsstring)
| InsightsTypeError.

Definition insightTexts (hi : bool) : list value :=
  if hi then
    [ VStr (js "इस सप्ताह आप ज्यादातर सकारात्मक लग रहे हैं—जारी रखें!");
      VStr (js "अधिक " ++ [dquote] ++ js "थके हुए" ++ [dquote]
            ++ js " दिन नजर आ रहे हैं; छोटी सैर आजमाएं?");
      VStr (js "संतुलित मूड: शानदार आत्म-जागरूकता!") ]
  else
    [ VStr (js "You seem mostly positive this week—keep it up!");
      VStr (js "Noticing more " ++ [dquote] ++ js "tired" ++ [dquote]
            ++ js " days; try a short walk?");
      VStr (js "Balanced moods: Great self-awareness!") ].

Section Journal.
Context `{JsRuntime}.

(** [loadEntries]: [stored] is what [localStorage.getItem] gives, [None] for
    [null]; a missing or empty item is read as the empty list, and so is one
    that does not parse. *)
Definition loadEntries (stored : option jsstring) : value :=
  match stored with
  | Some ((_ :: _) as s) =>
      match JSON_parse s with
      | Some entries => entries
      | None => VArr []
      end
  | _ => VArr []
  end.

(** The handler of the click on the insights button.  [hi] is
    [navigator.language.startsWith('hi')], [i] the index
    [Math.floor(Math.random() * 3)] drawn for the client's own text, [net]
    what the request to [/api/insights] and [res.json()] give ([res.ok] is
    not looked at).  [slice] and [map] are TypeErrors on what has no such
    method, [e.mood] on a [null] entry, [moods.join] on a mood that does not
    convert to a string, [data.insight] on a [null] body and the template
    literal on an insight that does not convert; only the last three are
    inside the [try], whose [catch] shows the client's own text (a string of
    the table, or [undefined]). *)
Definition insightsClick (stored : option jsstring) (hi : bool) (i : Z) (net : fetch_outcome)
  : insights_outcome :=
  match loadEntries stored with
  | VArr all =>
      let entries := skipn (List.length all - 5) all in
      match entries with
      | [] => NoEntriesToast
      | _ :: _ =>
          if existsb (fun e => match e with VUndefined | VNull => true | _ => false end) entries
          then InsightsTypeError
          else
            let moods := map (fun e => get e (js "mood")) entries in
            let randomInsight := at_index (VArr (insightTexts hi)) i in
            let own :=
              InsightShown (js "<li>" ++ primitive_to_string randomInsight ++ js "</li>") in
            if negb (converts (VArr moods)) then own
            else
              match net with
              | Resolved _ _ _ (Some data) =>
                  match data with
                  | VUndefined | VNull => own
                  | _ =>
                      match to_string (js_or (get data (js "insight")) randomInsight) with
                      | Some insight => InsightShown (js "<li>" ++ insight ++ js "</li>")
                      | None => own
                      end
                  end
              | _ => own
              end
      end
  | VStr [] => NoEntriesToast
  | _ => InsightsTypeError
  end.

End Journal.

(* ================================================================= *)
(** ** A runtime to run the handlers on examples

    ASCII lower-casing, and [JSON.parse] / [JSON.stringify] on the fragment
    of JSON without [\u] escapes.  The theorems below hold for every
    runtime; this one evaluates them on inputs of the fragment, where it
    agrees with JavaScript. *)

Definition ascii_lower (u : N) : N :=
  if ((65 <=? u) && (u <=? 90))%N then (u + 32)%N else u.

Definition json_space (u : N) : bool :=
  ((u =? 32) || (u =? 9) || (u =? 10) || (u =? 13))%N.

Definition is_digit (u : N) : bool := ((48 <=? u) && (u <=? 57))%N.

(** A run of digits read after the digits [acc]: their value, how many
    there are, and what follows. *)
Fixpoint json_digits (s : jsstring) (acc count : Z) : Z * Z * jsstring :=
  match s with
  | u :: rest =>
      if is_digit u then json_digits rest (acc * 10 + (Z.of_N u - 48)) (count + 1)
      else (acc, count, s)
  | [] => (acc, count, [])
  end.

(** A number literal: an optional minus sign, [0] or digits that do not
    start with [0], an optional fraction, an optional exponent.  Its value
    is the nearest double. *)
Definition json_number (s : jsstring) : option (value * jsstring) :=
  let (neg, ds) := match s with
                   | 45%N :: ds => (true, ds)
                   | _ => (false, s)
                   end in
  match ds with
  | d :: after =>
      if is_digit d then
        let '(whole, _, rest) := json_digits ds 0 0 in
        let leading_zero := (d =? 48)%N && match after with
                                           | d' :: _ => is_digit d'
                                           | [] => false
                                           end in
        if leading_zero then None
        else
          let fraction :=
            match rest with
            | 46%N :: fs =>
                let '(m, count, rest') := json_digits fs whole 0 in
                if count =? 0 then None else Some (m, count, rest')
            | _ => Some (whole, 0, rest)
            end in
          match fraction with
          | None => None
          | Some (m, places, rest1) =>
              let exponent :=
                match rest1 with
                | c :: es =>
                    if ((c =? 69) || (c =? 101))%N then
                      let (eneg, es') := match es with
                                         | 45%N :: t => (true, t)
                                         | 43%N :: t => (false, t)
                                         | _ => (false, es)
                                         end in
                      let '(e, count, rest2) := json_digits es' 0 0 in
                      if count =? 0 then None else Some (if eneg then - e else e, rest2)
                    else Some (0, rest1)
                | [] => Some (0, rest1)
                end in
              match exponent with
              | None => None
              | Some (e, rest2) => Some (VNum (number_of_decimal neg m (e - places)), rest2)
              end
          end
      else None
  | [] => None
  end.

(** The characters of a string literal after its opening quote. *)
Fixpoint json_chars (s : jsstring) (acc : jsstring) : option (jsstring * jsstring) :=
  match s with
  | [] => None
  | u :: rest =>
      if (u =? dquote)%N then Some (rev acc, rest)
      else if (u <? 32)%N then None
      else if (u =? 92)%N then
        match rest with
        | e :: rest' =>
            if (e =? dquote)%N || (e =? 92)%N || (e =? 47)%N then json_chars rest' (e :: acc)
            else if (e =? 110)%N then json_chars rest' (10%N :: acc)
            else if (e =? 116)%N then json_chars rest' (9%N :: acc)
            else if (e =? 114)%N then json_chars rest' (13%N :: acc)
            else if (e =? 98)%N then json_chars rest' (8%N :: acc)
            else if (e =? 102)%N then json_chars rest' (12%N :: acc)
            else None
        | [] => None
        end
      else json_chars rest (u :: acc)
  end.

Fixpoint json_value (fuel : nat) (s : jsstring) : option (value * jsstring) :=
  match fuel with
  | O => None
  | S fuel' =>
      let s := drop_while json_space s in
      if starts_with s (js "null") then Some (VNull, skipn 4 s)
      else if starts_with s (js "true") then Some (VBool true, skipn 4 s)
      else if starts_with s (js "false") then Some (VBool false, skipn 5 s)
      else
        match s with
        | [] => None
        | u :: rest =>
            if (u =? dquote)%N then
              match json_chars rest [] with
              | Some (str, rest') => Some (VStr str, rest')
              | None => None
              end
            else if (u =? 91)%N then
              match drop_while json_space rest with
              | 93%N :: rest' => Some (VArr [], rest')
              | _ => json_elements fuel' rest []
              end
            else if (u =? 123)%N then
              match drop_while json_space rest with
              | 125%N :: rest' => Some (VObj [], rest')
              | _ => json_members fuel' rest []
              end
            else json_number s
        end
  end
with json_elements (fuel : nat) (s : jsstring) (acc : list value)
  : option (value * jsstring) :=
  match fuel with
  | O => None
  | S fuel' =>
      match json_value fuel' s with
      | Some (v, rest) =>
          match drop_while json_space rest with
          | 44%N :: rest' => json_elements fuel' rest' (v :: acc)
          | 93%N :: rest' => Some (VArr (rev (v :: acc)), rest')
          | _ => None
          end
      | None => None
      end
  end
with json_members (fuel : nat) (s : jsstring) (acc : list (jsstring * value))
  : option (value * jsstring) :=
  match fuel with
  | O => None
  | S fuel' =>
      match drop_while json_space s with
      | 34%N :: rest =>
          match json_chars rest [] with
          | Some (k, rest1) =>
              match drop_while json_space rest1 with
              | 58%N :: rest2 =>
                  match json_value fuel' rest2 with
                  | Some (v, rest3) =>
                      match drop_while json_space rest3 with
                      | 44%N :: rest4 => json_members fuel' rest4 (set_field acc k v)
                      | 125%N :: rest4 => Some (VObj (set_field acc k v), rest4)
                      | _ => None
                      end
                  | None => None
                  end
              | _ => None
              end
          | None => None
          end
      | _ => None
      end
  end.

Definition json_parse (s : jsstring) : option value :=
  match json_value (2 * List.length s + 2) s with
  | Some (v, rest) =>
      match drop_while json_space rest with
      | [] => Some v
      | _ :: _ => None
      end
  | None => None
  end.

Definition hex_digit (n : N) : N := if (n <? 10)%N then (48 + n)%N else (87 + n)%N.

Definition json_quote_unit (u : N) : jsstring :=
  if (u =? dquote)%N then [92%N; dquote]
  else if (u =? 92)%N then [92%N; 92%N]
  else if (u =? 8)%N then js "\b"
  else if (u =? 9)%N then js "\t"
  else if (u =? 10)%N then js "\n"
  else if (u =? 12)%N then js "\f"
  else if (u =? 13)%N then js "\r"
  else if (u <? 32)%N then js "\u00" ++ [hex_digit (u / 16); hex_digit (u mod 16)]
  else [u].

Definition json_quote (s : jsstring) : jsstring :=
  dquote :: flat_map json_quote_unit s ++ [dquote].

Fixpoint json_stringify (v : value) : jsstring :=
  match v with
  | VUndefined | VNull => js "null"
  | VBool true => js "true"
  | VBool false => js "false"
  | VNum x =>
      match Prim2SF x with
      | S754_nan | S754_infinity _ => js "null"
      | _ => number_to_string x
      end
  | VStr s => json_quote s
  | VArr elems =>
      js "[" ++
      (fix items (l : list value) : jsstring :=
         match l with
         | [] => []
         | x :: rest =>
             json_stringify x ++ match rest with
                                 | [] => []
                                 | _ :: _ => 44%N :: items rest
                                 end
         end) elems
      ++ js "]"
  | VObj fields =>
      js "{" ++
      (fix members (l : list (jsstring * value)) (first : bool) : jsstring :=
         match l with
         | [] => []
         | (_, VUndefined) :: rest => members rest first
         | (k, x) :: rest =>
             (if first then [] else [44%N]) ++ json_quote k ++ 58%N :: json_stringify x
             ++ members rest false
         end) fields true
      ++ js "}"
  end.

Definition example_runtime : JsRuntime :=
  {| toLowerCase := map ascii_lower;
     JSON_parse := json_parse;
     JSON_stringify := json_stringify |}.

(** The text of a JSON object with string members, for examples. *)
Definition json_text (members : list (string * string)) : jsstring :=
  js "{" ++
  (fix go (l : list (string * string)) : jsstring :=
     match l with
     | [] => []
     | (k, v) :: rest =>
         json_quote (js k) ++ js ":" ++ json_quote (js v)
         ++ match rest with [] => [] | _ :: _ => js "," ++ go rest end
     end) members
  ++ js "}".

(* ================================================================= *)
(** ** Vocabulary of the properties *)

(** The trace of [k] attempts that each threw and were followed by their
    back-off, the first of them being attempt [from]. *)
Fixpoint failed_attempts (k : nat) (from : Z) : list event :=
  match k with
  | O => []
  | S k' => Attempt from :: Sleep (backoff from) :: failed_attempts k' (from + 1)
  end.

Definition sleeps (trace : list event) : list Z :=
  flat_map (fun e => match e with Sleep ms => [ms] | Attempt _ => [] end) trace.

Definition attempts (trace : list event) : list Z :=
  flat_map (fun e => match e with Attempt n => [n] | Sleep _ => [] end) trace.

(** A reply the handler takes for empty: [null], the empty string, or a
    string of white space. *)
Definition empty_reply (v : value) : bool :=
  negb (truthy v) ||
  match v with
  | VStr s => match trim s with [] => true | _ :: _ => false end
  | _ => false
  end.

Section ReplyKinds.
Context `{JsRuntime}.

(** The reply is itself a JSON payload of type "crisis". *)
Definition declares_crisis (reply : jsstring) : bool :=
  is_str (get (parseJsonSafe (VStr reply)) (js "type")) (js "crisis").

End ReplyKinds.

(** The body of the soft apology, of the empty-reply message and of the two
    error answers. *)
Definition apology (l : value) : response :=
  res_json (reply_body (VStr (server_error_text l)) (VBool false)).

Definition no_reply_message (l : value) : response :=
  res_json (reply_body (VStr (empty_reply_text l)) (VBool false)).

Definition missing_credentials : response :=
  res_status_json 500
    (VObj [(js "error", VStr (js "Missing API credentials for selected provider"))]).

Definition quota_exceeded : response :=
  res_status_json 429 (VObj [(js "error", VStr (js "Quota exceeded"))]).

(** A fenced block: opening fence, language tag, white space, body, white
    space, closing fence. *)
Definition fenced (tag ws1 body ws2 : jsstring) : jsstring :=
  ticks3 ++ (tag ++ ws1 ++ body ++ ws2) ++ ticks3.

(** A body whose first character is neither white space, a word character
    nor a backtick, and whose last character is not white space (as the text
    of a JSON object or array is). *)
Definition json_like (body : jsstring) : bool :=
  match body with
  | c :: _ =>
      negb (is_space c) && negb (is_word c) && negb (c =? backtick)%N
      && negb (is_space (last body c))
  | [] => false
  end.

(** A text that neither starts with white space or a backtick nor ends with
    white space. *)
Definition plain (s : jsstring) : bool :=
  match s with
  | c :: _ => negb (is_space c) && negb (c =? backtick)%N && negb (is_space (last s c))
  | [] => false
  end.

(** Inputs of the examples. *)
Definition google_env : environment :=
  {| LLM_PROVIDER := None; GOOGLE_API_KEY := Some (js "key"); OPENAI_API_KEY := None |}.

Definition no_key_env : environment :=
  {| LLM_PROVIDER := Some (js "openai"); GOOGLE_API_KEY := Some (js "key");
     OPENAI_API_KEY := None |}.

Definition hopeless_request : chat_request :=
  {| message := VStr (js "I feel hopeless"); lang := VStr (js "en"); history := VArr [] |}.

(** The same message from the locale hi. *)
Definition hopeless_request_hi : chat_request :=
  {| message := VStr (js "I feel hopeless"); lang := VStr (js "hi"); history := VArr [] |}.

(** The same message from a locale that has no helplines in the table. *)
Definition hopeless_request_fr : chat_request :=
  {| message := VStr (js "I feel hopeless"); lang := VStr (js "fr"); history := VArr [] |}.

Definition always_throws : upstream := fun _ => Throws.

(** An OpenAI-shaped completion with the given content. *)
Definition openai_result (content : value) : value :=
  VObj [(js "choices", VArr [VObj [(js "message", VObj [(js "content", content)])]])].

(** A Gemini-shaped result with the given part text. *)
Definition gemini_result (text : value) : value :=
  VObj [(js "response",
         VObj [(js "candidates",
                VArr [VObj [(js "content", VObj [(js "parts", VArr [VObj [(js "text", text)]])])]])])].

(** An exercise state is well formed: its step is one of its steps, and it
    has as many steps as its analysis has recommendations. *)
Definition exercise_ok (e : ExerciseState) : Prop :=
  0 <= currentStep e < totalSteps e
  /\ exists recs, get (analysis e) (js "recommendations") = VArr recs
                  /\ totalSteps e = Z.of_nat (List.length recs).

Definition client_ok (st : client_state) : Prop :=
  match exerciseState st with
  | None => True
  | Some e => exercise_ok e
  end.

(** A send that fails: the request is rejected (network failure, or the
    abort of the 30 second timer) or the answer is not OK. *)
Definition failed_send (net : fetch_outcome) : bool :=
  match net with
  | Rejected _ => true
  | Resolved ok _ _ _ => negb ok
  end.

(** A handler that leaves the exercise state alone, whatever it does else. *)
Definition keeps_exercise {A : Type} (h : handler A) : Prop :=
  forall st, exerciseState (fst (h st)) = exerciseState st.

(** A handler that maintains the well-formedness of the exercise state. *)
Definition maintains {A : Type} (h : handler A) : Prop :=
  forall st, client_ok st -> client_ok (fst (h st)).

(** The analysis of the scenario of the specification. *)
Definition two_step_analysis : value :=
  VObj [ (js "type", VStr (js "analysis"));
         (js "summary", VStr (js "Rounded shoulders"));
         (js "score", VNum 72);
         (js "recommendations", VArr [VStr (js "Sit straight"); VStr (js "Relax shoulders")]) ].

(** A reply that declares a crisis and brings an empty list of helplines. *)
Definition declared_crisis_reply : jsstring :=
  js "{" ++ json_quote (js "type") ++ js ":" ++ json_quote (js "crisis") ++ js ","
  ++ json_quote (js "text") ++ js ":" ++ json_quote (js "Stay safe") ++ js ","
  ++ json_quote (js "helplines") ++ js ":[]}".

(** A provider whose first result has neither shape and whose later results
    are well formed. *)
Definition shapeless_then_fine : upstream :=
  fun n => if n =? 1 then Returns (VObj [])
           else Returns (openai_result (VStr (js "I am here for you."))).

(** A provider that throws once and then returns white space. *)
Definition throws_then_blank : upstream :=
  fun n => if n =? 1 then Throws else Returns (openai_result (VStr (js "   "))).

(** A fenced JSON reply as Gemini sends it. *)
Definition fenced_reply : jsstring :=
  fenced (js "json") [newline]
         (json_text [("type", "reply"); ("text", "Hello there")]%string) [newline].

(** Fenced JSON replies whose [text] member is the empty string, and a
    number. *)
Definition empty_text_body : jsstring := json_text [("type", "reply"); ("text", "")]%string.

Definition fenced_empty_text_reply : jsstring :=
  fenced (js "json") [newline] empty_text_body [newline].

Definition fenced_number_text_reply : jsstring :=
  fenced (js "json") [newline] (js "{" ++ json_quote (js "text") ++ js ":5}") [newline].

(** [Math.random()] gives a number of [0, 1). *)
Definition in_unit_interval (rnd : random_draw) : Prop := 0 <= numer rnd < denom rnd.

(** The object has a member of that name. *)
Definition has_field (k : jsstring) (fields : list (jsstring * value)) : bool :=
  existsb (fun kv => str_eqb (fst kv) k) fields.

(** The message holds one of the crisis keywords. *)
Section Keywords.
Context `{JsRuntime}.

Definition has_trigger (msg : jsstring) : bool :=
  existsb (fun t => includes (toLowerCase msg) t) triggers.

End Keywords.

(** The parts of the page and the switches that the handlers test. *)
Definition page (st : client_state)
  : bool * bool * bool * bool * bool * jsstring * option jsstring * bool :=
  (msgContainer st, crisisBox st, crisisNumbers st, speechSynthesis st, autoSpeak st,
   selectedLang st, langSelect st, callHelpline st).

(** A handler that leaves the component [f] of the state alone. *)
Definition keeps_field {A B : Type} (f : client_state -> B) (h : handler A) : Prop :=
  forall st, f (fst (h st)) = f st.

(** A handler that only appends to the transcript. *)
Definition appends {A : Type} (h : handler A) : Prop :=
  forall st, exists extra, chatHistory (fst (h st)) = chatHistory st ++ extra.

(** An upload that brings no analysis: the request is rejected, the answer is
    not OK or cannot be read, or what it holds is falsy. *)
Definition upload_failed (net : fetch_outcome) : bool :=
  match net with
  | Resolved true _ _ (Some json) => negb (truthy json)
  | _ => true
  end.

(** The answer to a send is not an analysis. *)
Definition not_an_analysis (net : fetch_outcome) : bool :=
  match net with
  | Resolved true _ _ (Some parsedResponse) =>
      negb (is_str (get parsedResponse (js "type")) (js "analysis"))
  | _ => true
  end.

(** A click on one of the exercise controls. *)
Definition is_click (a : action) : bool :=
  match a with
  | ClickPrev _ _ | ClickNext _ _ | ClickComplete => true
  | _ => false
  end.

(** None of the five characters that [escapeHtml] rewrites. *)
Definition html_safe (u : N) : bool :=
  negb ((u =? 38) || (u =? 60) || (u =? 62) || (u =? dquote) || (u =? 39))%N.

(** A Gemini reply that asks for a photo, fenced as the prompt makes it. *)
Definition photo_request_body : jsstring :=
  js "{" ++ json_quote (js "type") ++ js ":" ++ json_quote (js "reply") ++ js ","
  ++ json_quote (js "text") ++ js ":" ++ json_quote (js "Could you share a photo?") ++ js ","
  ++ json_quote (js "request_photo") ++ js ":true}".

Definition calm_request : chat_request :=
  {| message := VStr (js "I had a long day"); lang := VStr (js "en"); history := VArr [] |}.

(** One of the four characters that open markup or end an attribute value. *)
Definition is_markup (u : N) : bool :=
  ((u =? 60) || (u =? 62) || (u =? dquote) || (u =? 39))%N.

(** The pose service brings no analysis: it is unreachable, its status is not
    a success, or its body cannot be read. *)
Definition pose_failed (py : pose_service) : bool :=
  match py with
  | Answered true (Some _) => false
  | _ => true
  end.

(** The step that [goToStep] settles on. *)
Definition clamped (total newIndex : Z) : Z := Z.max 0 (Z.min (total - 1) newIndex).

(** Answers of [/api/chat] as the client reads them. *)
Definition padded_reply : value :=
  VObj [(js "type", VStr (js "reply")); (js "text", VStr (js "  Hello there  "))].

Definition crisis_with_null_helpline : value :=
  VObj [(js "type", VStr (js "crisis")); (js "text", VStr (js "Please reach out"));
        (js "helplines", VArr [VNull])].

(** A provider that returns a plain reply at every attempt. *)
Definition always_fine : upstream :=
  fun _ => Returns (openai_result (VStr (js "I am here for you."))).

(** A request body without a message, and one whose history is not a list. *)
Definition no_message_request : chat_request :=
  {| message := VUndefined; lang := VStr (js "en"); history := VArr [] |}.

Definition bad_history_request : chat_request :=
  {| message := VStr (js "Hi"); lang := VStr (js "en"); history := VStr (js "none") |}.

(** The language has an entry in the table of helplines. *)
Definition listed_language (l : value) : bool :=
  match to_string l with
  | Some key => str_eqb key (js "en") || str_eqb key (js "hi")
  | None => false
  end.

(** What is shown is spoken text only. *)
Definition is_speech (e : ui_event) : bool :=
  match e with
  | Speak _ _ => true
  | _ => false
  end.

(** The value that [photo_request_body] is the text of, and the two
    providers that send it: Gemini in a fence, OpenAI as it is. *)
Definition photo_request_value : value :=
  VObj [(js "type", VStr (js "reply")); (js "text", VStr (js "Could you share a photo?"));
        (js "request_photo", VBool true)].

Definition fenced_photo_request : upstream :=
  fun _ => Returns (gemini_result
                      (VStr (fenced (js "json") [newline] photo_request_body [newline]))).

Definition raw_photo_request : upstream :=
  fun _ => Returns (openai_result (VStr photo_request_body)).

(** An upload, and members that a pose service may answer with. *)
Definition upload_request : analyze_request := {| file := true; analyze_lang := VUndefined |}.

Definition relayed_fields : list (jsstring * value) :=
  [(js "type", VStr (js "posture")); (js "score", VNum 80)].

(** The client once the analysis of the scenario has arrived. *)
Definition exercise_started : client_state :=
  run_actions (H := example_runtime) [AnalysisArrived two_step_analysis]
              (initial_state (js "en")).

(** A journal that holds entries, the five newest of which are objects. *)
Definition journal_of (entries : list value) : Prop :=
  entries <> []
  /\ forallb is_object (skipn (List.length entries - 5) entries) = true.

(** A stored journal of one entry. *)
Definition one_entry_journal : jsstring :=
  js "[{" ++ json_quote (js "mood") ++ js ":" ++ json_quote (js "happy") ++ js ","
  ++ json_quote (js "text") ++ js ":" ++ json_quote (js "A good day") ++ js "}]".

(* ================================================================= *)
(** ** Strings *)

Lemma str_eqb_eq : forall s t, str_eqb s t = true <-> s = t.
Proof.
  induction s as [|x s IH]; destruct t as [|y t]; simpl; split; try congruence.
  - intros E. apply andb_true_iff in E as [Exy Est].
    apply N.eqb_eq in Exy. apply IH in Est. congruence.
  - intros E. injection E as -> ->.
    apply andb_true_iff. split; [apply N.eqb_refl | now apply IH].
Qed.

Lemma str_eqb_refl : forall s, str_eqb s s = true.
Proof. intros s. now apply str_eqb_eq. Qed.

(* ================================================================= *)
(** ** POST /api/chat: the retry loop *)

Lemma message_goes_in_string : forall c msg, message_goes_in c (VStr msg) = true.
Proof. now intros []. Qed.

Lemma request_builds_string : forall c req msg,
  history_maps c (history req) = true ->
  message req = VStr msg ->
  request_builds c req = true.
Proof.
  intros c req msg Hh Hm. unfold request_builds.
  now rewrite Hh, Hm, message_goes_in_string.
Qed.

Lemma is_str_eq : forall v lit, is_str v lit = true <-> v = VStr lit.
Proof.
  intros v lit. destruct v; cbn; split; try discriminate.
  - intros E. apply str_eqb_eq in E. now subst.
  - intros [= ->]. apply str_eqb_refl.
Qed.

Lemma is_str_neq : forall v lit, v <> VStr lit -> is_str v lit = false.
Proof.
  intros v lit Hne. destruct (is_str v lit) eqn:E; [|reflexivity].
  apply is_str_eq in E. contradiction.
Qed.

Section ChatFacts.
Context `{JsRuntime}.
Variables (c : client) (req : chat_request) (up : upstream).

Lemma try_attempt_throws : forall n, up n = Throws -> try_attempt c req up n = None.
Proof.
  intros n E. unfold try_attempt. rewrite E. now destruct (request_builds c req).
Qed.

Lemma try_attempt_returns : forall n result,
  request_builds c req = true ->
  up n = Returns result ->
  try_attempt c req up n = classify_reply req result.
Proof. intros n result Eb E. unfold try_attempt. now rewrite Eb, E. Qed.

(** Every answer that the [try] block returns is a [res.json]. *)
Lemma classify_reply_status : forall result r,
  classify_reply req result = Some r -> status r = 200.
Proof.
  intros result r. unfold classify_reply.
  destruct (negb (truthy (extractReplyFromProviderObj result))); [now intros [= <-]|].
  destruct (extractReplyFromProviderObj result) as [| | | | reply | |]; try discriminate.
  destruct (trim reply); [now intros [= <-]|].
  destruct (is_str _ _).
  { destruct (truthy _); [now intros [= <-]|].
    destruct (helplines_for _); [now intros [= <-]|discriminate]. }
  destruct (message req); try discriminate.
  destruct (existsb _ _); [|now intros [= <-]].
  destruct (helplines_for _); [now intros [= <-]|discriminate].
Qed.

(** Attempts [a], ..., [a + k - 1] throw and attempt [a + k] answers: the
    loop backs off [k] times and returns that answer. *)
Lemma chat_loop_first_answer : forall (k fuel : nat) (a : Z) (r : response),
  (k < fuel)%nat ->
  a + Z.of_nat k <= maxAttempts ->
  (forall j, a <= j < a + Z.of_nat k -> try_attempt c req up j = None) ->
  try_attempt c req up (a + Z.of_nat k) = Some r ->
  chat_loop fuel c req up a = Some (failed_attempts k a ++ [Attempt (a + Z.of_nat k)], r).
Proof.
  induction k as [|k IH]; intros fuel a r Hfuel Hle Hfail Hok;
    (destruct fuel as [|fuel]; [lia|]); simpl.
  - assert (a + Z.of_nat 0 = a) as Ea by lia. rewrite Ea in *.
    destruct (Z.leb_spec a maxAttempts); [|lia]. now rewrite Hok, Z.add_0_r.
  - destruct (Z.leb_spec a maxAttempts); [|lia].
    rewrite Hfail by lia.
    destruct (Z.geb_spec a maxAttempts); [lia|].
    rewrite (IH fuel (a + 1) r); try lia.
    + now replace (a + 1 + Z.of_nat k) with (a + Z.of_nat (S k)) by lia.
    + intros j Hj. apply Hfail. lia.
    + now replace (a + 1 + Z.of_nat k) with (a + Z.of_nat (S k)) by lia.
Qed.

(** Every attempt from [a] to the last throws: the loop backs off after each
    but the last and returns the apology from inside the [catch]. *)
Lemma chat_loop_all_fail : forall (k fuel : nat) (a : Z),
  (k < fuel)%nat ->
  a + Z.of_nat k = maxAttempts ->
  (forall j, a <= j <= maxAttempts -> try_attempt c req up j = None) ->
  chat_loop fuel c req up a
  = Some (failed_attempts k a ++ [Attempt maxAttempts], apology (lang_of req)).
Proof.
  induction k as [|k IH]; intros fuel a Hfuel Hsum Hfail;
    (destruct fuel as [|fuel]; [lia|]); simpl.
  - assert (a = maxAttempts) as -> by lia.
    rewrite Hfail by lia. reflexivity.
  - destruct (Z.leb_spec a maxAttempts); [|lia].
    rewrite Hfail by lia.
    destruct (Z.geb_spec a maxAttempts); [lia|].
    rewrite (IH fuel (a + 1)); try lia; [reflexivity|].
    intros j Hj. apply Hfail. lia.
Qed.

(** After [k] attempts that throw, the loop goes on from attempt [a + k]. *)
Lemma chat_loop_after_failures : forall (k fuel : nat) (a : Z),
  a + Z.of_nat k <= maxAttempts ->
  (forall j, a <= j < a + Z.of_nat k -> try_attempt c req up j = None) ->
  chat_loop (k + fuel) c req up a
  = match chat_loop fuel c req up (a + Z.of_nat k) with
    | Some (trace, r) => Some (failed_attempts k a ++ trace, r)
    | None => None
    end.
Proof.
  induction k as [|k IH]; intros fuel a Hle Hfail.
  - cbn [Nat.add failed_attempts app]. rewrite Z.add_0_r.
    now destruct (chat_loop fuel c req up a) as [[trace r]|].
  - cbn [Nat.add chat_loop].
    destruct (Z.leb_spec a maxAttempts); [|lia].
    rewrite Hfail by lia.
    destruct (Z.geb_spec a maxAttempts); [lia|].
    rewrite IH by (try lia; intros j Hj; apply Hfail; lia).
    replace (a + 1 + Z.of_nat k) with (a + Z.of_nat (S k)) by lia.
    now destruct (chat_loop fuel c req up (a + Z.of_nat (S k))) as [[trace r]|].
Qed.

(** The trace of the loop starts with the attempt it is entered at. *)
Lemma chat_loop_starts : forall (fuel : nat) (a : Z) trace r,
  a <= maxAttempts ->
  chat_loop fuel c req up a = Some (trace, r) ->
  exists rest, trace = Attempt a :: rest.
Proof.
  intros [|fuel] a trace r Hle; [discriminate|]. cbn [chat_loop].
  destruct (Z.leb_spec a maxAttempts); [|lia].
  destruct (try_attempt c req up a); [intros [= <- _]; now eexists|].
  destruct (a >=? maxAttempts); [intros [= <- _]; now eexists|].
  destruct (chat_loop fuel c req up (a + 1)) as [[rest r']|]; [|discriminate].
  intros [= <- _]. now eexists.
Qed.

(** From an attempt inside the bound and with fuel for the rest, the loop
    returns, and it returns a [res.json]. *)
Lemma chat_loop_returns_json : forall (fuel : nat) (a : Z),
  a <= maxAttempts ->
  (Z.to_nat (maxAttempts - a) < fuel)%nat ->
  exists trace r, chat_loop fuel c req up a = Some (trace, r) /\ status r = 200.
Proof.
  induction fuel as [|fuel IH]; intros a Hle Hfuel; [lia|]. simpl.
  destruct (Z.leb_spec a maxAttempts); [|lia].
  destruct (try_attempt c req up a) as [r|] eqn:Etry.
  - exists [Attempt a], r. split; [reflexivity|].
    unfold try_attempt in Etry.
    destruct (request_builds c req); [|discriminate].
    destruct (up a); [discriminate|]. eapply classify_reply_status; eassumption.
  - destruct (Z.geb_spec a maxAttempts).
    + eexists _, _. split; reflexivity.
    + destruct (IH (a + 1)) as (trace & r & E & Hs); try lia.
      rewrite E. eexists _, _. split; [reflexivity|assumption].
Qed.

End ChatFacts.

Lemma select_client_none : forall env,
  (provider_name env = js "google" -> env_set (GOOGLE_API_KEY env) = false) ->
  (provider_name env = js "openai" -> env_set (OPENAI_API_KEY env) = false) ->
  select_client env = None.
Proof.
  intros env Hg Ho. unfold select_client.
  destruct (str_eqb (provider_name env) (js "google")) eqn:Eg.
  - apply str_eqb_eq in Eg. rewrite (Hg Eg). simpl.
    destruct (str_eqb (provider_name env) (js "openai")) eqn:Eo; [|reflexivity].
    apply str_eqb_eq in Eo. now rewrite (Ho Eo).
  - simpl. destruct (str_eqb (provider_name env) (js "openai")) eqn:Eo; [|reflexivity].
    apply str_eqb_eq in Eo. now rewrite (Ho Eo).
Qed.

Lemma failed_attempts_numbers : forall k a m,
  In (Attempt m) (failed_attempts k a) -> a <= m < a + Z.of_nat k.
Proof.
  induction k as [|k IH]; intros a m; simpl; [tauto|].
  intros [E | [E | Hin]]; try discriminate.
  - injection E as <-. lia.
  - apply IH in Hin. lia.
Qed.

Section HandlerFacts.
Context `{JsRuntime}.

(** With a client configured, the first attempt that does not throw decides
    the answer of the handler. *)
Lemma chat_first_answer : forall env c req up n r,
  select_client env = Some c ->
  1 <= n <= maxAttempts ->
  (forall j, 1 <= j < n -> up j = Throws) ->
  try_attempt c req up n = Some r ->
  chat env req up = Some (failed_attempts (Z.to_nat (n - 1)) 1 ++ [Attempt n], r).
Proof.
  intros env c req up n r Hc Hn Hthrows Hr. unfold chat. rewrite Hc.
  replace n with (1 + Z.of_nat (Z.to_nat (n - 1))) at 2 by lia.
  apply chat_loop_first_answer.
  - unfold maxAttempts in *. lia.
  - lia.
  - intros j Hj. apply try_attempt_throws, Hthrows. lia.
  - now replace (1 + Z.of_nat (Z.to_nat (n - 1))) with n by lia.
Qed.

Lemma chat_all_throw : forall env c req up,
  select_client env = Some c ->
  (forall n, 1 <= n <= maxAttempts -> up n = Throws) ->
  chat env req up
  = Some ([Attempt 1; Sleep (backoff 1); Attempt 2; Sleep (backoff 2); Attempt 3],
          apology (lang_of req)).
Proof.
  intros env c req up Hc Hthrows. unfold chat. rewrite Hc.
  rewrite (chat_loop_all_fail c req up 2 (Z.to_nat maxAttempts + 1) 1).
  - reflexivity.
  - unfold maxAttempts. lia.
  - reflexivity.
  - intros j Hj. now apply try_attempt_throws, Hthrows.
Qed.

(** A throw at each of the attempts 1 to [n], with [n] below the bound, is
    followed by a sleep and by attempt [n + 1]. *)
Lemma chat_retries_after_throw : forall env c req up n,
  select_client env = Some c ->
  1 <= n < maxAttempts ->
  (forall j, 1 <= j <= n -> up j = Throws) ->
  exists rest r,
    chat env req up
    = Some (failed_attempts (Z.to_nat n) 1 ++ Attempt (n + 1) :: rest, r).
Proof.
  intros env c req up n Hc Hn Hthrows. unfold chat. rewrite Hc.
  unfold maxAttempts in Hn.
  replace (Z.to_nat maxAttempts + 1)%nat with (Z.to_nat n + (4 - Z.to_nat n))%nat
    by (unfold maxAttempts; lia).
  rewrite chat_loop_after_failures.
  - replace (1 + Z.of_nat (Z.to_nat n)) with (n + 1) by lia.
    destruct (chat_loop_returns_json c req up (4 - Z.to_nat n) (n + 1))
      as (trace & r & E & _); try (unfold maxAttempts; lia).
    rewrite E.
    destruct (chat_loop_starts c req up (4 - Z.to_nat n)%nat (n + 1) trace r
                ltac:(unfold maxAttempts; lia) E)
      as (rest & ->).
    now exists rest, r.
  - unfold maxAttempts. lia.
  - intros j Hj. apply try_attempt_throws, Hthrows. lia.
Qed.

Lemma classify_empty_reply : forall req result,
  empty_reply (extractReplyFromProviderObj result) = true ->
  classify_reply req result = Some (no_reply_message (lang_of req)).
Proof.
  intros req result He. unfold classify_reply, empty_reply in *.
  destruct (negb (truthy (extractReplyFromProviderObj result))); [reflexivity|].
  simpl in He.
  destruct (extractReplyFromProviderObj result); try discriminate.
  now destruct (trim s).
Qed.

(** The answer is [res.json] of something, or the 500 of the missing
    credentials; the handler always returns. *)
Lemma chat_answer_kinds : forall env req up,
  exists trace r,
    chat env req up = Some (trace, r)
    /\ (status r = 200 \/ (select_client env = None /\ r = missing_credentials)).
Proof.
  intros env req up. unfold chat.
  destruct (select_client env) as [c|].
  - destruct (chat_loop_returns_json c req up (Z.to_nat maxAttempts + 1) 1)
      as (trace & r & E & Hs).
    + unfold maxAttempts. lia.
    + unfold maxAttempts. lia.
    + exists trace, r. auto.
  - eexists _, _. split; [reflexivity|]. right. split; reflexivity.
Qed.

End HandlerFacts.

(* ================================================================= *)
(** ** Code fences *)

Lemma drop_while_all : forall p a b,
  forallb p a = true -> drop_while p (a ++ b) = drop_while p b.
Proof.
  induction a as [|x a IH]; intros b Hall; simpl in *; [reflexivity|].
  apply andb_true_iff in Hall as [Hx Ha]. rewrite Hx. now apply IH.
Qed.

Lemma drop_while_stop : forall p c s, p c = false -> drop_while p (c :: s) = c :: s.
Proof. intros p c s Hc. simpl. now rewrite Hc. Qed.

Lemma space_not_word : forall u, is_space u = true -> is_word u = false.
Proof.
  intros u. unfold is_space, is_word. lia.
Qed.

Lemma forallb_rev : forall (p : N -> bool) s, forallb p s = true -> forallb p (rev s) = true.
Proof.
  intros p s Hall. apply forallb_forall. intros x Hx.
  apply in_rev in Hx. revert x Hx. now apply forallb_forall.
Qed.

Lemma trimEnd_spaces : forall b ws,
  forallb is_space ws = true -> trimEnd (b ++ ws) = trimEnd b.
Proof.
  intros b ws Hws. unfold trimEnd. rewrite rev_app_distr.
  now rewrite drop_while_all by now apply forallb_rev.
Qed.

Lemma trimEnd_stop : forall b z, is_space z = false -> trimEnd (b ++ [z]) = b ++ [z].
Proof.
  intros b z Hz. unfold trimEnd. rewrite rev_app_distr. simpl. rewrite Hz.
  simpl. now rewrite rev_involutive.
Qed.

Lemma trimEnd_last : forall s d,
  s <> [] -> is_space (last s d) = false -> trimEnd s = s.
Proof.
  intros s d Hne Hl. rewrite (app_removelast_last d Hne). now apply trimEnd_stop.
Qed.

Lemma trim_fixed : forall c s,
  is_space c = false -> is_space (last (c :: s) c) = false -> trim (c :: s) = c :: s.
Proof.
  intros c s Hc Hl. unfold trim, trimStart. rewrite drop_while_stop by assumption.
  now apply trimEnd_last with (d := c).
Qed.

Lemma starts_with_app : forall t x, starts_with (t ++ x) t = true.
Proof.
  induction t as [|y t IH]; intros x; simpl; [reflexivity|].
  now rewrite N.eqb_refl, IH.
Qed.

Lemma ends_with_app : forall x t, ends_with (x ++ t) t = true.
Proof. intros x t. unfold ends_with. rewrite rev_app_distr. apply starts_with_app. Qed.

Lemma last_app_ticks : forall x d, last (x ++ ticks3) d = backtick.
Proof.
  intros x d. unfold ticks3.
  replace (x ++ [backtick; backtick; backtick]) with ((x ++ [backtick; backtick]) ++ [backtick]).
  - apply last_last.
  - now rewrite <- app_assoc.
Qed.

(** What [stripCodeFences] makes of any text between two fences. *)
Lemma stripCodeFences_between_fences : forall inner,
  stripCodeFences (VStr (ticks3 ++ inner ++ ticks3))
  = VStr (trim (unwrap_backticks
                  (trimEnd (drop_while is_space (drop_while is_word inner))))).
Proof.
  intros inner.
  assert (Htrim : trim (ticks3 ++ inner ++ ticks3) = ticks3 ++ inner ++ ticks3).
  { change (ticks3 ++ inner ++ ticks3)
      with (backtick :: [backtick; backtick] ++ inner ++ ticks3).
    apply trim_fixed; [reflexivity|].
    change (backtick :: [backtick; backtick] ++ inner ++ ticks3)
      with (ticks3 ++ inner ++ ticks3).
    rewrite app_assoc. now rewrite last_app_ticks. }
  assert (Htest : fence_test (ticks3 ++ inner ++ ticks3) = true).
  { unfold fence_test. rewrite starts_with_app.
    rewrite app_assoc, ends_with_app. cbn [andb].
    apply Nat.leb_le. rewrite !length_app. simpl. lia. }
  assert (Hcap : fence_capture (ticks3 ++ inner ++ ticks3)
                 = trimEnd (drop_while is_space (drop_while is_word inner))).
  { unfold fence_capture.
    replace (List.length (ticks3 ++ inner ++ ticks3) - 6)%nat with (List.length inner)
      by (rewrite !length_app; simpl; lia).
    change (skipn 3 (ticks3 ++ inner ++ ticks3)) with (inner ++ ticks3).
    rewrite firstn_app, firstn_all, Nat.sub_diag. simpl. now rewrite app_nil_r. }
  change (stripCodeFences (VStr (ticks3 ++ inner ++ ticks3)))
    with (VStr (trim (unwrap_backticks
                        (if fence_test (trim (ticks3 ++ inner ++ ticks3))
                         then fence_capture (trim (ticks3 ++ inner ++ ticks3))
                         else trim (ticks3 ++ inner ++ ticks3))))).
  now rewrite Htrim, Htest, Hcap.
Qed.

(** A fence with a language tag, white space around the body, and a body
    that starts like JSON text: what is left is the body. *)
Lemma stripCodeFences_fenced : forall tag ws1 body ws2,
  forallb is_word tag = true ->
  forallb is_space ws1 = true ->
  forallb is_space ws2 = true ->
  json_like body = true ->
  stripCodeFences (VStr (fenced tag ws1 body ws2)) = VStr body.
Proof.
  intros tag ws1 body ws2 Htag Hws1 Hws2 Hbody. unfold fenced.
  rewrite stripCodeFences_between_fences.
  destruct body as [|c body]; [discriminate|]. unfold json_like in Hbody.
  rewrite !andb_true_iff, !negb_true_iff in Hbody.
  destruct Hbody as (((Hspace & Hword) & Htick) & Hlast).
  rewrite drop_while_all by assumption.
  assert (Hskip : drop_while is_word (ws1 ++ (c :: body) ++ ws2) = ws1 ++ (c :: body) ++ ws2).
  { destruct ws1 as [|w ws1]; simpl in *.
    - now rewrite Hword.
    - apply andb_true_iff in Hws1 as [Hw _]. now rewrite (space_not_word _ Hw). }
  rewrite Hskip, drop_while_all by assumption.
  change ((c :: body) ++ ws2) with (c :: body ++ ws2).
  rewrite drop_while_stop by assumption.
  change (c :: body ++ ws2) with ((c :: body) ++ ws2).
  rewrite trimEnd_spaces by assumption.
  rewrite (trimEnd_last (c :: body) c) by (assumption || discriminate).
  unfold unwrap_backticks. rewrite Htick. simpl andb. cbv iota.
  now rewrite trim_fixed.
Qed.

(** A text without fence or backticks around it and without white space at
    its ends is left as it is. *)
Lemma stripCodeFences_plain : forall s,
  plain s = true -> stripCodeFences (VStr s) = VStr s.
Proof.
  intros [|c s] Hp; [discriminate|]. unfold plain in Hp.
  rewrite !andb_true_iff, !negb_true_iff in Hp. destruct Hp as ((Hspace & Htick) & Hlast).
  unfold stripCodeFences. rewrite trim_fixed by assumption.
  assert (Htest : fence_test (c :: s) = false).
  { unfold fence_test, ticks3. simpl starts_with. now rewrite Htick. }
  rewrite Htest. unfold unwrap_backticks. rewrite Htick. simpl andb. cbv iota.
  now rewrite trim_fixed.
Qed.

Lemma gemini_text_of_result : forall text, gemini_text (gemini_result text) = text.
Proof. reflexivity. Qed.

Lemma gemini_text_of_openai : forall content, gemini_text (openai_result content) = VUndefined.
Proof. reflexivity. Qed.

Lemma openai_content_of_result : forall content,
  openai_content (openai_result content) = content.
Proof. reflexivity. Qed.

(* ================================================================= *)
(** ** The specified properties of server.js *)

Section ServerClaims.
Context `{JsRuntime}.

(** C2: with a client configured and a provider call that throws at every
    attempt, the handler makes exactly the attempts 1, 2 and 3, sleeps
    [min(1000 * 2^(n-1), 60000)] milliseconds after the failed attempts 1 and
    2 (1000 then 2000, 3000 in all) and answers, with status 200, the
    type "reply" apology of the locale: the Hindi sentence for the locale hi,
    the English one for every other locale, en being the locale of a request
    that names none. *)
Theorem chat_retry_exhaustion : forall env c req up,
  select_client env = Some c ->
  (forall n, 1 <= n <= maxAttempts -> up n = Throws) ->
  chat env req up
  = Some ([Attempt 1; Sleep (backoff 1); Attempt 2; Sleep (backoff 2); Attempt 3],
          apology (lang_of req))
  /\ attempts [Attempt 1; Sleep (backoff 1); Attempt 2; Sleep (backoff 2); Attempt 3]
     = [1; 2; 3]
  /\ sleeps [Attempt 1; Sleep (backoff 1); Attempt 2; Sleep (backoff 2); Attempt 3]
     = [1000; 2000]
  /\ (forall n, backoff n = Z.min (1000 * 2 ^ (n - 1)) 60000)
  /\ backoff 1 + backoff 2 = 3000
  /\ status (apology (lang_of req)) = 200
  /\ get (body (apology (lang_of req))) (js "type") = VStr (js "reply")
  /\ get (body (apology (lang_of req))) (js "text")
     = VStr (server_error_text (lang_of req))
  /\ get (body (apology (lang_of req))) (js "request_photo") = VBool false
  /\ (lang_of req = VStr (js "hi") ->
      get (body (apology (lang_of req))) (js "text")
      = VStr (js "क्षमा करें, सर्वर में त्रुटि हुई। कृपया फिर से कोशिश करें।"))
  /\ (lang_of req <> VStr (js "hi") ->
      get (body (apology (lang_of req))) (js "text")
      = VStr (js "Sorry, a server error occurred. Please try again."))
  /\ (lang req = VUndefined -> lang_of req = VStr (js "en")).
Proof.
  intros env c req up Hc Hthrows.
  split; [now apply chat_all_throw with (c := c)|].
  repeat split; try reflexivity.
  - intros ->. reflexivity.
  - intros Hl. cbn. unfold server_error_text. now rewrite (is_str_neq _ _ Hl).
  - intros E. unfold lang_of. now rewrite E.
Qed.

(** C3: when the provider call of attempt [n] succeeds (the attempts before
    it having thrown) and the extracted reply is empty ([null], the empty
    string or white space only), the handler answers at once, with status
    200, the type "reply" message of the locale saying that no response could
    be generated (the Hindi sentence for the locale hi, the English one for
    every other locale): attempt [n] is the last event of the trace, no
    sleep and no attempt follows it.  A throw at an attempt below the third
    is, on the contrary, followed by a sleep and the next attempt. *)
Theorem chat_empty_reply_not_retried :
  (forall env c req up n result,
     select_client env = Some c ->
     request_builds c req = true ->
     1 <= n <= maxAttempts ->
     (forall j, 1 <= j < n -> up j = Throws) ->
     up n = Returns result ->
     empty_reply (extractReplyFromProviderObj result) = true ->
     chat env req up
     = Some (failed_attempts (Z.to_nat (n - 1)) 1 ++ [Attempt n],
             no_reply_message (lang_of req))
     /\ (forall m, n < m ->
         ~ In (Attempt m) (failed_attempts (Z.to_nat (n - 1)) 1 ++ [Attempt n]))
     /\ (forall ms, ~ In (Sleep ms) [Attempt n])
     /\ status (no_reply_message (lang_of req)) = 200
     /\ get (body (no_reply_message (lang_of req))) (js "type") = VStr (js "reply")
     /\ get (body (no_reply_message (lang_of req))) (js "text")
        = VStr (empty_reply_text (lang_of req))
     /\ (lang_of req = VStr (js "hi") ->
         get (body (no_reply_message (lang_of req))) (js "text")
         = VStr (js "क्षमा करें, मैं अभी जवाब नहीं दे पाया। आप कैसा महसूस कर रहे हैं?"))
     /\ (lang_of req <> VStr (js "hi") ->
         get (body (no_reply_message (lang_of req))) (js "text")
         = VStr (js "Sorry, I couldn’t generate a response. How are you feeling?")))
  /\ (forall env c req up n,
        select_client env = Some c ->
        1 <= n < maxAttempts ->
        (forall j, 1 <= j <= n -> up j = Throws) ->
        exists rest r,
          chat env req up
          = Some (failed_attempts (Z.to_nat n) 1 ++ Attempt (n + 1) :: rest, r)).
Proof.
  split.
  - intros env c req up n result Hc Hh Hn Hthrows Hup Hempty.
    split; [|split; [|split; [|repeat split; try reflexivity]]].
    + apply chat_first_answer with (c := c); try assumption.
      rewrite (try_attempt_returns c req up n result Hh Hup).
      now apply classify_empty_reply.
    + intros m Hm Hin. apply in_app_or in Hin as [Hin | [E | []]].
      * apply failed_attempts_numbers in Hin. lia.
      * injection E as E. lia.
    + intros ms [E | []]. discriminate E.
    + intros ->. reflexivity.
    + intros Hl. cbn. unfold empty_reply_text. now rewrite (is_str_neq _ _ Hl).
  - apply chat_retries_after_throw.
Qed.

(** C4 (as amended): the handler always returns from inside the retry loop
    or before it.  Its answer is never the 429 "Quota exceeded" of the
    statement after the loop: it has status 200, or it is the 500 answer of
    the missing credentials. *)
Theorem chat_answers_before_loop_end : forall env req up,
  exists trace r,
    chat env req up = Some (trace, r)
    /\ r <> quota_exceeded
    /\ (status r = 200 \/ (select_client env = None /\ r = missing_credentials)).
Proof.
  intros env req up.
  destruct (chat_answer_kinds env req up) as (trace & r & E & Hk).
  exists trace, r. repeat split; try assumption.
  intros ->. destruct Hk as [Hs | [_ Hm]]; discriminate.
Qed.

(** C8: without an attached file the handler of /api/analyze answers 400 with
    the body [{ error: 'No image' }]; with a file, when the pose service is
    unreachable or answers with a status that is not a success, it answers
    200 with the fallback analysis, whose recommendations hold exactly one
    entry. *)
Theorem analyze_fallback : forall req py,
  (file req = false ->
   analyze req py = res_status_json 400 (VObj [(js "error", VStr (js "No image"))]))
  /\ (file req = true ->
      py = Unreachable \/ (exists data, py = Answered false data) ->
      status (analyze req py) = 200
      /\ body (analyze req py) = fallback_analysis (analyze_lang_of req)
      /\ exists step, get (body (analyze req py)) (js "recommendations") = VArr [step]).
Proof.
  intros req py. split.
  - intros Hf. unfold analyze. now rewrite Hf.
  - intros Hf Hpy. unfold analyze. rewrite Hf. cbn [negb].
    assert (E : match py with
                | Answered true (Some data) =>
                    res_json (VObj (spread [(js "type", VStr (js "analysis"))] data))
                | _ => res_json (fallback_analysis (analyze_lang_of req))
                end = res_json (fallback_analysis (analyze_lang_of req))).
    { destruct Hpy as [-> | [data ->]]; reflexivity. }
    rewrite E. repeat split. eexists. reflexivity.
Qed.

(** C9 (as amended): extraction goes by the shape of the provider's result.
    A Gemini-shaped result gives the text of the first part of the first
    candidate with its code fence stripped, replaced by the [text] member of
    the JSON value it parses to when that member is a non-empty string (a
    fenced JSON body is the case the first part spells out); an OpenAI-shaped
    result gives [choices[0].message.content] with its code fence stripped (a
    plain content is returned as it is); a result of neither shape gives
    [null].  A [null] reply is not retried: the handler answers at once with
    the message that no response could be generated. *)
Theorem reply_extraction_by_shape :
  (forall tag ws1 body ws2 parsed text,
     forallb is_word tag = true ->
     forallb is_space ws1 = true ->
     forallb is_space ws2 = true ->
     json_like body = true ->
     JSON_parse body = Some parsed ->
     truthy parsed = true ->
     get parsed (js "text") = VStr text ->
     text <> [] ->
     extractReplyFromProviderObj (gemini_result (VStr (fenced tag ws1 body ws2)))
     = VStr text)
  /\ (forall j,
        truthy j = true ->
        truthy (gemini_text j) = true ->
        extractReplyFromProviderObj j
        = if truthy (parseJsonSafe (stripCodeFences (gemini_text j)))
          then safeText (js_or (get (parseJsonSafe (stripCodeFences (gemini_text j))) (js "text"))
                               (stripCodeFences (gemini_text j)))
          else stripCodeFences (gemini_text j))
  /\ (forall j,
        truthy j = true ->
        truthy (gemini_text j) = false ->
        isArray (get j (js "choices")) = true ->
        truthy (openai_content j) = true ->
        extractReplyFromProviderObj j = stripCodeFences (openai_content j))
  /\ (forall content,
        plain content = true ->
        extractReplyFromProviderObj (openai_result (VStr content)) = VStr content)
  /\ (forall j,
        truthy (gemini_text j) = false ->
        isArray (get j (js "choices")) && truthy (openai_content j) = false ->
        extractReplyFromProviderObj j = VNull)
  /\ (forall env c req up n result,
        select_client env = Some c ->
        request_builds c req = true ->
        1 <= n <= maxAttempts ->
        (forall j, 1 <= j < n -> up j = Throws) ->
        up n = Returns result ->
        extractReplyFromProviderObj result = VNull ->
        chat env req up
        = Some (failed_attempts (Z.to_nat (n - 1)) 1 ++ [Attempt n],
                no_reply_message (lang_of req))).
Proof.
  repeat apply conj.
  - intros tag ws1 body ws2 parsed text Htag Hws1 Hws2 Hbody Hparse Htruthy Htext Hne.
    unfold extractReplyFromProviderObj.
    rewrite gemini_text_of_result.
    change (truthy (gemini_result (VStr (fenced tag ws1 body ws2)))) with true.
    assert (Hf : truthy (VStr (fenced tag ws1 body ws2)) = true) by reflexivity.
    rewrite Hf. cbn [negb].
    rewrite stripCodeFences_fenced by assumption.
    destruct body as [|b body]; [discriminate|].
    cbn [parseJsonSafe]. rewrite Hparse, Htruthy, Htext.
    destruct text; [now elim Hne|reflexivity].
  - intros j Hj Hg. unfold extractReplyFromProviderObj. now rewrite Hj, Hg.
  - intros j Hj Hg Ha Hc. unfold extractReplyFromProviderObj.
    now rewrite Hj, Hg, Ha, Hc.
  - intros content Hp. unfold extractReplyFromProviderObj.
    rewrite gemini_text_of_openai, openai_content_of_result.
    destruct content as [|u content]; [discriminate|].
    change (truthy (openai_result (VStr (u :: content)))) with true.
    change (isArray (get (openai_result (VStr (u :: content))) (js "choices"))) with true.
    cbn [negb truthy andb]. now apply stripCodeFences_plain.
  - intros j Hg Ho. unfold extractReplyFromProviderObj. rewrite Hg, Ho.
    now destruct (truthy j).
  - intros env c req up n result Hc Hh Hn Hthrows Hup Hnull.
    apply chat_first_answer with (c := c); try assumption.
    rewrite (try_attempt_returns c req up n result Hh Hup).
    apply classify_empty_reply. now rewrite Hnull.
Qed.

(** C10: when the selected provider is not one of google and openai, or its
    API key is not set, the handler answers 500 with the body
    [{ error: 'Missing API credentials for selected provider' }] and its trace
    is empty: no attempt was made, nothing was classified. *)
Theorem chat_missing_credentials : forall env req up,
  (provider_name env = js "google" -> env_set (GOOGLE_API_KEY env) = false) ->
  (provider_name env = js "openai" -> env_set (OPENAI_API_KEY env) = false) ->
  chat env req up = Some ([], missing_credentials)
  /\ status missing_credentials = 500
  /\ body missing_credentials
     = VObj [(js "error", VStr (js "Missing API credentials for selected provider"))].
Proof.
  intros env req up Hg Ho. unfold chat.
  rewrite (select_client_none env Hg Ho). repeat split.
Qed.

End ServerClaims.

(* ================================================================= *)
(** ** The server properties on concrete requests *)

(** C1: the keyword check is not reached when the provider fails.  The
    message "I feel hopeless" holds a crisis keyword, and when the provider
    returns a plain reply the handler does answer with type "crisis" and the
    two helplines of the locale; yet with a provider that throws at every
    attempt it answers, after three attempts, with the type "reply" apology,
    and with a provider whose result holds no reply it answers with the
    type "reply" message that no response could be generated: the check
    stands inside the [try] block, behind the call of the provider and
    behind the return for an empty reply. *)
Theorem chat_keyword_check_not_reached :
  existsb (fun t => includes (toLowerCase (JsRuntime := example_runtime)
                                (js "I feel hopeless")) t) triggers = true
  /\ chat (H := example_runtime) google_env hopeless_request always_fine
     = Some ([Attempt 1],
             res_json
               (crisis_body
                  (VStr (js "You’re not alone, and I’m here to help. Please reach out to someone who can support you."))
                  (VArr [ VObj [(js "name", VStr (js "AASRA"));
                                (js "phone", VStr (js "+91-9820466726"))];
                          VObj [(js "name", VStr (js "NIMHANS"));
                                (js "phone", VStr (js "080-46110007"))] ])))
  /\ chat (H := example_runtime) google_env hopeless_request always_throws
     = Some ([Attempt 1; Sleep 1000; Attempt 2; Sleep 2000; Attempt 3],
             res_json (reply_body (VStr (js "Sorry, a server error occurred. Please try again."))
                                  (VBool false)))
  /\ chat (H := example_runtime) google_env hopeless_request (fun _ => Returns (VObj []))
     = Some ([Attempt 1],
             res_json (reply_body
                         (VStr (js "Sorry, I couldn’t generate a response. How are you feeling?"))
                         (VBool false))).
Proof.
  split; [reflexivity|]. split; [vm_compute; reflexivity|].
  split; reflexivity.
Qed.

Lemma chat_retry_exhaustion_witness :
  chat (H := example_runtime) google_env hopeless_request always_throws
  = Some ([Attempt 1; Sleep 1000; Attempt 2; Sleep 2000; Attempt 3],
          res_json (reply_body (VStr (js "Sorry, a server error occurred. Please try again."))
                               (VBool false)))
  /\ chat (H := example_runtime) google_env hopeless_request_hi always_throws
     = Some ([Attempt 1; Sleep 1000; Attempt 2; Sleep 2000; Attempt 3],
             res_json (reply_body
                         (VStr (js "क्षमा करें, सर्वर में त्रुटि हुई। कृपया फिर से कोशिश करें।"))
                         (VBool false))).
Proof.
  split.
  - rewrite (proj1 (chat_retry_exhaustion (H := example_runtime)
                      google_env GeminiClient hopeless_request always_throws
                      eq_refl (fun n _ => eq_refl))).
    vm_compute. reflexivity.
  - rewrite (proj1 (chat_retry_exhaustion (H := example_runtime)
                      google_env GeminiClient hopeless_request_hi always_throws
                      eq_refl (fun n _ => eq_refl))).
    vm_compute. reflexivity.
Defined.

Lemma chat_empty_reply_not_retried_witness :
  chat (H := example_runtime) google_env hopeless_request throws_then_blank
  = Some ([Attempt 1; Sleep 1000; Attempt 2],
          res_json (reply_body
                      (VStr (js "Sorry, I couldn’t generate a response. How are you feeling?"))
                      (VBool false)))
  /\ chat (H := example_runtime) google_env hopeless_request_hi throws_then_blank
     = Some ([Attempt 1; Sleep 1000; Attempt 2],
             res_json (reply_body
                         (VStr (js "क्षमा करें, मैं अभी जवाब नहीं दे पाया। आप कैसा महसूस कर रहे हैं?"))
                         (VBool false))).
Proof.
  assert (Hfirst : forall j, 1 <= j < 2 -> throws_then_blank j = Throws)
    by (intros j Hj; assert (j = 1) as -> by lia; reflexivity).
  split.
  - rewrite (proj1 (proj1 (chat_empty_reply_not_retried (H := example_runtime))
                      google_env GeminiClient hopeless_request throws_then_blank
                      2 (openai_result (VStr (js "   ")))
                      eq_refl eq_refl ltac:(unfold maxAttempts; lia) Hfirst eq_refl eq_refl)).
    vm_compute. reflexivity.
  - rewrite (proj1 (proj1 (chat_empty_reply_not_retried (H := example_runtime))
                      google_env GeminiClient hopeless_request_hi throws_then_blank
                      2 (openai_result (VStr (js "   ")))
                      eq_refl eq_refl ltac:(unfold maxAttempts; lia) Hfirst eq_refl eq_refl)).
    vm_compute. reflexivity.
Defined.

(** C4 as stated fails: no execution of the handler answers 429. *)
Lemma chat_quota_exceeded_counterexample :
  ~ (exists (rt : JsRuntime) env req up trace,
       chat (H := rt) env req up = Some (trace, quota_exceeded)).
Proof.
  intros (rt & env & req & up & trace & E).
  destruct (chat_answer_kinds (H := rt) env req up) as (trace' & r & E' & Hk).
  rewrite E in E'. injection E' as _ <-.
  destruct Hk as [Hs | [_ Hm]]; discriminate.
Qed.

Lemma analyze_fallback_witness :
  status (analyze {| file := true; analyze_lang := VUndefined |} Unreachable) = 200
  /\ body (analyze {| file := true; analyze_lang := VUndefined |} Unreachable)
     = fallback_analysis (VStr (js "en"))
  /\ exists step,
       get (body (analyze {| file := true; analyze_lang := VUndefined |} Unreachable))
           (js "recommendations") = VArr [step].
Proof.
  apply (analyze_fallback {| file := true; analyze_lang := VUndefined |} Unreachable).
  - reflexivity.
  - left. reflexivity.
Defined.

Lemma reply_extraction_by_shape_witness :
  extractReplyFromProviderObj (H := example_runtime) (gemini_result (VStr fenced_reply))
  = VStr (js "Hello there").
Proof.
  apply (proj1 (reply_extraction_by_shape (H := example_runtime))
           (js "json") [newline]
           (json_text [("type", "reply"); ("text", "Hello there")]%string) [newline]
           (VObj [(js "type", VStr (js "reply")); (js "text", VStr (js "Hello there"))])).
  - reflexivity.
  - reflexivity.
  - reflexivity.
  - reflexivity.
  - vm_compute. reflexivity.
  - reflexivity.
  - reflexivity.
  - vm_compute. discriminate.
Defined.

(** C9 as stated fails in each of its three parts.  A result of neither
    shape is not retried: its reply is [null], and the handler answers after
    this one attempt although the second attempt would have brought a reply.
    A fenced Gemini text that parses as JSON is not always replaced by its
    [text] member: when that member is the empty string the reply is the JSON
    text itself, and when it is a number the reply is the empty string.  An
    OpenAI content is not returned as it is: a fenced content comes back
    without its fence. *)
Lemma reply_extraction_counterexample :
  ((forall rt : JsRuntime, extractReplyFromProviderObj (H := rt) (VObj []) = VNull)
   /\ (forall rt : JsRuntime,
         chat (H := rt) google_env hopeless_request shapeless_then_fine
         = Some ([Attempt 1],
                 res_json (reply_body
                             (VStr (js "Sorry, I couldn’t generate a response. How are you feeling?"))
                             (VBool false))))
   /\ shapeless_then_fine 2 = Returns (openai_result (VStr (js "I am here for you."))))
  /\ (parseJsonSafe (H := example_runtime) (VStr empty_text_body)
      = VObj [(js "type", VStr (js "reply")); (js "text", VStr [])]
      /\ extractReplyFromProviderObj (H := example_runtime)
           (gemini_result (VStr fenced_empty_text_reply))
         = VStr empty_text_body
      /\ extractReplyFromProviderObj (H := example_runtime)
           (gemini_result (VStr fenced_number_text_reply))
         = VStr [])
  /\ (extractReplyFromProviderObj (H := example_runtime) (openai_result (VStr fenced_reply))
      = VStr (json_text [("type", "reply"); ("text", "Hello there")]%string)
      /\ openai_content (openai_result (VStr fenced_reply)) = VStr fenced_reply
      /\ fenced_reply <> json_text [("type", "reply"); ("text", "Hello there")]%string).
Proof.
  split; [|split].
  - split; [intros rt; reflexivity|]. split; [intros rt; reflexivity|reflexivity].
  - repeat split; vm_compute; reflexivity.
  - repeat split; try (vm_compute; reflexivity). vm_compute. discriminate.
Qed.

Lemma chat_missing_credentials_witness :
  chat (H := example_runtime) no_key_env hopeless_request always_throws
  = Some ([], missing_credentials)
  /\ status missing_credentials = 500
  /\ body missing_credentials
     = VObj [(js "error", VStr (js "Missing API credentials for selected provider"))].
Proof.
  apply (chat_missing_credentials (H := example_runtime)
           no_key_env hopeless_request always_throws).
  - intros E. vm_compute in E. discriminate.
  - intros _. reflexivity.
Defined.

(* ================================================================= *)
(** ** chat.js: how handlers compose *)

Lemma keeps_ret : forall (A : Type) (a : A), keeps_exercise (ret a).
Proof. intros A a st. reflexivity. Qed.

Lemma keeps_throw : forall (A : Type) (e : error), keeps_exercise (@throw A e).
Proof. intros A e st. reflexivity. Qed.

Lemma keeps_state : keeps_exercise state.
Proof. intros st. reflexivity. Qed.

Lemma keeps_bind : forall (A B : Type) (c : handler A) (k : A -> handler B),
  keeps_exercise c -> (forall a, keeps_exercise (k a)) -> keeps_exercise (bind c k).
Proof.
  intros A B c k Hc Hk st. unfold bind. specialize (Hc st).
  destruct (c st) as [st' [a|e]]; simpl in *; [|assumption].
  now rewrite Hk.
Qed.

Lemma keeps_try_catch : forall (A : Type) (c : handler A) (h : error -> handler A),
  keeps_exercise c -> (forall e, keeps_exercise (h e)) -> keeps_exercise (try_catch c h).
Proof.
  intros A c h Hc Hh st. unfold try_catch. specialize (Hc st).
  destruct (c st) as [st' [a|e]]; simpl in *; [assumption|].
  now rewrite Hh.
Qed.

Lemma keeps_show : forall e, keeps_exercise (show e).
Proof. intros e st. reflexivity. Qed.

Lemma keeps_push_turn : forall r text, keeps_exercise (push_turn r text).
Proof. intros r text st. reflexivity. Qed.

Lemma keeps_pop_turn : keeps_exercise pop_turn.
Proof. intros st. reflexivity. Qed.

Lemma keeps_lift : forall (A : Type) (r : option A), keeps_exercise (lift r).
Proof. intros A [a|] st; reflexivity. Qed.

Lemma maintains_keeps : forall (A : Type) (h : handler A),
  keeps_exercise h -> maintains h.
Proof. intros A h Hk st Hok. unfold client_ok. now rewrite Hk. Qed.

Lemma maintains_bind : forall (A B : Type) (c : handler A) (k : A -> handler B),
  maintains c -> (forall a, maintains (k a)) -> maintains (bind c k).
Proof.
  intros A B c k Hc Hk st Hok. unfold bind. specialize (Hc st Hok).
  destruct (c st) as [st' [a|e]]; simpl in *; [|assumption].
  now apply Hk.
Qed.

Lemma maintains_try_catch : forall (A : Type) (c : handler A) (h : error -> handler A),
  maintains c -> (forall e, maintains (h e)) -> maintains (try_catch c h).
Proof.
  intros A c h Hc Hh st Hok. unfold try_catch. specialize (Hc st Hok).
  destruct (c st) as [st' [a|e]]; simpl in *; [assumption|].
  now apply Hh.
Qed.

Lemma maintains_with_exercise : forall e,
  match e with Some e' => exercise_ok e' | None => True end ->
  maintains (modify (with_exercise e)).
Proof. intros e He st _. exact He. Qed.

Create HintDb handlers.
#[export] Hint Resolve keeps_ret keeps_throw keeps_state keeps_show keeps_push_turn
  keeps_pop_turn keeps_lift : handlers.

(** Takes a goal [keeps_exercise h] apart along the structure of [h]. *)
Ltac keeps :=
  repeat first
    [ solve [auto with handlers]
    | apply keeps_bind; [|intros ?]
    | apply keeps_try_catch; [|intros ?]
    | match goal with
      | |- keeps_exercise (if ?b then _ else _) => destruct b
      | |- keeps_exercise (match ?x with _ => _ end) => destruct x
      end ].

(** The same for a goal [maintains h]. *)
Ltac maintains :=
  repeat first
    [ solve [apply maintains_keeps; keeps]
    | solve [auto with handlers]
    | apply maintains_bind; [|intros ?]
    | apply maintains_try_catch; [|intros ?]
    | match goal with
      | |- maintains (if ?b then _ else _) => destruct b
      | |- maintains (match ?x with _ => _ end) => destruct x
      end ].

Section ClientFacts.
Context `{JsRuntime}.

Lemma keeps_appendUserBubble : forall text, keeps_exercise (appendUserBubble text).
Proof. intros text. unfold appendUserBubble. keeps. Qed.

Lemma keeps_appendBotBubble : forall text, keeps_exercise (appendBotBubble text).
Proof. intros text. unfold appendBotBubble. keeps. Qed.

Lemma keeps_speakText : forall text code, keeps_exercise (speakText text code).
Proof. intros text code. unfold speakText. keeps. Qed.

Lemma keeps_hideCrisis : keeps_exercise hideCrisis.
Proof. unfold hideCrisis. keeps. Qed.

Hint Resolve keeps_appendUserBubble keeps_appendBotBubble keeps_speakText
  keeps_hideCrisis : handlers.

Lemma keeps_showCrisis : forall helplines, keeps_exercise (showCrisis helplines).
Proof. intros helplines. unfold showCrisis. keeps. Qed.

Lemma keeps_renderCurrentExerciseStep : keeps_exercise renderCurrentExerciseStep.
Proof. unfold renderCurrentExerciseStep. keeps. Qed.

Hint Resolve keeps_showCrisis keeps_renderCurrentExerciseStep : handlers.

(** [goToStep] clamps the index and changes nothing else of the exercise. *)
Lemma goToStep_exercise : forall i st,
  exerciseState (fst (goToStep i st))
  = match exerciseState st with
    | None => None
    | Some e => Some {| analysis := analysis e;
                        currentStep := Z.max 0 (Z.min (totalSteps e - 1) i);
                        totalSteps := totalSteps e |}
    end.
Proof.
  intros i st. unfold goToStep, bind at 1, state. cbn [fst snd].
  destruct (exerciseState st) as [e|] eqn:Ee.
  - unfold bind, modify.
    rewrite (keeps_renderCurrentExerciseStep _). reflexivity.
  - simpl. assumption.
Qed.

Lemma maintains_goToStep : forall i, maintains (goToStep i).
Proof.
  intros i st Hok. unfold client_ok in *. rewrite goToStep_exercise.
  destruct (exerciseState st) as [e|]; [|exact I].
  destruct Hok as (Hrange & recs & Hrecs & Hlen).
  split; [simpl; lia|]. exists recs. auto.
Qed.

(** A string always makes it into a bubble. *)
Lemma appendBotBubble_string : forall s st,
  appendBotBubble (VStr s) st
  = (if msgContainer st then with_ui (ui st ++ [BotBubble s]) st else st, Ok tt).
Proof.
  intros s st. unfold appendBotBubble, bind, state, show, modify, ret, throw.
  destruct (msgContainer st); [|reflexivity]. cbn.
  rewrite andb_false_r. now destruct s.
Qed.

Lemma speakText_run : forall text code st,
  speakText text code st
  = (if negb (speechSynthesis st) || negb (autoSpeak st) then st
     else with_ui (ui st ++ [Speak text code]) st, Ok tt).
Proof.
  intros text code st. unfold speakText, bind, state, show, modify, ret.
  now destruct (negb (speechSynthesis st) || negb (autoSpeak st)).
Qed.

(** [completeExercise] on a live exercise whose final score converts to
    the text [score]: it completes, shows and speaks the completion message
    and clears the exercise. *)
Lemma completeExercise_live : forall st e score,
  exerciseState st = Some e ->
  msgContainer st = true ->
  to_string (final_score e) = Some score ->
  let msg := completion_message (selectedLang st) (totalSteps e) score in
  completeExercise st
  = (with_exercise None
       (with_ui (ui st ++ BotBubble msg ::
                  (if negb (speechSynthesis st) || negb (autoSpeak st) then []
                   else [Speak (VStr msg) (tts_code (selectedLang st))])) st),
     Ok tt).
Proof.
  intros st e score He Hm Hs msg. unfold completeExercise, bind at 1, state. rewrite He.
  unfold bind at 1. rewrite Hs. cbn [lift ret].
  unfold bind, modify. rewrite appendBotBubble_string, Hm, speakText_run. cbn.
  destruct (negb (speechSynthesis st) || negb (autoSpeak st)); cbn; [reflexivity|].
  unfold with_ui, with_exercise; cbn. now rewrite <- app_assoc.
Qed.

(** On a final score that does not convert, [completeExercise] throws
    before it has changed anything. *)
Lemma completeExercise_throws : forall st e,
  exerciseState st = Some e ->
  to_string (final_score e) = None ->
  completeExercise st = (st, Err OtherError).
Proof.
  intros st e He Hs. unfold completeExercise, bind at 1, state. rewrite He.
  unfold bind. now rewrite Hs.
Qed.

(** A number converts, and so does what stands in for a missing score. *)
Lemma final_score_number : forall e x,
  get (analysis e) (js "score") = VNum x ->
  final_score e = (if truthy (VNum x) then VNum x else VNum 0)
  /\ to_string (final_score e)
     = Some (if truthy (VNum x) then number_to_string x else js "0").
Proof.
  intros e x Hs. unfold final_score. rewrite Hs.
  destruct (analysis e); try discriminate.
  cbn [truthy andb]. destruct (negb (PrimFloat.eqb x 0) && PrimFloat.eqb x x); split; reflexivity.
Qed.

Lemma final_score_missing : forall e,
  truthy (get (analysis e) (js "score")) = false ->
  final_score e = VNum 0 /\ to_string (final_score e) = Some (js "0").
Proof.
  intros e Hs. unfold final_score. rewrite Hs, andb_false_r. split; reflexivity.
Qed.

Lemma maintains_completeExercise : maintains completeExercise.
Proof.
  intros st Hok. unfold completeExercise, bind at 1, state. cbn [fst snd].
  destruct (exerciseState st) as [e|] eqn:Ee.
  - assert (M : maintains (modify (with_exercise None)))
      by now apply maintains_with_exercise.
    revert st Hok Ee. intros st. generalize (selectedLang st). intros l Hok _.
    revert st Hok. change (maintains
      (finalScore <- lift (to_string (final_score e)) ;;
       appendBotBubble (VStr (completion_message l (totalSteps e) finalScore)) ;;
       speakText (VStr (completion_message l (totalSteps e) finalScore)) (tts_code l) ;;
       modify (with_exercise None))).
    maintains.
  - simpl. unfold client_ok. now rewrite Ee.
Qed.

Hint Resolve maintains_goToStep maintains_completeExercise : handlers.

Lemma maintains_handleAnalysisResult : forall result, maintains (handleAnalysisResult result).
Proof.
  intros result. unfold handleAnalysisResult.
  assert (Mnone : maintains (modify (with_exercise None)))
    by now apply maintains_with_exercise.
  apply maintains_bind; [maintains|intros st0].
  destruct (negb (truthy result)); [maintains|].
  apply maintains_bind; [maintains|intros summaryText].
  apply maintains_bind; [maintains|intros _].
  apply maintains_bind; [maintains|intros _].
  apply maintains_bind; [|intros _; maintains].
  destruct (js_or (get result (js "recommendations")) (VArr [])) as [| | | | |recs|] eqn:E;
    try solve [maintains].
  destruct recs as [|first recs]; [maintains|].
  apply maintains_bind; [|intros _; maintains].
  apply maintains_with_exercise. split; [simpl; lia|].
  exists (first :: recs). split; [|reflexivity].
  unfold js_or in E. now destruct (truthy (get result (js "recommendations"))).
Qed.

Hint Resolve maintains_handleAnalysisResult : handlers.

Lemma maintains_send_start : forall text, maintains (send_start text).
Proof. intros text. unfold send_start. maintains. Qed.

Lemma maintains_send_settle : forall reqLang net, maintains (send_settle reqLang net).
Proof.
  intros reqLang net.
  unfold send_settle, send_try, send_catch, handle_response, show_reply. maintains.
Qed.

Lemma maintains_sendMessage : forall text net, maintains (sendMessage text net).
Proof.
  intros text net. pose proof maintains_send_start. pose proof maintains_send_settle.
  unfold sendMessage. maintains.
Qed.

Lemma maintains_perform : forall a, maintains (perform a).
Proof.
  intros a. pose proof maintains_sendMessage. pose proof maintains_send_start.
  pose proof maintains_send_settle. unfold perform. maintains.
Qed.

Lemma run_actions_ok : forall acts st, client_ok st -> client_ok (run_actions acts st).
Proof.
  induction acts as [|a acts IH]; intros st Hok; [assumption|].
  apply IH. now apply maintains_perform.
Qed.

(** Rendering completes and touches neither the exercise nor the transcript. *)
Lemma renderCurrentExerciseStep_completes : forall st,
  exists st',
    renderCurrentExerciseStep st = (st', Ok tt)
    /\ exerciseState st' = exerciseState st.
Proof.
  intros st. unfold renderCurrentExerciseStep, bind at 1, state.
  destruct (exerciseState st) as [e|] eqn:Ee; [|now exists st].
  destruct (negb (msgContainer st)); [now exists st|].
  match goal with |- context [if ?b then _ else _] => destruct b end.
  - rewrite appendBotBubble_string. eexists. split; [reflexivity|].
    now destruct (msgContainer st).
  - eexists. split; [reflexivity|]. assumption.
Qed.

Lemma converts_js_or : forall v s, converts v = true -> converts (js_or v (VStr s)) = true.
Proof. intros v s Hv. unfold js_or. now destruct (truthy v). Qed.

Lemma converts_to_string : forall v, converts v = true -> exists s, to_string v = Some s.
Proof. intros v. unfold converts. destruct (to_string v) as [s|]; [now exists s|discriminate]. Qed.

(** The summary of an analysis whose score converts. *)
Lemma summary_text_converts : forall l result,
  converts (get result (js "score")) = true ->
  exists summary, summary_text l result = Some summary.
Proof.
  intros l result Hs. unfold summary_text.
  destruct (converts_to_string _ (converts_js_or _ (js "N/A") Hs)) as (text & ->).
  now eexists.
Qed.

(** The text that goes into the transcript, for notes that convert. *)
Lemma text_to_store_run : forall result (summary : jsstring) st,
  converts (get result (js "notes")) = true ->
  exists notes,
    to_string (get result (js "notes")) = Some notes
    /\ (if truthy (get result (js "notes"))
        then notes <- lift (to_string (get result (js "notes"))) ;;
             ret (summary ++ [newline] ++ notes)
        else ret summary) st
       = (st, Ok (if truthy (get result (js "notes"))
                  then summary ++ [newline] ++ notes else summary)).
Proof.
  intros result summary st Hc. destruct (converts_to_string _ Hc) as (notes & En).
  exists notes. split; [assumption|].
  destruct (truthy (get result (js "notes"))); [|reflexivity].
  unfold bind. now rewrite En.
Qed.

(** An analysis with recommendations starts an exercise at step 0, when its
    score and its notes convert to strings and the bubble of its notes does
    not throw (notes that are not a string do, in a page that shows
    bubbles). *)
Lemma handleAnalysisResult_creates : forall result first recs st,
  truthy result = true ->
  get result (js "recommendations") = VArr (first :: recs) ->
  (msgContainer st = true -> truthy (get result (js "notes")) = true ->
   is_string (get result (js "notes")) = true) ->
  converts (get result (js "score")) = true ->
  converts (get result (js "notes")) = true ->
  exists st',
    handleAnalysisResult result st = (st', Ok tt)
    /\ exerciseState st'
       = Some {| analysis := result; currentStep := 0;
                 totalSteps := Z.of_nat (S (List.length recs)) |}.
Proof.
  intros result first recs st Ht Hrecs Hnotes Hscore Hconv.
  destruct (summary_text_converts (selectedLang st) result Hscore) as (summary & Es).
  unfold handleAnalysisResult, bind at 1, state. rewrite Ht. cbn [negb].
  unfold bind at 1. rewrite Es. cbn [lift ret].
  unfold bind at 1. rewrite appendBotBubble_string.
  set (st1 := if msgContainer st then _ else st).
  assert (Hm1 : msgContainer st1 = msgContainer st)
    by (subst st1; destruct (msgContainer st) eqn:Em; cbn; congruence).
  unfold bind at 1.
  assert (Enotes : exists st2,
            (if truthy (get result (js "notes")) then appendBotBubble (get result (js "notes"))
             else ret tt) st1 = (st2, Ok tt)).
  { destruct (truthy (get result (js "notes"))) eqn:Etn; [|now exists st1].
    destruct (msgContainer st) eqn:Em.
    - specialize (Hnotes eq_refl eq_refl).
      destruct (get result (js "notes")); try discriminate.
      rewrite appendBotBubble_string. eexists. reflexivity.
    - unfold appendBotBubble, bind, state. rewrite Hm1. now exists st1. }
  destruct Enotes as (st2 & ->).
  rewrite Hrecs. change (js_or (VArr (first :: recs)) (VArr [])) with (VArr (first :: recs)).
  cbn match. unfold bind at 1. unfold bind at 1. unfold modify at 1. unfold bind at 1.
  destruct (renderCurrentExerciseStep_completes
              (with_exercise (Some {| analysis := result; currentStep := 0;
                                      totalSteps := Z.of_nat (List.length (first :: recs)) |}) st2))
    as (st3 & -> & Hex).
  rewrite speakText_run. unfold bind at 1.
  match goal with
  | |- context [(if truthy (get result (js "notes")) then _ else _) ?s] =>
      destruct (text_to_store_run result summary s Hconv) as (notes & _ & ->)
  end.
  unfold push_turn, modify.
  eexists. split; [reflexivity|].
  destruct (negb (speechSynthesis st3) || negb (autoSpeak st3)); cbn; rewrite Hex; reflexivity.
Qed.

Lemma hideCrisis_run : forall st,
  hideCrisis st = (if negb (crisisBox st) then st else with_ui (ui st ++ [CrisisHidden]) st, Ok tt).
Proof.
  intros st. unfold hideCrisis, bind, state, show, modify, ret.
  now destruct (negb (crisisBox st)).
Qed.

Lemma appendUserBubble_run : forall text st,
  appendUserBubble text st
  = (if negb (msgContainer st) then st else with_ui (ui st ++ [UserBubble text]) st, Ok tt).
Proof.
  intros text st. unfold appendUserBubble, bind, state, show, modify, ret.
  now destruct (negb (msgContainer st)).
Qed.

(** [sendMessage] up to the request: the crisis box is hidden, the bubble
    and the turn of the user are added, and a request is made when the page
    has its message list. *)
Lemma send_start_run : forall u text st,
  exists st1,
    send_start (u :: text) st
    = (st1, Ok (if negb (msgContainer st1) then None else Some (request_lang st1)))
    /\ chatHistory st1
       = chatHistory st ++ [{| turn_role := User; turn_text := VStr (u :: text) |}]
    /\ exerciseState st1 = exerciseState st
    /\ page st1 = page st.
Proof.
  intros u text st. unfold send_start.
  unfold bind at 1. rewrite hideCrisis_run.
  unfold bind at 1. rewrite appendUserBubble_run.
  unfold bind at 1, push_turn, modify. unfold bind at 1, state.
  match goal with
  | |- exists st1, (if negb (msgContainer ?s) then _ else _) _ = _ /\ _ => exists s
  end.
  split; [|split; [|split]].
  - match goal with
    | |- (if ?b then _ else _) _ = _ => destruct b; reflexivity
    end.
  - destruct (negb (crisisBox st)); cbn; destruct (negb (msgContainer st)); reflexivity.
  - destruct (negb (crisisBox st)); cbn; destruct (negb (msgContainer st)); reflexivity.
  - unfold page.
    destruct (negb (crisisBox st)); cbn; destruct (negb (msgContainer st)); reflexivity.
Qed.

(** The [catch] of [sendMessage] takes the last turn off the transcript. *)
Lemma send_catch_pops : forall e st,
  exists st', send_catch e st = (st', Ok tt)
              /\ chatHistory st' = removelast (chatHistory st)
              /\ exerciseState st' = exerciseState st.
Proof.
  intros e st. unfold send_catch, bind at 1, state.
  destruct e; unfold bind, pop_turn, modify; rewrite appendBotBubble_string;
    eexists; (split; [reflexivity|]); cbn; destruct (msgContainer st); split; reflexivity.
Qed.

(** A failed send, once it is handled, takes the last turn off the
    transcript, whatever that turn is. *)
Lemma send_settle_failed : forall reqLang net st,
  failed_send net = true ->
  exists st',
    send_settle reqLang net st = (st', Ok tt)
    /\ chatHistory st' = removelast (chatHistory st)
    /\ exerciseState st' = exerciseState st.
Proof.
  intros reqLang net st Hfail. unfold send_settle, try_catch, send_try.
  destruct net as [e|[|] status raw json]; [|discriminate|].
  - apply send_catch_pops.
  - unfold bind, pop_turn, modify. rewrite appendBotBubble_string.
    eexists. split; [reflexivity|]. cbn. destruct (msgContainer st); split; reflexivity.
Qed.

(** A failed send that nothing interrupts completes and gives the
    transcript back as it was. *)
Lemma sendMessage_rolls_back : forall st u text net,
  msgContainer st = true ->
  failed_send net = true ->
  exists st',
    sendMessage (u :: text) net st = (st', Ok tt)
    /\ chatHistory st' = chatHistory st.
Proof.
  intros st u text net Hm Hfail. unfold sendMessage, bind at 1.
  destruct (send_start_run u text st) as (st1 & -> & Hh1 & _ & Hp).
  assert (Hm1 : msgContainer st1 = true)
    by (unfold page in Hp; injection Hp as -> _ _ _ _ _ _ _; assumption).
  rewrite Hm1. cbn [negb].
  destruct (send_settle_failed (request_lang st1) net st1 Hfail) as (st' & -> & Hh & _).
  exists st'. split; [reflexivity|]. rewrite Hh, Hh1. apply removelast_last.
Qed.

End ClientFacts.

(* ================================================================= *)
(** ** The specified properties of chat.js *)

Section ClientClaims.
Context `{JsRuntime}.

(** C5: an analysis with a non-empty list of recommendations (whose score
    and notes convert to strings) creates an exercise state at step 0 with
    as many steps as recommendations; [goToStep] clamps whatever index it is
    given into [0, totalSteps - 1] and keeps the analysis and the number of
    steps; and over every sequence of actions (analyses arriving, clicks on
    Prev, Next and Complete of any rendering, messages sent, also sends that
    overlap) a live exercise state satisfies
    [0 <= currentStep < totalSteps] and
    [totalSteps = length(analysis.recommendations)]. *)
Theorem exercise_step_stays_in_range :
  (forall result first recs st,
     truthy result = true ->
     get result (js "recommendations") = VArr (first :: recs) ->
     (msgContainer st = true -> truthy (get result (js "notes")) = true ->
      is_string (get result (js "notes")) = true) ->
     converts (get result (js "score")) = true ->
     converts (get result (js "notes")) = true ->
     exists st',
       handleAnalysisResult result st = (st', Ok tt)
       /\ exerciseState st'
          = Some {| analysis := result; currentStep := 0;
                    totalSteps := Z.of_nat (List.length (first :: recs)) |}
       /\ client_ok st')
  /\ (forall i st e,
        exerciseState st = Some e ->
        exercise_ok e ->
        exists e',
          exerciseState (fst (goToStep i st)) = Some e'
          /\ analysis e' = analysis e
          /\ totalSteps e' = totalSteps e
          /\ currentStep e' = Z.max 0 (Z.min (totalSteps e - 1) i)
          /\ 0 <= currentStep e' < totalSteps e')
  /\ (forall acts st, client_ok st -> client_ok (run_actions acts st)).
Proof.
  repeat apply conj.
  - intros result first recs st Ht Hrecs Hnotes Hscore Hconv.
    destruct (handleAnalysisResult_creates result first recs st Ht Hrecs Hnotes Hscore Hconv)
      as (st' & E & Hex).
    exists st'. repeat split; try assumption.
    unfold client_ok. rewrite Hex. split; [simpl; lia|].
    exists (first :: recs). split; [assumption|reflexivity].
  - intros i st e He (Hrange & _). rewrite goToStep_exercise, He.
    eexists. split; [reflexivity|]. cbn [analysis totalSteps currentStep].
    repeat split; lia.
  - apply run_actions_ok.
Qed.

(** C6: on a live exercise state (in a page that shows bubbles) one
    "complete" action ends the exercise ([exerciseState] becomes [null]) and
    shows one more bubble, the completion message, which spells out the
    number of steps [totalSteps] and the score of the analysis as JavaScript
    prints it: every number, whole or fractional, through Number::toString
    (so 72, 72.5 and 1e+21), and 0 for a score that is missing or falsy; so
    it is for every exercise whose score is a number.
    With the two recommendations "Sit straight" and "Relax shoulders", Next
    then Complete ends with the message that 2 steps are done. *)
Theorem complete_exercise_reports :
  (forall st e score,
     exerciseState st = Some e ->
     msgContainer st = true ->
     to_string (final_score e) = Some score ->
     exists st',
       completeExercise st = (st', Ok tt)
       /\ exerciseState st' = None
       /\ chatHistory st' = chatHistory st
       /\ ui st' = ui st
                   ++ BotBubble (completion_message (selectedLang st) (totalSteps e) score)
                   :: (if negb (speechSynthesis st) || negb (autoSpeak st) then []
                       else [Speak (VStr (completion_message (selectedLang st) (totalSteps e)
                                                             score))
                                   (tts_code (selectedLang st))]))
  /\ (forall e x,
        get (analysis e) (js "score") = VNum x ->
        to_string (final_score e)
        = Some (if truthy (VNum x) then number_to_string x else js "0"))
  /\ (forall e,
        truthy (get (analysis e) (js "score")) = false ->
        to_string (final_score e) = Some (js "0"))
  /\ (forall st e x,
        exerciseState st = Some e ->
        msgContainer st = true ->
        get (analysis e) (js "score") = VNum x ->
        exists st',
          completeExercise st = (st', Ok tt)
          /\ exerciseState st' = None
          /\ In (BotBubble (completion_message (selectedLang st) (totalSteps e)
                              (if truthy (VNum x) then number_to_string x else js "0")))
                (ui st'))
  /\ (forall l total score,
        is_hi l = false ->
        completion_message l total score
        = js "Exercise complete! " ++ decimal total ++ js " steps done. Final score: "
          ++ score ++ js "/100. Great job!")
  /\ (forall total score,
        completion_message (js "hi") total score
        = js "अभ्यास पूरा! " ++ decimal total ++ js " कदम पूरे। अंतिम स्कोर: "
          ++ score ++ js "/100। शानदार!")
  /\ (decimal 2 = js "2"
      /\ number_to_string 72 = js "72"
      /\ number_to_string (number_of_decimal false 725 (-1)) = js "72.5"
      /\ number_to_string (number_of_decimal false 1 21) = js "1e+21")
  /\ exerciseState (run_actions [AnalysisArrived two_step_analysis; ClickNext 0 2]
                                (initial_state (js "en")))
     = Some {| analysis := two_step_analysis; currentStep := 1; totalSteps := 2 |}
  /\ exerciseState (run_actions [AnalysisArrived two_step_analysis; ClickNext 0 2; ClickComplete]
                                (initial_state (js "en"))) = None
  /\ ui (run_actions [AnalysisArrived two_step_analysis; ClickNext 0 2; ClickComplete]
                     (initial_state (js "en")))
     = ui (run_actions [AnalysisArrived two_step_analysis; ClickNext 0 2]
                       (initial_state (js "en")))
       ++ [BotBubble (js "Exercise complete! 2 steps done. Final score: 72/100. Great job!");
           Speak (VStr (js "Exercise complete! 2 steps done. Final score: 72/100. Great job!"))
                 (js "en-US")].
Proof.
  repeat apply conj.
  - intros st e score He Hm Hs. rewrite (completeExercise_live st e score He Hm Hs).
    eexists. split; [reflexivity|]. repeat split.
  - intros e x Hs. apply (final_score_number e x Hs).
  - intros e Hs. apply (final_score_missing e Hs).
  - intros st e x He Hm Hs.
    rewrite (completeExercise_live st e _ He Hm (proj2 (final_score_number e x Hs))).
    eexists. split; [reflexivity|]. split; [reflexivity|].
    cbn [ui with_ui with_exercise]. apply in_or_app. right. left. reflexivity.
  - intros l total score Hl. unfold completion_message. now rewrite Hl.
  - intros total score. reflexivity.
  - vm_compute. reflexivity.
  - vm_compute. reflexivity.
  - vm_compute. reflexivity.
  - vm_compute. reflexivity.
  - vm_compute. reflexivity.
  - vm_compute. reflexivity.
  - vm_compute. reflexivity.
Qed.

(** C7 (as amended): a send that fails (a rejected request, the abort of
    the 30 second timer, an answer that is not OK) takes the last turn off
    the transcript at the moment the failure is handled.  When no handler
    has changed the transcript since the send appended the user's turn, and
    so for every send that nothing interrupts, the turn taken off is that
    user's turn: the transcript is again what it was before the append, and
    so is its length. *)
Theorem failed_send_rolls_back :
  (forall reqLang net st,
     failed_send net = true ->
     exists st',
       send_settle reqLang net st = (st', Ok tt)
       /\ chatHistory st' = removelast (chatHistory st))
  /\ (forall st text reqLang st1 others net,
        send_start text st = (st1, Ok (Some reqLang)) ->
        chatHistory (run_actions others st1) = chatHistory st1 ->
        failed_send net = true ->
        exists st',
          send_settle reqLang net (run_actions others st1) = (st', Ok tt)
          /\ chatHistory st' = chatHistory st
          /\ List.length (chatHistory st') = List.length (chatHistory st))
  /\ (forall st text net,
        text <> [] ->
        msgContainer st = true ->
        failed_send net = true ->
        exists st',
          sendMessage text net st = (st', Ok tt)
          /\ chatHistory st' = chatHistory st
          /\ List.length (chatHistory st') = List.length (chatHistory st)).
Proof.
  repeat apply conj.
  - intros reqLang net st Hfail.
    destruct (send_settle_failed reqLang net st Hfail) as (st' & E & Hh & _).
    now exists st'.
  - intros st [|u text] reqLang st1 others net Estart Hsame Hfail; [discriminate|].
    destruct (send_start_run u text st) as (st1' & E1 & Hh1 & _).
    rewrite Estart in E1. injection E1 as <- _.
    destruct (send_settle_failed reqLang net (run_actions others st1) Hfail)
      as (st' & E & Hh & _).
    assert (Hback : chatHistory st' = chatHistory st)
      by (rewrite Hh, Hsame, Hh1; apply removelast_last).
    exists st'. repeat split; try assumption. now rewrite Hback.
  - intros st [|u text] net Hne Hm Hfail; [now elim Hne|].
    destruct (sendMessage_rolls_back st u text net Hm Hfail) as (st' & E & Hh).
    exists st'. repeat split; try assumption. now rewrite Hh.
Qed.

End ClientClaims.

(* ================================================================= *)
(** ** The client properties on concrete runs *)

Lemma exercise_step_stays_in_range_witness :
  client_ok (run_actions (H := example_runtime)
               [AnalysisArrived two_step_analysis; ClickNext 0 2; ClickNext 1 2;
                ClickPrev 1 2; ClickPrev 0 2]
               (initial_state (js "en"))).
Proof.
  apply (proj2 (proj2 (exercise_step_stays_in_range (H := example_runtime)))).
  exact I.
Defined.

Lemma complete_exercise_reports_witness :
  exists st',
    completeExercise
      (run_actions (H := example_runtime)
         [AnalysisArrived two_step_analysis; ClickNext 0 2] (initial_state (js "en")))
    = (st', Ok tt)
    /\ exerciseState st' = None.
Proof.
  destruct (proj1 (complete_exercise_reports (H := example_runtime))
              (run_actions (H := example_runtime)
                 [AnalysisArrived two_step_analysis; ClickNext 0 2] (initial_state (js "en")))
              {| analysis := two_step_analysis; currentStep := 1; totalSteps := 2 |}
              (js "72") eq_refl eq_refl eq_refl) as (st' & E & Hex & _).
  exists st'. split; assumption.
Defined.

(** A send that fails while a click on Next comes between its two parts. *)
Lemma failed_send_rolls_back_witness :
  exists st',
    send_settle (H := example_runtime) (js "en") (Rejected AbortError)
      (run_actions (H := example_runtime) [ClickNext 0 2]
         (fst (send_start (js "hello") exercise_started)))
    = (st', Ok tt)
    /\ chatHistory st' = chatHistory exercise_started
    /\ List.length (chatHistory st') = List.length (chatHistory exercise_started).
Proof.
  apply (proj1 (proj2 (failed_send_rolls_back (H := example_runtime)))
           exercise_started (js "hello") (js "en")
           (fst (send_start (js "hello") exercise_started)) [ClickNext 0 2]
           (Rejected AbortError)).
  - vm_compute. reflexivity.
  - vm_compute. reflexivity.
  - reflexivity.
Defined.

(** C7 as stated fails when sends overlap: "first" is sent, "second" is sent
    while the first request is in flight, and the first request fails.  The
    failure takes the turn of "second" off the transcript: the turn of the
    failed "first" stays, and the transcript, empty before "first" was
    appended, has length 1.  When the second request is then answered, its
    reply follows the turn of "first". *)
Lemma failed_send_counterexample :
  chatHistory (initial_state (js "en")) = []
  /\ chatHistory
       (run_actions (H := example_runtime)
          [SendStart (js "first"); SendStart (js "second")] (initial_state (js "en")))
     = [ {| turn_role := User; turn_text := VStr (js "first") |};
         {| turn_role := User; turn_text := VStr (js "second") |} ]
  /\ chatHistory
       (run_actions (H := example_runtime)
          [SendStart (js "first"); SendStart (js "second");
           SendSettle (js "en") (Rejected OtherError)] (initial_state (js "en")))
     = [ {| turn_role := User; turn_text := VStr (js "first") |} ]
  /\ chatHistory
       (run_actions (H := example_runtime)
          [SendStart (js "first"); SendStart (js "second");
           SendSettle (js "en") (Rejected OtherError);
           SendSettle (js "en") (Resolved true 200 [] (Some padded_reply))]
          (initial_state (js "en")))
     = [ {| turn_role := User; turn_text := VStr (js "first") |};
         {| turn_role := Model; turn_text := VStr (js "Hello there") |} ].
Proof.
  split; [reflexivity|]. split; [vm_compute; reflexivity|].
  split; vm_compute; reflexivity.
Qed.

(* ================================================================= *)
(** ** More of POST /api/chat *)

Section ChatShape.
Context `{JsRuntime}.
Variables (c : client) (req : chat_request) (up : upstream).

(** The trace of the loop: back-offs after the attempts that threw, then the
    attempt that answered, none beyond the bound. *)
Lemma chat_loop_trace_shape : forall (fuel : nat) (a : Z),
  a <= maxAttempts ->
  (Z.to_nat (maxAttempts - a) < fuel)%nat ->
  exists k r,
    a + Z.of_nat k <= maxAttempts
    /\ chat_loop fuel c req up a
       = Some (failed_attempts k a ++ [Attempt (a + Z.of_nat k)], r).
Proof.
  induction fuel as [|fuel IH]; intros a Hle Hfuel; [lia|]. cbn [chat_loop].
  destruct (Z.leb_spec a maxAttempts); [|lia].
  destruct (try_attempt c req up a) as [r|].
  - exists 0%nat, r. split; [lia|]. now rewrite Z.add_0_r.
  - destruct (Z.geb_spec a maxAttempts).
    + exists 0%nat, (apology (lang_of req)). split; [lia|]. now rewrite Z.add_0_r.
    + destruct (IH (a + 1)) as (k & r & Hk & E); try lia.
      exists (S k), r. split; [lia|]. rewrite E. cbn [failed_attempts app].
      now replace (a + 1 + Z.of_nat k) with (a + Z.of_nat (S k)) by lia.
Qed.

(** Where the answer of the loop comes from: the [catch] of the last
    attempt, or the [try] of an attempt whose provider call returned. *)
Lemma chat_loop_answer_origin : forall (fuel : nat) (a : Z) trace r,
  a <= maxAttempts ->
  chat_loop fuel c req up a = Some (trace, r) ->
  r = apology (lang_of req)
  \/ exists n result,
       a <= n <= maxAttempts /\ up n = Returns result
       /\ classify_reply req result = Some r.
Proof.
  induction fuel as [|fuel IH]; intros a trace r Hle; [discriminate|]. cbn [chat_loop].
  destruct (Z.leb_spec a maxAttempts); [|lia].
  destruct (try_attempt c req up a) as [r'|] eqn:Etry.
  - intros [= _ <-]. right. unfold try_attempt in Etry.
    destruct (request_builds c req); [|discriminate].
    destruct (up a) as [|result] eqn:Eup; [discriminate|].
    exists a, result. repeat split; try assumption; lia.
  - destruct (Z.geb_spec a maxAttempts).
    + intros [= _ <-]. now left.
    + destruct (chat_loop fuel c req up (a + 1)) as [[trace' r']|] eqn:E; [|discriminate].
      intros [= _ <-]. destruct (IH (a + 1) trace' r') as [-> | (n & result & Hn & Hup & Hc)];
        try assumption; try lia; [now left|].
      right. exists n, result. repeat split; try assumption; lia.
Qed.

End ChatShape.

Section MoreChat.
Context `{JsRuntime}.

(** X1: whatever the request and the provider, the handler makes at most
    three attempts, numbered from 1, sleeps only between two attempts, 1000
    then 2000 milliseconds, and so never more than 3000 in all. *)
Theorem chat_bounded_effort : forall env req up,
  exists trace r,
    chat env req up = Some (trace, r)
    /\ In trace [ [];
                  [Attempt 1];
                  [Attempt 1; Sleep 1000; Attempt 2];
                  [Attempt 1; Sleep 1000; Attempt 2; Sleep 2000; Attempt 3] ]
    /\ (List.length (attempts trace) <= 3)%nat
    /\ fold_right Z.add 0 (sleeps trace) <= 3000.
Proof.
  intros env req up. unfold chat.
  destruct (select_client env) as [c|].
  - destruct (chat_loop_trace_shape c req up (Z.to_nat maxAttempts + 1) 1)
      as (k & r & Hk & E); try (unfold maxAttempts; lia).
    rewrite E. eexists _, r. split; [reflexivity|].
    unfold maxAttempts in Hk.
    destruct k as [|[|[|k]]]; [| | |lia]; cbn; repeat split; auto; lia.
  - eexists _, _. split; [reflexivity|]. cbn. repeat split; auto; lia.
Qed.

(** X2: the handler answers with type "crisis" only when the provider
    returned, at one of the attempts, a reply that declares a crisis itself,
    or when the message is a string that holds a crisis keyword. *)
Theorem chat_crisis_only_when : forall env req up trace r,
  chat env req up = Some (trace, r) ->
  get (body r) (js "type") = VStr (js "crisis") ->
  exists n result reply,
    1 <= n <= maxAttempts
    /\ up n = Returns result
    /\ extractReplyFromProviderObj result = VStr reply
    /\ (declares_crisis reply = true
        \/ exists msg, message req = VStr msg /\ has_trigger msg = true).
Proof.
  intros env req up trace r. unfold chat.
  destruct (select_client env) as [c|]; [|intros [= _ <-]; discriminate].
  intros E Htype.
  destruct (chat_loop_answer_origin c req up _ 1 trace r ltac:(unfold maxAttempts; lia) E)
    as [-> | (n & result & Hn & Hup & Hc)]; [discriminate|].
  unfold classify_reply in Hc.
  destruct (negb (truthy (extractReplyFromProviderObj result)));
    [injection Hc as <-; discriminate|].
  destruct (extractReplyFromProviderObj result) as [| | | |reply| |] eqn:Er; try discriminate.
  exists n, result, reply. repeat split; try assumption; try lia.
  destruct (trim reply); [injection Hc as <-; discriminate|].
  unfold declares_crisis.
  destruct (is_str (get (parseJsonSafe (VStr reply)) (js "type")) (js "crisis"));
    [now left|].
  destruct (message req) as [| | | |msg| |]; try discriminate.
  right. exists msg. split; [reflexivity|]. unfold has_trigger.
  destruct (existsb _ triggers); [reflexivity|]. injection Hc as <-. discriminate.
Qed.

End MoreChat.

(* ================================================================= *)
(** ** More of reply extraction and classification *)

Lemma drop_while_head : forall p s c rest,
  drop_while p s = c :: rest -> p c = false.
Proof.
  induction s as [|x s IH]; intros c rest; simpl; [discriminate|].
  destruct (p x) eqn:Ex; [apply IH|]. intros [= <- _]. assumption.
Qed.

Lemma drop_while_suffix : forall p s, exists pre, s = pre ++ drop_while p s.
Proof.
  induction s as [|x s [pre IH]]; simpl; [now exists []|].
  destruct (p x); [|now exists []]. exists (x :: pre). simpl. now rewrite <- IH.
Qed.

Lemma drop_while_idem : forall p s, drop_while p (drop_while p s) = drop_while p s.
Proof.
  intros p s. destruct (drop_while p s) as [|c rest] eqn:E; [reflexivity|].
  apply drop_while_stop. eapply drop_while_head; eassumption.
Qed.

(** [trimEnd] cuts a suffix off. *)
Lemma trimEnd_prefix : forall s, exists suffix, s = trimEnd s ++ suffix.
Proof.
  intros s. unfold trimEnd. destruct (drop_while_suffix is_space (rev s)) as [pre E].
  exists (rev pre). rewrite <- rev_app_distr, <- E. now rewrite rev_involutive.
Qed.

(** What [trim] gives has white space at neither end. *)
Lemma trim_ends : forall s,
  trim s = []
  \/ exists c rest, trim s = c :: rest
                    /\ is_space c = false /\ is_space (last (c :: rest) c) = false.
Proof.
  intros s. unfold trim.
  destruct (trimEnd (trimStart s)) as [|c rest] eqn:E; [now left|]. right.
  exists c, rest. split; [reflexivity|]. split.
  - destruct (trimEnd_prefix (trimStart s)) as [suffix Es]. rewrite E in Es.
    unfold trimStart in Es. eapply drop_while_head. exact Es.
  - unfold trimEnd in E. apply (f_equal (@rev N)) in E. rewrite rev_involutive in E.
    destruct (rev (c :: rest)) as [|z zs] eqn:Er.
    + apply (f_equal (@rev N)) in Er. rewrite rev_involutive in Er. discriminate.
    + apply drop_while_head in E.
      apply (f_equal (@rev N)) in Er. rewrite rev_involutive in Er. rewrite Er.
      simpl. now rewrite last_last.
Qed.

Lemma trim_idem : forall s, trim (trim s) = trim s.
Proof.
  intros s. destruct (trim_ends s) as [-> | (c & rest & -> & Hc & Hl)]; [reflexivity|].
  now apply trim_fixed.
Qed.

Lemma plain_trim : forall s, plain s = true -> trim s = s /\ s <> [].
Proof.
  intros [|c s] Hp; [discriminate|]. unfold plain in Hp.
  rewrite !andb_true_iff, !negb_true_iff in Hp. destruct Hp as ((Hspace & _) & Hlast).
  split; [now apply trim_fixed|discriminate].
Qed.

Section MoreReplies.
Context `{JsRuntime}.

Lemma extract_gemini_fenced : forall tag ws1 body ws2 parsed text,
  forallb is_word tag = true ->
  forallb is_space ws1 = true ->
  forallb is_space ws2 = true ->
  json_like body = true ->
  JSON_parse body = Some parsed ->
  truthy parsed = true ->
  get parsed (js "text") = VStr text ->
  text <> [] ->
  extractReplyFromProviderObj (gemini_result (VStr (fenced tag ws1 body ws2))) = VStr text.
Proof.
  intros tag ws1 body ws2 parsed text Htag Hws1 Hws2 Hbody Hparse Htruthy Htext Hne.
  unfold extractReplyFromProviderObj. rewrite gemini_text_of_result.
  change (truthy (gemini_result (VStr (fenced tag ws1 body ws2)))) with true.
  assert (Hf : truthy (VStr (fenced tag ws1 body ws2)) = true) by reflexivity.
  rewrite Hf. cbn [negb]. rewrite stripCodeFences_fenced by assumption.
  destruct body as [|b body]; [discriminate|].
  cbn [parseJsonSafe]. rewrite Hparse, Htruthy, Htext.
  destruct text; [now elim Hne|reflexivity].
Qed.

(** X3: with a Gemini-shaped result whose fenced JSON body has a [text]
    member that is not JSON itself, only that text reaches the classifier:
    for a message without crisis keyword the answer is the type "reply"
    with the trimmed text and [request_photo: false], whatever type and
    [request_photo] the body declares. *)
Theorem chat_gemini_payload_flags_dropped :
  forall env c req up n tag ws1 body ws2 parsed text msg,
    select_client env = Some c ->
    history_maps c (history req) = true ->
    1 <= n <= maxAttempts ->
    (forall j, 1 <= j < n -> up j = Throws) ->
    up n = Returns (gemini_result (VStr (fenced tag ws1 body ws2))) ->
    forallb is_word tag = true ->
    forallb is_space ws1 = true ->
    forallb is_space ws2 = true ->
    json_like body = true ->
    JSON_parse body = Some parsed ->
    truthy parsed = true ->
    get parsed (js "text") = VStr text ->
    trim text <> [] ->
    JSON_parse text = None ->
    message req = VStr msg ->
    has_trigger msg = false ->
    chat env req up
    = Some (failed_attempts (Z.to_nat (n - 1)) 1 ++ [Attempt n],
            res_json (reply_body (VStr (trim text)) (VBool false))).
Proof.
  intros env c req up n tag ws1 body ws2 parsed text msg
         Hc Hh Hn Hthrows Hup Htag Hws1 Hws2 Hbody Hparse Htruthy Htext Htrim Hnojson
         Hmsg Hkey.
  apply chat_first_answer with (c := c); try assumption.
  rewrite (try_attempt_returns c req up n _ (request_builds_string c req msg Hh Hmsg) Hup).
  unfold classify_reply.
  assert (Hne : text <> []) by (intros ->; now apply Htrim).
  rewrite (extract_gemini_fenced tag ws1 body ws2 parsed text) by assumption.
  destruct text as [|u text]; [now elim Hne|]. cbn [truthy negb].
  destruct (trim (u :: text)) as [|t ts] eqn:Et; [now elim Htrim|].
  cbn [parseJsonSafe]. rewrite Hnojson. cbn [get is_str].
  rewrite Hmsg. unfold has_trigger in Hkey. rewrite Hkey. reflexivity.
Qed.

(** X4: with an OpenAI-shaped result the content is not unwrapped: when it
    is JSON text that does not declare a crisis and the message holds no
    crisis keyword, the answer is the type "reply" whose text is that JSON
    text as it came, with the [request_photo] of the JSON value (or
    [false]). *)
Theorem chat_openai_json_reply_kept_raw :
  forall env c req up n content parsed msg,
    select_client env = Some c ->
    history_maps c (history req) = true ->
    1 <= n <= maxAttempts ->
    (forall j, 1 <= j < n -> up j = Throws) ->
    up n = Returns (openai_result (VStr content)) ->
    plain content = true ->
    JSON_parse content = Some parsed ->
    is_str (get parsed (js "type")) (js "crisis") = false ->
    message req = VStr msg ->
    has_trigger msg = false ->
    chat env req up
    = Some (failed_attempts (Z.to_nat (n - 1)) 1 ++ [Attempt n],
            res_json (reply_body (VStr content)
                        (js_or (get parsed (js "request_photo")) (VBool false)))).
Proof.
  intros env c req up n content parsed msg Hc Hh Hn Hthrows Hup Hplain Hparse Htype Hmsg Hkey.
  apply chat_first_answer with (c := c); try assumption.
  rewrite (try_attempt_returns c req up n _ (request_builds_string c req msg Hh Hmsg) Hup).
  destruct (plain_trim content Hplain) as [Htrim Hne].
  unfold classify_reply, extractReplyFromProviderObj.
  rewrite gemini_text_of_openai, openai_content_of_result.
  destruct content as [|u content]; [now elim Hne|].
  change (truthy (openai_result (VStr (u :: content)))) with true.
  change (isArray (get (openai_result (VStr (u :: content))) (js "choices"))) with true.
  cbn [negb truthy andb]. rewrite stripCodeFences_plain by assumption.
  cbn [truthy negb]. rewrite Htrim. cbn [parseJsonSafe]. rewrite Hparse, Htype, Hmsg.
  unfold has_trigger in Hkey. now rewrite Hkey.
Qed.

End MoreReplies.

(** X5: the text between two fences loses its leading run of word
    characters, taken for a language tag, then the white space around what
    is left, then one pair of backticks around it, and is trimmed. *)
Theorem stripCodeFences_of_fenced_text : forall inner,
  stripCodeFences (VStr (ticks3 ++ inner ++ ticks3))
  = VStr (trim (unwrap_backticks
                  (trimEnd (drop_while is_space (drop_while is_word inner))))).
Proof. exact stripCodeFences_between_fences. Qed.

(** X6: a fence that holds nothing but word characters, with no line break
    after the opening fence, is stripped to the empty string: the content is
    taken for the language tag. *)
Theorem stripCodeFences_word_only_fence : forall content,
  forallb is_word content = true ->
  stripCodeFences (VStr (ticks3 ++ content ++ ticks3)) = VStr [].
Proof.
  intros content Hw. rewrite stripCodeFences_between_fences.
  rewrite <- (app_nil_r content) at 1. rewrite drop_while_all by assumption.
  reflexivity.
Qed.

(** X7: what [stripCodeFences] makes of a string is a string with white
    space at neither end, and stripping it of white space changes nothing;
    a value that is not a string is returned as it is when truthy and as
    the empty string otherwise. *)
Theorem stripCodeFences_result_trimmed : forall v,
  match v with
  | VStr s => exists r, stripCodeFences v = VStr r /\ trim r = r
  | _ => stripCodeFences v = (if truthy v then v else VStr [])
  end.
Proof.
  intros [| | | |s| |]; try reflexivity.
  destruct s as [|c s]; [exists []; split; reflexivity|].
  eexists. split; [reflexivity|]. apply trim_idem.
Qed.

(* ================================================================= *)
(** ** Credentials, the analysis relay, the demo endpoints, safeTrim *)

Lemma str_eqb_neq : forall s t, str_eqb s t = false <-> s <> t.
Proof.
  intros s t. split.
  - intros E Heq. apply str_eqb_eq in Heq. congruence.
  - intros Hne. destruct (str_eqb s t) eqn:E; [|reflexivity].
    apply str_eqb_eq in E. contradiction.
Qed.

Lemma select_client_some : forall env,
  (provider_name env = js "google" /\ env_set (GOOGLE_API_KEY env) = true)
  \/ (provider_name env = js "openai" /\ env_set (OPENAI_API_KEY env) = true) ->
  select_client env <> None.
Proof.
  intros env [[Ep Ek] | [Ep Ek]]; unfold select_client; rewrite Ep, Ek.
  - discriminate.
  - cbn. discriminate.
Qed.

Section Credentials.
Context `{JsRuntime}.

(** X8: the handler answers 500 exactly when no client can be made, which
    is when the selected provider (google unless LLM_PROVIDER says
    otherwise) is neither google with GOOGLE_API_KEY set nor openai with
    OPENAI_API_KEY set; a key of the provider that is not selected does not
    count. *)
Theorem chat_500_exactly_without_client : forall env req up trace r,
  chat env req up = Some (trace, r) ->
  (status r = 500 <-> select_client env = None)
  /\ (select_client env = None
      <-> ~ ((provider_name env = js "google" /\ env_set (GOOGLE_API_KEY env) = true)
             \/ (provider_name env = js "openai" /\ env_set (OPENAI_API_KEY env) = true))).
Proof.
  intros env req up trace r E. split.
  - destruct (chat_answer_kinds env req up) as (trace' & r' & E' & Hk).
    rewrite E in E'. injection E' as _ <-. split.
    + intros Hs. destruct Hk as [Hk | [Hn _]]; [congruence|assumption].
    + intros Hn. unfold chat in E. rewrite Hn in E. now injection E as _ <-.
  - split.
    + intros Hn Hsome. now apply select_client_some in Hsome.
    + intros Hno. apply select_client_none.
      * intros Ep. destruct (env_set (GOOGLE_API_KEY env)) eqn:Ek; [|reflexivity].
        elim Hno. now left.
      * intros Ep. destruct (env_set (OPENAI_API_KEY env)) eqn:Ek; [|reflexivity].
        elim Hno. now right.
Qed.

End Credentials.

Lemma set_field_lookup : forall fields k v k0,
  lookup k0 (set_field fields k v) = if str_eqb k k0 then v else lookup k0 fields.
Proof.
  induction fields as [|[k' v'] fields IH]; intros k v k0; cbn [set_field lookup].
  - reflexivity.
  - destruct (str_eqb k' k) eqn:Ek; cbn [lookup].
    + apply str_eqb_eq in Ek. subst k'.
      now destruct (str_eqb k k0).
    + rewrite IH. destruct (str_eqb k' k0) eqn:Ek0; [|reflexivity].
      apply str_eqb_eq in Ek0. subst k'. now rewrite (proj2 (str_eqb_neq k k0))
        by (intros ->; apply str_eqb_neq in Ek; now apply Ek).
Qed.

Lemma has_field_lookup : forall k fields,
  has_field k fields = false -> lookup k fields = VUndefined.
Proof.
  induction fields as [|[k' v'] fields IH]; cbn; [reflexivity|].
  destruct (str_eqb k' k); [discriminate|]. exact IH.
Qed.

(** Copying the members of an object with distinct names over a literal. *)
Lemma spread_lookup : forall fields acc k,
  NoDup (map fst fields) ->
  lookup k (fold_left (fun acc kv => set_field acc (fst kv) (snd kv)) fields acc)
  = if has_field k fields then lookup k fields else lookup k acc.
Proof.
  induction fields as [|[k' v'] fields IH]; intros acc k Hnd; cbn [fold_left]; [reflexivity|].
  inversion Hnd as [|? ? Hnotin Hnd']; subst.
  rewrite IH by assumption. cbn [fst snd]. rewrite set_field_lookup.
  unfold has_field. cbn [existsb lookup fst].
  destruct (str_eqb k' k) eqn:Ek; cbn [orb]; [|reflexivity].
  apply str_eqb_eq in Ek. subst k'.
  destruct (existsb (fun kv => str_eqb (fst kv) k) fields) eqn:Ex; [|reflexivity].
  exfalso. apply Hnotin. apply existsb_exists in Ex as ([k1 v1] & Hin & Ek1).
  apply str_eqb_eq in Ek1. cbn in Ek1. subst k1.
  apply in_map_iff. now exists (k, v1).
Qed.

(** X9: when the pose service answers OK with a JSON object, the handler of
    /api/analyze relays every member of that object unchanged with status
    200; the member [type] is "analysis" unless the object brings a [type]
    of its own, which then replaces it. *)
Theorem analyze_relays_members : forall req fields k,
  file req = true ->
  NoDup (map fst fields) ->
  status (analyze req (Answered true (Some (VObj fields)))) = 200
  /\ get (body (analyze req (Answered true (Some (VObj fields))))) k
     = if has_field k fields then get (VObj fields) k
       else if str_eqb (js "type") k then VStr (js "analysis") else VUndefined.
Proof.
  intros req fields k Hf Hnd. unfold analyze. rewrite Hf. cbn [negb].
  split; [reflexivity|]. cbn [body res_json get]. unfold spread. cbn [own_properties].
  rewrite spread_lookup by assumption. reflexivity.
Qed.

(** X10: for every draw of [Math.random()], /api/insights answers 200 with
    one of its two texts, never with a missing insight; /api/posture answers
    400 exactly when [landmarks] is falsy (an empty array is accepted) and
    otherwise 200 with one of its two messages and the one fixed
    recommendation. *)
Theorem demo_endpoints : forall rnd,
  in_unit_interval rnd ->
  (exists text,
     In (VStr text) insight_texts
     /\ insights rnd = res_json (VObj [(js "insight", VStr text)]))
  /\ (forall landmarks,
        truthy landmarks = false ->
        posture landmarks rnd
        = res_status_json 400 (VObj [(js "error", VStr (js "No landmarks"))]))
  /\ (forall landmarks,
        truthy landmarks = true ->
        status (posture landmarks rnd) = 200
        /\ get (body (posture landmarks rnd)) (js "recommendations")
           = VArr [VStr (js "Straighten up")]
        /\ (get (body (posture landmarks rnd)) (js "message")
              = VStr (js "Posture score: Good")
            \/ get (body (posture landmarks rnd)) (js "message")
               = VStr (js "Posture score: Adjust shoulders")))
  /\ truthy (VArr []) = true.
Proof.
  intros [n d] [Hlo Hhi]. cbn [numer denom] in *. repeat apply conj.
  - unfold insights. cbn [numer denom].
    change (Z.of_nat (List.length insight_texts)) with 2.
    assert (Hq : 0 <= 2 * n / d < 2).
    { split; [apply Z.div_pos; lia|apply Z.div_lt_upper_bound; lia]. }
    assert (Hc : 2 * n / d = 0 \/ 2 * n / d = 1) by lia.
    destruct Hc as [-> | ->]; eexists; (split; [|reflexivity]); cbn; auto.
  - intros landmarks Hl. unfold posture. now rewrite Hl.
  - intros landmarks Hl. unfold posture. rewrite Hl. cbn [negb numer denom].
    destruct (d <? 2 * n); split; try reflexivity; split; try reflexivity; auto.
  - reflexivity.
Qed.

(** X11: both [safeTrim]s leave a text that fits the bound as it is, and cut
    a longer one to at most [n + 1] code units that start with its first
    [n]; the one of server.js returns a falsy value unchanged. *)
Theorem safeTrim_bounds :
  (forall s n,
     (List.length (safeTrim s n) <= n + 1)%nat
     /\ firstn n (safeTrim s n) = firstn n s
     /\ ((List.length s <= n)%nat -> safeTrim s n = s))
  /\ (forall s len,
        exists r,
          ServerJs.safeTrim (VStr s) len = Some (VStr r)
          /\ (List.length r <= len + 1)%nat
          /\ firstn len r = firstn len s
          /\ ((List.length s <= len)%nat -> r = s))
  /\ (forall v len, truthy v = false -> ServerJs.safeTrim v len = Some v).
Proof.
  assert (Hcut : forall (s : jsstring) n,
            (n < List.length s)%nat ->
            (List.length (firstn n s ++ js "…") <= n + 1)%nat
            /\ firstn n (firstn n s ++ js "…") = firstn n s).
  { intros s n Hn. split.
    - rewrite length_app, firstn_length_le by lia. cbn. lia.
    - rewrite firstn_app, firstn_firstn, Nat.min_id, firstn_length_le by lia.
      rewrite Nat.sub_diag. cbn. apply app_nil_r. }
  repeat apply conj.
  - intros s n. unfold safeTrim. destruct s as [|c s]; [cbn; repeat split; lia|].
    destruct (Nat.ltb_spec n (List.length (c :: s))) as [Hlt|Hge].
    + destruct (Hcut (c :: s) n Hlt) as [Hl Hf]. repeat split; try assumption. lia.
    + repeat split; lia.
  - intros s len. unfold ServerJs.safeTrim.
    assert (Es : to_string (js_or (VStr s) (VStr [])) = Some s) by now destruct s.
    rewrite Es.
    destruct (Nat.ltb_spec len (List.length s)) as [Hlt|Hge].
    + destruct (Hcut s len Hlt) as [Hl Hf]. eexists. repeat split; try eassumption. lia.
    + exists s. repeat split; lia.
  - intros v len Hv. unfold ServerJs.safeTrim, js_or. rewrite Hv. reflexivity.
Qed.

(* ================================================================= *)
(** ** chat.js: what a handler leaves alone *)

Lemma keeps_field_ret : forall (A B : Type) (f : client_state -> B) (a : A),
  keeps_field f (ret a).
Proof. intros A B f a st. reflexivity. Qed.

Lemma keeps_field_throw : forall (A B : Type) (f : client_state -> B) (e : error),
  keeps_field f (@throw A e).
Proof. intros A B f e st. reflexivity. Qed.

Lemma keeps_field_state : forall (B : Type) (f : client_state -> B), keeps_field f state.
Proof. intros B f st. reflexivity. Qed.

Lemma keeps_field_lift : forall (A B : Type) (f : client_state -> B) (r : option A),
  keeps_field f (lift r).
Proof. intros A B f [a|] st; reflexivity. Qed.

Lemma keeps_field_modify : forall (B : Type) (f : client_state -> B) g,
  (forall st, f (g st) = f st) -> keeps_field f (modify g).
Proof. intros B f g Hg st. apply Hg. Qed.

Lemma keeps_field_bind :
  forall (A A' B : Type) (f : client_state -> B) (c : handler A) (k : A -> handler A'),
    keeps_field f c -> (forall a, keeps_field f (k a)) -> keeps_field f (bind c k).
Proof.
  intros A A' B f c k Hc Hk st. unfold bind. specialize (Hc st).
  destruct (c st) as [st' [a|e]]; cbn [fst] in *; [|assumption].
  now rewrite Hk.
Qed.

Lemma keeps_field_try_catch :
  forall (A B : Type) (f : client_state -> B) (c : handler A) (h : error -> handler A),
    keeps_field f c -> (forall e, keeps_field f (h e)) -> keeps_field f (try_catch c h).
Proof.
  intros A B f c h Hc Hh st. unfold try_catch. specialize (Hc st).
  destruct (c st) as [st' [a|e]]; cbn [fst] in *; [assumption|].
  now rewrite Hh.
Qed.

(** Takes a goal [keeps_field f h] apart along the structure of [h], down to
    the updates of the state, which must leave [f] as it is. *)
Ltac keeps_field :=
  repeat first
    [ apply keeps_field_ret | apply keeps_field_throw | apply keeps_field_state
    | apply keeps_field_lift
    | solve [auto with handlers]
    | solve [unfold show, push_turn, pop_turn; apply keeps_field_modify; intros; reflexivity]
    | apply keeps_field_bind; [|intros ?]
    | apply keeps_field_try_catch; [|intros ?]
    | match goal with
      | |- keeps_field _ (if ?b then _ else _) => destruct b
      | |- keeps_field _ (match ?x with _ => _ end) => destruct x
      end
    | progress unfold appendUserBubble, appendBotBubble, speakText, hideCrisis, showCrisis,
        renderCurrentExerciseStep ].

Lemma appends_keeps : forall (A : Type) (h : handler A),
  keeps_field chatHistory h -> appends h.
Proof. intros A h Hk st. exists []. now rewrite Hk, app_nil_r. Qed.

Lemma appends_bind : forall (A B : Type) (c : handler A) (k : A -> handler B),
  appends c -> (forall a, appends (k a)) -> appends (bind c k).
Proof.
  intros A B c k Hc Hk st. unfold bind. destruct (Hc st) as [extra E].
  destruct (c st) as [st' [a|e]]; cbn [fst] in *; [|now exists extra].
  destruct (Hk a st') as [extra' E']. exists (extra ++ extra').
  now rewrite E', E, app_assoc.
Qed.

Lemma appends_push_turn : forall r text, appends (push_turn r text).
Proof. intros r text st. eexists. reflexivity. Qed.

(** The same for a goal [appends h]. *)
Ltac appends :=
  repeat first
    [ solve [apply appends_keeps; keeps_field]
    | apply appends_push_turn
    | solve [auto with handlers]
    | apply appends_bind; [|intros ?]
    | match goal with
      | |- appends (if ?b then _ else _) => destruct b
      | |- appends (match ?x with _ => _ end) => destruct x
      end ].

Section Uploading.
Context `{JsRuntime}.

Hint Resolve keeps_appendUserBubble keeps_appendBotBubble keeps_speakText keeps_hideCrisis
  keeps_showCrisis keeps_renderCurrentExerciseStep maintains_goToStep
  maintains_completeExercise maintains_handleAnalysisResult : handlers.

Lemma keeps_exercise_upload : forall blob net,
  keeps_exercise (uploadImageForAnalysis blob net).
Proof. intros blob net. unfold uploadImageForAnalysis. keeps. Qed.

Lemma keeps_history_upload : forall blob net,
  keeps_field chatHistory (uploadImageForAnalysis blob net).
Proof. intros blob net. unfold uploadImageForAnalysis. keeps_field. Qed.

(** What a failed upload resolves to is falsy. *)
Lemma upload_failed_result : forall blob net st v,
  upload_failed net = true ->
  snd (uploadImageForAnalysis blob net st) = Ok v ->
  truthy v = false.
Proof.
  intros blob net st v Hfail. unfold uploadImageForAnalysis, bind at 1, state.
  unfold bind at 1. rewrite appendBotBubble_string. unfold bind at 1.
  destruct blob; cbn [ret throw snd fst]; [|discriminate].
  unfold try_catch.
  destruct net as [e|[|] status raw [json|]]; cbn [throw];
    unfold bind; rewrite ?appendBotBubble_string; cbn [ret snd fst];
    try (intros [= <-]; reflexivity).
  cbn in Hfail. intros [= <-]. now apply negb_true_iff in Hfail.
Qed.

(** The handler of a [catch] that only shows a text never throws. *)
Lemma catch_bubble_completes : forall (text : client_state -> jsstring) st,
  exists st', (st' <- state ;; appendBotBubble (VStr (text st'))) st = (st', Ok tt).
Proof.
  intros text st. unfold bind, state. rewrite appendBotBubble_string. eexists. reflexivity.
Qed.

Lemma try_catch_completes : forall (c : handler unit) (h : error -> handler unit),
  (forall e st, exists st', h e st = (st', Ok tt)) ->
  forall st, exists st', try_catch c h st = (st', Ok tt).
Proof.
  intros c h Hh st. unfold try_catch.
  destruct (c st) as [st' [[]|e]]; [now exists st'|]. apply Hh.
Qed.

Lemma handleFileSelected_completes : forall file net st,
  exists st', handleFileSelected file net st = (st', Ok tt).
Proof.
  intros file net st. unfold handleFileSelected.
  destruct file; cbn [negb]; [|now exists st].
  unfold bind at 1, state. unfold bind at 1. rewrite appendUserBubble_run.
  apply try_catch_completes. intros e st1.
  apply (catch_bubble_completes
           (fun s => if is_hi (selectedLang s) then js "अपलोड विफल।" else js "Upload failed.")).
Qed.

Lemma captureClick_completes : forall blob net st,
  exists st', captureClick blob net st = (st', Ok tt).
Proof.
  intros blob net st. unfold captureClick.
  apply try_catch_completes. intros e st1.
  apply (catch_bubble_completes
           (fun s => if is_hi (selectedLang s) then js "फ़ोटो कैप्चर विफल।"
                     else js "Failed to capture photo.")).
Qed.

Lemma maintains_upload_handlers : forall net,
  (forall file, maintains (handleFileSelected file net))
  /\ (forall blob, maintains (captureClick blob net)).
Proof.
  intros net.
  assert (Mu : forall blob, maintains (uploadImageForAnalysis blob net))
    by (intros blob; apply maintains_keeps, keeps_exercise_upload).
  split.
  - intros file. unfold handleFileSelected. maintains.
  - intros blob. unfold captureClick. maintains.
Qed.

(** X12: the two upload handlers never throw, whatever the capture, the
    network and the analysis do: every error ends in a bubble; and they
    maintain the well-formedness of the exercise state. *)
Theorem uploads_never_throw : forall net st,
  (forall file,
     exists st', handleFileSelected file net st = (st', Ok tt)
                 /\ (client_ok st -> client_ok st'))
  /\ (forall blob,
        exists st', captureClick blob net st = (st', Ok tt)
                    /\ (client_ok st -> client_ok st')).
Proof.
  intros net st. destruct (maintains_upload_handlers net) as [Mf Mc]. split.
  - intros file. destruct (handleFileSelected_completes file net st) as [st' E].
    exists st'. split; [assumption|]. intros Hok.
    specialize (Mf file st Hok). now rewrite E in Mf.
  - intros blob. destruct (captureClick_completes blob net st) as [st' E].
    exists st'. split; [assumption|]. intros Hok.
    specialize (Mc blob st Hok). now rewrite E in Mc.
Qed.

(** X13: an upload that brings no analysis (a rejected request, an answer
    that is not OK or cannot be read, a falsy body) changes neither the
    exercise state nor the transcript. *)
Theorem failed_upload_changes_nothing : forall net st,
  upload_failed net = true ->
  exerciseState (fst (handleFileSelected true net st)) = exerciseState st
  /\ chatHistory (fst (handleFileSelected true net st)) = chatHistory st.
Proof.
  intros net st Hfail.
  assert (K : keeps_exercise (handleFileSelected true net)
              /\ keeps_field chatHistory (handleFileSelected true net)).
  { assert (Hr : forall s, match uploadImageForAnalysis true net s with
                           | (_, Ok v) => truthy v = false
                           | (_, Err _) => True
                           end).
    { intros s. pose proof (upload_failed_result true net s) as Hu.
      destruct (uploadImageForAnalysis true net s) as [s' [v|e]]; [|exact I].
      now apply Hu. }
    assert (Ex : forall s,
              (result <- uploadImageForAnalysis true net ;;
               if truthy result then handleAnalysisResult result else ret tt) s
              = (fst (uploadImageForAnalysis true net s),
                 match snd (uploadImageForAnalysis true net s) with
                 | Ok _ => Ok tt
                 | Err e => Err e
                 end)).
    { intros s. unfold bind. specialize (Hr s).
      destruct (uploadImageForAnalysis true net s) as [s' [v|e]]; [|reflexivity].
      now rewrite Hr. }
    split.
    - intros s. unfold handleFileSelected. cbn [negb].
      unfold bind at 1, state. unfold bind at 1. rewrite appendUserBubble_run.
      set (s1 := if negb (msgContainer s) then s else _).
      assert (E1 : exerciseState s1 = exerciseState s)
        by (subst s1; now destruct (negb (msgContainer s))).
      unfold try_catch. rewrite Ex. rewrite <- E1, <- (keeps_exercise_upload true net s1).
      destruct (snd (uploadImageForAnalysis true net s1)); [reflexivity|].
      unfold bind, state. now rewrite appendBotBubble_string;
        destruct (msgContainer (fst (uploadImageForAnalysis true net s1))).
    - intros s. unfold handleFileSelected. cbn [negb].
      unfold bind at 1, state. unfold bind at 1. rewrite appendUserBubble_run.
      set (s1 := if negb (msgContainer s) then s else _).
      assert (E1 : chatHistory s1 = chatHistory s)
        by (subst s1; now destruct (negb (msgContainer s))).
      unfold try_catch. rewrite Ex. rewrite <- E1, <- (keeps_history_upload true net s1).
      destruct (snd (uploadImageForAnalysis true net s1)); [reflexivity|].
      unfold bind, state. now rewrite appendBotBubble_string;
        destruct (msgContainer (fst (uploadImageForAnalysis true net s1))). }
  destruct K as [Ke Kh]. split; [apply Ke|apply Kh].
Qed.

End Uploading.

Section MoreClient.
Context `{JsRuntime}.

Hint Resolve keeps_appendUserBubble keeps_appendBotBubble keeps_speakText keeps_hideCrisis
  keeps_showCrisis keeps_renderCurrentExerciseStep maintains_goToStep
  maintains_completeExercise maintains_handleAnalysisResult : handlers.

Lemma keeps_history_render : keeps_field chatHistory renderCurrentExerciseStep.
Proof. keeps_field. Qed.

(** The bubble of the notes goes through when the notes are a string, or
    when the page shows no bubbles. *)
Lemma notes_bubble_completes : forall result st,
  (msgContainer st = true -> truthy (get result (js "notes")) = true ->
   is_string (get result (js "notes")) = true) ->
  exists st',
    (if truthy (get result (js "notes")) then appendBotBubble (get result (js "notes"))
     else ret tt) st = (st', Ok tt)
    /\ chatHistory st' = chatHistory st.
Proof.
  intros result st Hnotes.
  destruct (truthy (get result (js "notes"))) eqn:Etn; [|now exists st].
  destruct (msgContainer st) eqn:Em.
  - specialize (Hnotes eq_refl eq_refl).
    destruct (get result (js "notes")); try discriminate.
    rewrite appendBotBubble_string, Em. eexists. split; reflexivity.
  - unfold appendBotBubble, bind, state. rewrite Em. now exists st.
Qed.

(** The end of [handleAnalysisResult]: the text is put together and stored
    as a turn of the model. *)
Lemma store_turn_run : forall result (summary notes : jsstring) st,
  to_string (get result (js "notes")) = Some notes ->
  (textToStore <-
     (if truthy (get result (js "notes"))
      then notes <- lift (to_string (get result (js "notes"))) ;;
           ret (summary ++ [newline] ++ notes)
      else ret summary) ;;
   push_turn Model (VStr textToStore)) st
  = (with_history
       (chatHistory st
        ++ [{| turn_role := Model;
               turn_text := VStr (if truthy (get result (js "notes"))
                                  then summary ++ [newline] ++ notes else summary) |}]) st,
     Ok tt).
Proof.
  intros result summary notes st En. unfold bind at 1.
  destruct (truthy (get result (js "notes"))).
  - unfold bind. rewrite En. reflexivity.
  - reflexivity.
Qed.

Lemma no_recommendations_run : forall text st,
  (appendBotBubble (VStr text) ;; modify (with_exercise None)) st
  = (with_exercise None (if msgContainer st then with_ui (ui st ++ [BotBubble text]) st else st),
     Ok tt).
Proof. intros text st. unfold bind. now rewrite appendBotBubble_string. Qed.

(** X14: an analysis that arrives replaces whatever exercise was going on:
    with a non-empty array of recommendations a new exercise starts at step
    0, with anything else the exercise state is cleared; and one turn of
    the model, the summary with the notes, is added to the transcript.  The
    summary holds the score as JavaScript prints it.  (Notes that are not a
    string make the bubble throw in a page that shows bubbles, and a score
    or notes that do not convert to a string make the handler throw; they
    are excluded.) *)
Theorem analysis_supersedes_exercise : forall result st,
  truthy result = true ->
  (msgContainer st = true -> truthy (get result (js "notes")) = true ->
   is_string (get result (js "notes")) = true) ->
  converts (get result (js "score")) = true ->
  converts (get result (js "notes")) = true ->
  exists st' summary notes,
    summary_text (selectedLang st) result = Some summary
    /\ to_string (get result (js "notes")) = Some notes
    /\ handleAnalysisResult result st = (st', Ok tt)
    /\ exerciseState st'
       = match get result (js "recommendations") with
         | VArr ((_ :: _) as recs) =>
             Some {| analysis := result; currentStep := 0;
                     totalSteps := Z.of_nat (List.length recs) |}
         | _ => None
         end
    /\ chatHistory st'
       = chatHistory st
         ++ [{| turn_role := Model;
                turn_text :=
                  VStr (if truthy (get result (js "notes"))
                        then summary ++ [newline] ++ notes else summary) |}].
Proof.
  intros result st Ht Hnotes Hscore Hconv.
  destruct (summary_text_converts (selectedLang st) result Hscore) as (summary & Es).
  destruct (converts_to_string _ Hconv) as (notes & En).
  enough (Hcore : exists st',
            handleAnalysisResult result st = (st', Ok tt)
            /\ exerciseState st'
               = match get result (js "recommendations") with
                 | VArr ((_ :: _) as recs) =>
                     Some {| analysis := result; currentStep := 0;
                             totalSteps := Z.of_nat (List.length recs) |}
                 | _ => None
                 end
            /\ chatHistory st'
               = chatHistory st
                 ++ [{| turn_role := Model;
                        turn_text :=
                          VStr (if truthy (get result (js "notes"))
                                then summary ++ [newline] ++ notes else summary) |}]).
  { destruct Hcore as (st' & E & Hex & Hh). exists st', summary, notes. auto. }
  unfold handleAnalysisResult, bind at 1, state. rewrite Ht. cbn [negb].
  unfold bind at 1. rewrite Es. cbn [lift ret].
  unfold bind at 1. rewrite appendBotBubble_string.
  set (st1 := if msgContainer st then _ else st).
  assert (Hm1 : msgContainer st1 = msgContainer st)
    by (subst st1; destruct (msgContainer st) eqn:Em; cbn; congruence).
  assert (Hh1 : chatHistory st1 = chatHistory st)
    by (subst st1; now destruct (msgContainer st)).
  unfold bind at 1.
  destruct (notes_bubble_completes result st1) as (st2 & -> & Hh2);
    [rewrite Hm1; exact Hnotes|].
  rewrite Hh1 in Hh2. unfold bind at 1.
  assert (Hend : forall st3,
            exerciseState st3
            = match get result (js "recommendations") with
              | VArr ((_ :: _) as recs) =>
                  Some {| analysis := result; currentStep := 0;
                          totalSteps := Z.of_nat (List.length recs) |}
              | _ => None
              end ->
            chatHistory st3 = chatHistory st ->
            exists st',
              (textToStore <-
                    (if truthy (get result (js "notes"))
                     then notes1 <- lift (to_string (get result (js "notes"))) ;;
                          ret (summary ++ [newline] ++ notes1)
                     else ret summary) ;;
                  push_turn Model (VStr textToStore)) st3 = (st', Ok tt)
              /\ exerciseState st'
                 = match get result (js "recommendations") with
                   | VArr ((_ :: _) as recs) =>
                       Some {| analysis := result; currentStep := 0;
                               totalSteps := Z.of_nat (List.length recs) |}
                   | _ => None
                   end
              /\ chatHistory st'
                 = chatHistory st
                   ++ [{| turn_role := Model;
                          turn_text :=
                            VStr (if truthy (get result (js "notes"))
                                  then summary ++ [newline] ++ notes else summary) |}]).
  { intros st3 Hex3 Hh3. rewrite (store_turn_run result summary notes st3 En).
    eexists. split; [reflexivity|]. cbn. now rewrite Hex3, Hh3. }
  destruct (get result (js "recommendations")) as [| |b|x|s|[|first recs]|fields] eqn:Erecs;
    unfold js_or; cbn [truthy];
    try match goal with
        | |- context [if ?cond then _ else VArr []] => destruct cond
        end;
    try solve [rewrite no_recommendations_run; apply Hend;
               destruct (msgContainer st2); cbn; now rewrite ?Hh2].
  - unfold bind at 1. unfold modify at 1. unfold bind at 1.
    destruct (renderCurrentExerciseStep_completes
                (with_exercise (Some {| analysis := result; currentStep := 0;
                                        totalSteps := Z.of_nat (List.length (first :: recs)) |})
                               st2)) as (st3 & E3 & Hex).
    pose proof (keeps_history_render
                  (with_exercise (Some {| analysis := result; currentStep := 0;
                                          totalSteps := Z.of_nat (List.length (first :: recs)) |})
                                 st2)) as Hh3.
    rewrite E3 in *. cbn [fst] in Hh3.
    rewrite speakText_run. apply Hend.
    + destruct (negb (speechSynthesis st3) || negb (autoSpeak st3)); cbn; now rewrite Hex.
    + destruct (negb (speechSynthesis st3) || negb (autoSpeak st3)); cbn;
        rewrite Hh3; cbn; now rewrite Hh2.
Qed.

End MoreClient.

Section MoreSending.
Context `{JsRuntime}.

Hint Resolve keeps_appendUserBubble keeps_appendBotBubble keeps_speakText keeps_hideCrisis
  keeps_showCrisis keeps_renderCurrentExerciseStep maintains_goToStep
  maintains_completeExercise maintains_handleAnalysisResult : handlers.

Lemma appends_handleAnalysisResult : forall result, appends (handleAnalysisResult result).
Proof. intros result. unfold handleAnalysisResult. appends. Qed.

Lemma appends_handle_response : forall reqLang parsedResponse,
  appends (handle_response reqLang parsedResponse).
Proof.
  intros reqLang parsedResponse. pose proof appends_handleAnalysisResult.
  unfold handle_response, show_reply. appends.
Qed.

(** [sendMessage] up to the request: the crisis box is hidden, the bubble
    and the turn of the user are added. *)
Lemma sendMessage_prelude : forall u text net st,
  exists st1,
    chatHistory st1 = chatHistory st ++ [{| turn_role := User; turn_text := VStr (u :: text) |}]
    /\ exerciseState st1 = exerciseState st
    /\ page st1 = page st
    /\ sendMessage (u :: text) net st
       = (if negb (msgContainer st1) then ret tt
          else try_catch (send_try (request_lang st1) net) send_catch) st1.
Proof.
  intros u text net st.
  destruct (send_start_run u text st) as (st1 & E & Hh & Hex & Hp).
  exists st1. repeat (split; [assumption|]).
  unfold sendMessage, bind. rewrite E.
  destruct (negb (msgContainer st1)); reflexivity.
Qed.

(** X15: [sendMessage] only appends to the transcript: the turns that were
    there stay as they are, and what is added, if anything, starts with the
    turn of the user. *)
Theorem send_only_appends : forall text net st,
  exists more,
    chatHistory (fst (sendMessage text net st)) = chatHistory st ++ more
    /\ (more = []
        \/ exists rest, more = {| turn_role := User; turn_text := VStr text |} :: rest).
Proof.
  intros [|u text] net st; [exists []; split; [now rewrite app_nil_r|now left]|].
  destruct (sendMessage_prelude u text net st) as (st1 & Hh1 & _ & _ & ->).
  set (user := {| turn_role := User; turn_text := VStr (u :: text) |}) in *.
  destruct (negb (msgContainer st1)).
  { exists [user]. split; [assumption|]. right. now exists []. }
  assert (Hpop : forall e s extra,
            chatHistory s = chatHistory st1 ++ extra ->
            exists more,
              chatHistory (fst (send_catch e s)) = chatHistory st ++ more
              /\ (more = [] \/ exists rest, more = user :: rest)).
  { intros e s extra Hs. destruct (send_catch_pops e s) as (s' & -> & Hh & _).
    cbn [fst]. rewrite Hh, Hs, Hh1, <- app_assoc.
    rewrite removelast_app by discriminate.
    exists (removelast ([user] ++ extra)). split; [reflexivity|].
    destruct extra as [|x extra]; [now left|]. right. now eexists. }
  unfold try_catch, send_try.
  destruct net as [e|[|] status raw [parsedResponse|]].
  - apply (Hpop e st1 []). now rewrite app_nil_r.
  - destruct (appends_handle_response (request_lang st1) parsedResponse st1) as [extra Hx].
    destruct (handle_response (request_lang st1) parsedResponse st1) as [s [[]|e]];
      cbn [fst] in Hx.
    + exists (user :: extra). split; [|right; now eexists].
      cbn [fst]. now rewrite Hx, Hh1, <- app_assoc.
    + now apply (Hpop e s extra).
  - apply (Hpop OtherError st1 []). now rewrite app_nil_r.
  - unfold bind, pop_turn, modify. rewrite appendBotBubble_string. cbn.
    exists []. rewrite app_nil_r. split; [|now left].
    destruct (msgContainer st1); cbn; rewrite Hh1; apply removelast_last.
  - unfold bind, pop_turn, modify. rewrite appendBotBubble_string. cbn.
    exists []. rewrite app_nil_r. split; [|now left].
    destruct (msgContainer st1); cbn; rewrite Hh1; apply removelast_last.
Qed.

(** X16: an answer that is not an analysis leaves the exercise state as it
    is, whether the send succeeds or fails. *)
Theorem send_leaves_exercise : forall text net st,
  not_an_analysis net = true ->
  exerciseState (fst (sendMessage text net st)) = exerciseState st.
Proof.
  intros text net st Hna.
  assert (K : keeps_exercise (sendMessage text net)); [|apply K].
  assert (Hr : forall l, match net with
                         | Resolved true _ _ (Some p) => keeps_exercise (handle_response l p)
                         | _ => True
                         end).
  { intros l. destruct net as [e|[|] status raw [p|]]; try exact I.
    change (negb (is_str (get p (js "type")) (js "analysis")) = true) in Hna.
    apply negb_true_iff in Hna.
    unfold handle_response, show_reply. rewrite Hna. cbn match. keeps. }
  unfold sendMessage, send_start, send_settle, send_try, send_catch.
  destruct text as [|u text]; [keeps|].
  destruct net as [e|[|] status raw [p|]]; keeps.
Qed.

End MoreSending.

Section Answers.
Context `{JsRuntime}.

(** Takes the conditionals of a state apart until its components show. *)
Ltac split_state :=
  repeat match goal with
         | |- context [if ?b then _ else _] => destruct b eqn:?; cbn
         end.

(** A text shown as the reply, with no helplines: it completes and adds the
    turn of the model. *)
Lemma show_reply_plain : forall reqLang text st,
  exists st',
    show_reply reqLang (VStr text) VNull st = (st', Ok tt)
    /\ chatHistory st' = chatHistory st ++ [{| turn_role := Model; turn_text := VStr text |}]
    /\ exerciseState st' = exerciseState st.
Proof.
  intros reqLang text st. unfold show_reply.
  unfold bind at 1. rewrite appendBotBubble_string.
  unfold bind at 1, push_turn, modify. unfold bind at 1. rewrite hideCrisis_run.
  unfold bind at 1, state.
  match goal with
  | |- context [if autoSpeak ?s then _ else _] => destruct (autoSpeak s)
  end; [rewrite speakText_run|unfold ret]; (eexists; split; [reflexivity|]);
    split; cbn; split_state; reflexivity.
Qed.

Lemma removelast_two : forall (A : Type) (l : list A) (a b : A),
  removelast (l ++ [a; b]) = l ++ [a].
Proof.
  intros A l a b. change [a; b] with ([a] ++ [b]).
  rewrite app_assoc. apply removelast_last.
Qed.

Lemma page_msgContainer : forall st st', page st' = page st -> msgContainer st' = msgContainer st.
Proof. intros st st' E. unfold page in E. now injection E. Qed.

(** X17: a send that is answered OK with [{ type: 'reply', text }], the text
    truthy, completes and adds exactly two turns to the transcript: the
    user's text and the model's text, converted to a string and trimmed;
    the exercise state is untouched.  [shown] is what [String(text)] gives:
    the text itself when it is a string, as in every answer of [/api/chat]. *)
Theorem send_reply_adds_two_turns : forall u text status raw parsedResponse shown st,
  msgContainer st = true ->
  is_str (get parsedResponse (js "type")) (js "reply") = true ->
  truthy (get parsedResponse (js "text")) = true ->
  to_string (get parsedResponse (js "text")) = Some shown ->
  (forall s, get parsedResponse (js "text") = VStr s -> shown = s)
  /\ exists st',
       sendMessage (u :: text) (Resolved true status raw (Some parsedResponse)) st
       = (st', Ok tt)
       /\ chatHistory st'
          = chatHistory st
            ++ [ {| turn_role := User; turn_text := VStr (u :: text) |};
                 {| turn_role := Model; turn_text := VStr (trim shown) |} ]
       /\ exerciseState st' = exerciseState st.
Proof.
  intros u text status raw p shown st Hm Htype Htext Hshown. split.
  { intros s Es. rewrite Es in Hshown. cbn in Hshown. congruence. }
  destruct (sendMessage_prelude u text (Resolved true status raw (Some p)) st)
    as (st1 & Hh1 & Hex1 & Hpage & ->).
  rewrite (page_msgContainer _ _ Hpage), Hm. cbn [negb].
  unfold try_catch, send_try, handle_response.
  destruct p as [| | | | | |fields]; try discriminate.
  cbn [truthy is_object andb]. rewrite Htype, Htext. cbn [andb].
  rewrite Hshown. unfold bind at 1. cbn [lift ret].
  destruct (show_reply_plain (request_lang st1) (trim shown) st1)
    as (st' & -> & Hh & Hex).
  exists st'. split; [reflexivity|]. split; [|congruence].
  now rewrite Hh, Hh1, <- app_assoc.
Qed.

(** X18: when the answer is a crisis whose helplines hold a [null] entry
    (in a page that has the crisis box), rendering them throws after the
    model's turn was added; the [catch] then shows the network error and
    takes the last turn off: the model's turn goes, the user's turn stays. *)
Theorem send_crisis_with_null_helpline :
  forall u text status raw parsedResponse helplines st,
    msgContainer st = true ->
    crisisBox st = true ->
    crisisNumbers st = true ->
    is_str (get parsedResponse (js "type")) (js "crisis") = true ->
    truthy (get parsedResponse (js "text")) = true ->
    converts (get parsedResponse (js "text")) = true ->
    get parsedResponse (js "helplines") = VArr helplines ->
    existsb (fun h => match h with VUndefined | VNull => true | _ => false end) helplines
    = true ->
    exists st',
      sendMessage (u :: text) (Resolved true status raw (Some parsedResponse)) st
      = (st', Ok tt)
      /\ chatHistory st'
         = chatHistory st ++ [{| turn_role := User; turn_text := VStr (u :: text) |}]
      /\ exists shown,
           ui st' = shown
                    ++ [BotBubble (if is_hi (selectedLang st)
                                   then js "नेटवर्क या सर्वर त्रुटि—बाद में कोशिश करें।"
                                   else js "Network or server error — try again later.")].
Proof.
  intros u text status raw p helplines st Hm Hcb Hcn Htype Htext Hconv Hhl Hnull.
  destruct (converts_to_string _ Hconv) as (shown & Hshown).
  destruct (sendMessage_prelude u text (Resolved true status raw (Some p)) st)
    as (st1 & Hh1 & Hex1 & Hpage & ->).
  assert (Hp : msgContainer st1 = true /\ crisisBox st1 = true /\ crisisNumbers st1 = true
               /\ selectedLang st1 = selectedLang st).
  { unfold page in Hpage. injection Hpage as -> -> -> _ _ -> _ _. auto. }
  destruct Hp as (Hm1 & Hcb1 & Hcn1 & Hl1).
  rewrite Hm1. cbn [negb].
  unfold try_catch, send_try, handle_response.
  destruct p as [| | | | | |fields]; try discriminate.
  cbn [truthy is_object andb].
  assert (Hnr : is_str (get (VObj fields) (js "type")) (js "reply") = false).
  { destruct (get (VObj fields) (js "type")) as [| | | |s| |]; try discriminate.
    cbn [is_str] in *. apply str_eqb_eq in Htype. subst s. reflexivity. }
  rewrite Hnr, Htype, Htext, Hhl, Hshown. cbn [andb isArray].
  destruct helplines as [|h hs]; [discriminate|].
  unfold bind at 1. cbn [lift ret].
  unfold show_reply.
  unfold bind at 1. rewrite appendBotBubble_string, Hm1.
  unfold bind at 1, push_turn, modify. unfold bind at 1.
  unfold showCrisis, bind at 1, state. cbn [crisisNumbers crisisBox with_history with_ui].
  rewrite Hcb1, Hcn1, Hnull. cbn [negb orb throw].
  unfold send_catch, bind at 1, state. unfold bind, pop_turn, modify.
  rewrite appendBotBubble_string. cbn. rewrite Hm1, Hl1, Hh1.
  eexists. split; [reflexivity|]. cbn. split.
  - rewrite <- app_assoc. cbn [app]. apply removelast_two.
  - eexists. reflexivity.
Qed.

End Answers.

Section Buttons.
Context `{JsRuntime}.

(** X19: on a live exercise whose analysis holds the list of
    recommendations, [goToStep] completes, moves to the clamped step and
    renders it: the header and the controls of that step when the
    recommendation there is truthy, the bubble that the step is not
    available when it is falsy or missing (an empty string, [null], a step
    beyond the list). *)
Theorem goToStep_renders_clamped_step : forall newIndex st e recs,
  msgContainer st = true ->
  exerciseState st = Some e ->
  get (analysis e) (js "recommendations") = VArr recs ->
  let total := totalSteps e in
  let k := clamped total newIndex in
  goToStep newIndex st
  = (with_ui
       (ui st
        ++ [if truthy (nth (Z.to_nat k) recs VUndefined)
            then StepControls (formatStepNumber (selectedLang st) (k + 1) total) k total
            else BotBubble (if is_hi (selectedLang st) then js "कदम उपलब्ध नहीं।"
                            else js "Step not available.")])
       (with_exercise (Some {| analysis := analysis e; currentStep := k;
                               totalSteps := total |}) st),
     Ok tt).
Proof.
  intros newIndex st e recs Hm He Hrecs total k.
  assert (Ha : truthy (analysis e) = true)
    by (destruct (analysis e); try discriminate; reflexivity).
  assert (Hk : (0 <=? k) = true) by (apply Z.leb_le; unfold k, clamped; lia).
  unfold goToStep, bind at 1, state. rewrite He.
  unfold bind at 1, modify.
  unfold renderCurrentExerciseStep, bind at 1, state.
  cbn [exerciseState with_exercise msgContainer currentStep totalSteps analysis selectedLang].
  rewrite Hm, Ha, Hrecs. cbn [negb truthy andb at_index].
  fold total. fold (clamped total newIndex). fold k. rewrite Hk.
  destruct (truthy (nth (Z.to_nat k) recs VUndefined)); cbn [negb].
  - reflexivity.
  - rewrite appendBotBubble_string. cbn [msgContainer with_exercise]. now rewrite Hm.
Qed.

(** X20: once no exercise is live (none was started, or it was completed)
    the Prev, Next and Complete buttons of earlier renderings, which stay in
    the page, do nothing: any sequence of clicks leaves the whole state as
    it is. *)
Theorem stale_buttons_do_nothing : forall acts st,
  exerciseState st = None ->
  forallb is_click acts = true ->
  run_actions acts st = st.
Proof.
  unfold run_actions.
  induction acts as [|a acts IH]; intros st He Hc; [reflexivity|].
  cbn [forallb] in Hc. apply andb_true_iff in Hc as [Ha Hc].
  cbn [fold_left].
  assert (E : fst (perform a st) = st).
  { destruct a as [result|idx total|idx total| |text net|text|reqLang net];
      try discriminate; cbn [perform].
    - destruct (idx <=? 0); [reflexivity|].
      unfold goToStep, bind, state. now rewrite He.
    - destruct (idx >=? total - 1); [reflexivity|].
      unfold goToStep, bind, state. now rewrite He.
    - unfold completeExercise, bind, state. now rewrite He. }
  rewrite E. now apply IH.
Qed.

End Buttons.

(* ================================================================= *)
(** ** chat.js: escaping *)

Lemma escape_unit_no_markup : forall u, forallb (fun v => negb (is_markup v)) (escape_unit u) = true.
Proof.
  intros u. unfold escape_unit.
  repeat match goal with
         | |- context [if (?a =? ?b)%N then _ else _] => destruct (N.eqb_spec a b)
         end; try reflexivity.
  cbn [forallb]. unfold is_markup, dquote in *. rewrite andb_true_r.
  apply negb_true_iff. lia.
Qed.

Lemma escape_unit_safe : forall u, html_safe u = true -> escape_unit u = [u].
Proof.
  intros u Hs. unfold html_safe, dquote in Hs. unfold escape_unit, dquote.
  repeat match goal with
         | |- context [if (?a =? ?b)%N then _ else _] => destruct (N.eqb_spec a b)
         end; try reflexivity; lia.
Qed.

(** X21: what [escapeHtml] returns holds none of the characters that open
    markup or end an attribute value (the two angle brackets and the two
    quotes), whatever it is given; a string that holds none of the five
    characters it rewrites comes back as it is, and anything that is not a
    string gives the empty string. *)
Theorem escapeHtml_output_is_inert :
  (forall s, forallb (fun u => negb (is_markup u)) (escapeHtml s) = true)
  /\ (forall str, forallb html_safe str = true -> escapeHtml (VStr str) = str)
  /\ (forall s, is_string s = false -> escapeHtml s = []).
Proof.
  repeat apply conj.
  - intros [| | | |str| |]; try reflexivity. cbn [escapeHtml].
    induction str as [|u str IH]; [reflexivity|].
    cbn [flat_map]. rewrite forallb_app, escape_unit_no_markup, IH. reflexivity.
  - induction str as [|u str IH]; [reflexivity|].
    cbn [forallb escapeHtml flat_map] in *. intros Hs.
    apply andb_true_iff in Hs as [Hu Hs].
    rewrite (escape_unit_safe u Hu), (IH Hs). reflexivity.
  - intros [| | | |str| |]; try reflexivity. discriminate.
Qed.

Section SendButton.
Context `{JsRuntime}.

Hint Resolve keeps_appendUserBubble keeps_appendBotBubble keeps_speakText keeps_hideCrisis
  keeps_showCrisis keeps_renderCurrentExerciseStep maintains_goToStep
  maintains_completeExercise maintains_handleAnalysisResult : handlers.

Lemma trim_blank : forall v, forallb is_space v = true -> trim v = [].
Proof.
  intros v Hv. unfold trim, trimStart, trimEnd.
  rewrite <- (app_nil_r v), drop_while_all by assumption. reflexivity.
Qed.

(** X22: a click on the send button with an input that is missing, empty or
    all white space does nothing at all; with any other input the message
    that is sent is the input without the white space at its two ends. *)
Theorem sendClick_sends_trimmed_text : forall net st,
  sendClick None net st = (st, Ok tt)
  /\ (forall v, forallb is_space v = true -> sendClick (Some v) net st = (st, Ok tt))
  /\ (forall v, trim v <> [] ->
        sendClick (Some v) net st = sendMessage (trim v) net st
        /\ exists c rest,
             trim v = c :: rest
             /\ is_space c = false /\ is_space (last (c :: rest) c) = false).
Proof.
  intros net st. repeat apply conj.
  - reflexivity.
  - intros v Hv. unfold sendClick. now rewrite trim_blank.
  - intros v Hne. split.
    + unfold sendClick. destruct (trim v); [now elim Hne|reflexivity].
    + destruct (trim_ends v) as [E | E]; [now elim Hne|exact E].
Qed.

End SendButton.

(* ================================================================= *)
(** ** From /api/analyze to the exercise *)

Section EndToEnd.
Context `{JsRuntime}.

Hint Resolve keeps_appendUserBubble keeps_appendBotBubble keeps_speakText keeps_hideCrisis
  keeps_showCrisis keeps_renderCurrentExerciseStep maintains_goToStep
  maintains_completeExercise maintains_handleAnalysisResult : handlers.

Lemma keeps_page_handleAnalysisResult : forall result,
  keeps_field page (handleAnalysisResult result).
Proof. intros result. unfold handleAnalysisResult. keeps_field. Qed.

(** X23: when the pose service brings no analysis, the answer that
    [/api/analyze] gives for an uploaded file still starts an exercise in
    the client: [handleFileSelected] completes with a live exercise of one
    step whose analysis is the fallback; as the fallback has no score,
    completing it reports 1 step and the score 0. *)
Theorem offline_pose_service_starts_exercise : forall req py raw st,
  file req = true ->
  pose_failed py = true ->
  msgContainer st = true ->
  exists st',
    handleFileSelected true
      (Resolved true (status (analyze req py)) raw (Some (body (analyze req py)))) st
    = (st', Ok tt)
    /\ exerciseState st'
       = Some {| analysis := fallback_analysis (analyze_lang_of req); currentStep := 0;
                 totalSteps := 1 |}
    /\ exists st'',
         completeExercise st' = (st'', Ok tt)
         /\ exerciseState st'' = None
         /\ In (BotBubble (completion_message (selectedLang st) 1 (js "0"))) (ui st'').
Proof.
  intros req py raw st Hf Hpy Hm.
  assert (Ea : analyze req py = res_json (fallback_analysis (analyze_lang_of req))).
  { unfold analyze. rewrite Hf. cbn [negb].
    destruct py as [|[|] [data|]]; try reflexivity. discriminate. }
  rewrite Ea. cbn [status body res_json].
  set (fb := fallback_analysis (analyze_lang_of req)).
  unfold handleFileSelected. cbn [negb].
  unfold bind at 1, state. unfold bind at 1. rewrite appendUserBubble_run, Hm. cbn [negb].
  set (st1 := with_ui _ st).
  unfold try_catch, bind at 1.
  unfold uploadImageForAnalysis, bind at 1, state.
  unfold bind at 1. rewrite appendBotBubble_string.
  unfold bind at 1. cbn [ret try_catch]. unfold try_catch. cbn [ret].
  set (st2 := if msgContainer st1 then _ else st1).
  assert (Hp2 : page st2 = page st) by (subst st2 st1; cbn; now rewrite Hm).
  change (truthy fb) with true. cbn match.
  destruct (handleAnalysisResult_creates fb
              (VStr (if is_str (analyze_lang_of req) (js "hi") then js "सीधे रहें!"
                     else js "Keep going!")) [] st2 eq_refl eq_refl)
    as (st' & E & Hex); [reflexivity|reflexivity|reflexivity|].
  pose proof (keeps_page_handleAnalysisResult fb st2) as Hp.
  rewrite E in *. cbn [fst] in Hp. rewrite Hp2 in Hp.
  assert (Hs : msgContainer st' = true /\ selectedLang st' = selectedLang st).
  { unfold page in Hp. injection Hp as -> _ _ _ _ -> _ _. now split. }
  destruct Hs as [Hm' Hl'].
  exists st'. split; [reflexivity|]. split; [exact Hex|].
  rewrite (completeExercise_live st' _ (js "0") Hex Hm' eq_refl).
  eexists. split; [reflexivity|]. split; [reflexivity|].
  cbn [ui with_ui with_exercise totalSteps]. rewrite Hl'.
  apply in_or_app. right. left. reflexivity.
Qed.

End EndToEnd.

(* ================================================================= *)
(** ** POST /api/chat on a malformed request *)

Section Malformed.
Context `{JsRuntime}.

(** X24: a request that makes the [try] block throw by itself is retried
    like a failure of the provider.  With a history that cannot be mapped (not
    a list, or a list with a [null] entry), whatever the provider does, and
    with a message that is not a string while the provider throws or returns
    replies that are neither empty nor a declared crisis, the handler goes
    through all three attempts, sleeps 1000 and 2000 ms, and answers with
    the apology. *)
Theorem chat_malformed_request_exhausts_attempts : forall env c req up,
  select_client env = Some c ->
  history_maps c (history req) = false
  \/ (is_string (message req) = false
      /\ forall n, 1 <= n <= maxAttempts ->
           up n = Throws
           \/ exists result reply,
                up n = Returns result
                /\ extractReplyFromProviderObj result = VStr reply
                /\ trim reply <> []
                /\ declares_crisis reply = false) ->
  chat env req up
  = Some ([Attempt 1; Sleep 1000; Attempt 2; Sleep 2000; Attempt 3], apology (lang_of req)).
Proof.
  intros env c req up Hc Hbad.
  assert (Hfail : forall j, 1 <= j <= maxAttempts -> try_attempt c req up j = None).
  { intros j Hj. unfold try_attempt, request_builds. destruct Hbad as [Hh | [Hmsg Hup]].
    - now rewrite Hh.
    - destruct (history_maps c (history req) && message_goes_in c (message req));
        [|reflexivity].
      destruct (Hup j Hj) as [-> | (result & reply & -> & Hex & Htrim & Hcr)];
        [reflexivity|].
      unfold classify_reply. rewrite Hex.
      destruct reply as [|u reply]; [now elim Htrim|]. cbn [truthy negb].
      destruct (trim (u :: reply)) as [|v rest]; [now elim Htrim|].
      unfold declares_crisis in Hcr. rewrite Hcr.
      destruct (message req); try reflexivity. discriminate. }
  unfold chat. rewrite Hc.
  rewrite (chat_loop_all_fail c req up 2 (Z.to_nat maxAttempts + 1) 1).
  - reflexivity.
  - unfold maxAttempts. lia.
  - reflexivity.
  - intros j Hj. now apply Hfail.
Qed.

End Malformed.

(* ================================================================= *)
(** ** From the crisis answer of /api/chat to the crisis box *)

Section CrisisBox.
Context `{JsRuntime}.

Lemma crisis_text_trimmed : forall l, trim (crisis_text l) = crisis_text l.
Proof. intros l. unfold crisis_text. destruct (is_str l (js "hi")); vm_compute; reflexivity. Qed.

Lemma crisis_text_truthy : forall l, truthy (VStr (crisis_text l)) = true.
Proof. intros l. unfold crisis_text. destruct (is_str l (js "hi")); reflexivity. Qed.

(** [fallbackHelplines[lang]] for a language that converts to a key other
    than the two of the table: the empty object that [res.json] makes of
    [Object.prototype] for ["__proto__"], nothing for every other key. *)
Lemma helplines_unlisted : forall l key,
  to_string l = Some key ->
  listed_language l = false ->
  helplines_for l = Some (if str_eqb key (js "__proto__") then VObj [] else VUndefined).
Proof.
  intros l key Hkey Hl. unfold listed_language in Hl. rewrite Hkey in Hl.
  apply orb_false_iff in Hl as [Hen Hhi].
  unfold helplines_for, fallbackHelplines. rewrite Hkey. cbn [existsb fst orb].
  rewrite (proj2 (str_eqb_neq (js "en") key)), (proj2 (str_eqb_neq (js "hi") key));
    [reflexivity| |].
  - intros E. rewrite <- E in Hhi. vm_compute in Hhi. discriminate.
  - intros E. rewrite <- E in Hen. vm_compute in Hen. discriminate.
Qed.

(** The client on a crisis answer whose helplines are not a list. *)
Lemma crisis_answer_without_helplines : forall l helplines u text status raw st,
  isArray helplines = false ->
  msgContainer st = true ->
  crisisBox st = true ->
  exists st' spoken,
    sendMessage (u :: text)
      (Resolved true status raw
         (Some (crisis_body (VStr (crisis_text l)) helplines))) st
    = (st', Ok tt)
    /\ ui st' = ui st
                ++ [CrisisHidden; UserBubble (u :: text); BotBubble (crisis_text l);
                    CrisisHidden]
                ++ spoken
    /\ forallb is_speech spoken = true
    /\ chatHistory st'
       = chatHistory st
         ++ [ {| turn_role := User; turn_text := VStr (u :: text) |};
              {| turn_role := Model; turn_text := VStr (crisis_text l) |} ].
Proof.
  intros l helplines u text status raw st Hl Hm Hcb.
  unfold sendMessage, send_start.
  unfold bind at 1. unfold bind at 1. rewrite hideCrisis_run, Hcb. cbn [negb].
  unfold bind at 1. rewrite appendUserBubble_run. cbn [msgContainer with_ui]. rewrite Hm.
  cbn [negb].
  unfold bind at 1, push_turn, modify. unfold bind at 1, state.
  cbn [msgContainer with_ui with_history]. rewrite Hm. cbn [negb ret].
  unfold send_settle, try_catch, send_try, handle_response.
  assert (Etype : forall a b,
            truthy (crisis_body a b) && is_object (crisis_body a b) = true
            /\ get (crisis_body a b) (js "type") = VStr (js "crisis")
            /\ get (crisis_body a b) (js "text") = a
            /\ get (crisis_body a b) (js "helplines") = b) by (intros a b; repeat split).
  destruct (Etype (VStr (crisis_text l)) helplines) as (Eo & Et & Ex & Eh).
  rewrite Eo, Et, Ex, Eh, Hl.
  change (is_str (VStr (js "crisis")) (js "reply")) with false.
  change (is_str (VStr (js "crisis")) (js "crisis")) with true.
  rewrite crisis_text_truthy. cbn [andb to_string primitive_to_string lift].
  unfold bind at 1. cbn [ret]. rewrite crisis_text_trimmed.
  unfold show_reply.
  unfold bind at 1. rewrite appendBotBubble_string. cbn [msgContainer with_ui with_history].
  rewrite Hm.
  unfold bind at 1, push_turn, modify. unfold bind at 1. rewrite hideCrisis_run.
  cbn [crisisBox with_ui with_history]. rewrite Hcb. cbn [negb].
  unfold bind at 1, state. cbn [autoSpeak with_ui with_history].
  destruct (autoSpeak st) eqn:Eauto.
  - rewrite speakText_run. cbn [speechSynthesis autoSpeak with_ui with_history ui].
    rewrite Eauto. cbn [negb orb]. rewrite orb_false_r.
    destruct (speechSynthesis st); cbn [negb].
    + eexists _, [_]. split; [reflexivity|]. cbn [ui with_ui chatHistory with_history].
      split; [now rewrite <- !app_assoc|]. split; [reflexivity|].
      now rewrite <- app_assoc.
    + eexists _, []. split; [reflexivity|]. cbn [ui with_ui chatHistory with_history].
      split; [now rewrite <- !app_assoc|]. split; [reflexivity|].
      now rewrite <- app_assoc.
  - eexists _, []. split; [reflexivity|]. cbn [ui with_ui chatHistory with_history ret].
    split; [now rewrite <- !app_assoc|]. split; [reflexivity|].
    now rewrite <- app_assoc.
Qed.

(** X25: a message with a crisis keyword, sent in a language that converts
    to a key other than the two of the table of helplines and answered by
    the provider with a plain reply: [/api/chat] answers at the first
    attempt with a crisis that brings no list of helplines (the empty object
    for the key ["__proto__"], nothing for any other key), and the client
    that receives this answer hides the crisis box instead of showing it;
    after the user's bubble and the bubble of the crisis text nothing but
    speech follows, and both turns are in the transcript. *)
Theorem crisis_in_unlisted_language_hides_box :
  forall env c req up result reply key u text raw st,
    select_client env = Some c ->
    history_maps c (history req) = true ->
    up 1 = Returns result ->
    extractReplyFromProviderObj result = VStr reply ->
    trim reply <> [] ->
    declares_crisis reply = false ->
    message req = VStr (u :: text) ->
    has_trigger (u :: text) = true ->
    to_string (lang_of req) = Some key ->
    listed_language (lang_of req) = false ->
    msgContainer st = true ->
    crisisBox st = true ->
    exists r st' spoken,
      chat env req up = Some ([Attempt 1], r)
      /\ get (body r) (js "type") = VStr (js "crisis")
      /\ get (body r) (js "helplines")
         = (if str_eqb key (js "__proto__") then VObj [] else VUndefined)
      /\ sendMessage (u :: text) (Resolved true (status r) raw (Some (body r))) st
         = (st', Ok tt)
      /\ ui st' = ui st
                  ++ [CrisisHidden; UserBubble (u :: text);
                      BotBubble (crisis_text (lang_of req)); CrisisHidden]
                  ++ spoken
      /\ forallb is_speech spoken = true
      /\ chatHistory st'
         = chatHistory st
           ++ [ {| turn_role := User; turn_text := VStr (u :: text) |};
                {| turn_role := Model; turn_text := VStr (crisis_text (lang_of req)) |} ].
Proof.
  intros env c req up result reply key u text raw st
         Hc Hh Hup Hreply Htrim Hcr Hmsg Hkey Hconv Hl Hm Hcb.
  set (helplines := if str_eqb key (js "__proto__") then VObj [] else VUndefined).
  assert (Harr : isArray helplines = false)
    by (subst helplines; now destruct (str_eqb key (js "__proto__"))).
  destruct (crisis_answer_without_helplines (lang_of req) helplines u text 200 raw st
              Harr Hm Hcb)
    as (st' & spoken & E & Hui & Hsp & Hhist).
  exists (res_json (crisis_body (VStr (crisis_text (lang_of req))) helplines)), st', spoken.
  split; [|split; [reflexivity|split; [reflexivity|
           split; [exact E|split; [exact Hui|split; assumption]]]]].
  apply (chat_first_answer env c req up 1); try assumption.
  - unfold maxAttempts. lia.
  - intros j Hj. lia.
  - rewrite (try_attempt_returns c req up 1 result
               (request_builds_string c req (u :: text) Hh Hmsg) Hup).
    unfold classify_reply. rewrite Hreply.
    destruct reply as [|v reply]; [now elim Htrim|]. cbn [truthy negb].
    destruct (trim (v :: reply)) eqn:Et; [now elim Htrim|].
    unfold declares_crisis in Hcr. rewrite Hcr, Hmsg.
    unfold has_trigger in Hkey. rewrite Hkey.
    now rewrite (helplines_unlisted (lang_of req) key Hconv Hl).
Qed.

End CrisisBox.

(* ================================================================= *)
(** ** From /api/insights to the insights list of the journal *)

Section JournalInsights.
Context `{JsRuntime}.

Lemma skipn_last_nonempty : forall (A : Type) (l : list A) n,
  l <> [] -> (0 < n)%nat -> skipn (List.length l - n) l <> [].
Proof.
  intros A l n Hl Hn E. apply (f_equal (@List.length A)) in E.
  rewrite length_skipn in E. cbn in E.
  destruct l; [now apply Hl|]. cbn [List.length] in E. lia.
Qed.

(** A list of strings converts to a string. *)
Lemma strings_join : forall l, forallb is_string l = true -> converts (VArr l) = true.
Proof.
  intros l Hl. unfold converts. cbn [to_string].
  induction l as [|v l IH]; [reflexivity|].
  cbn [forallb] in Hl. apply andb_true_iff in Hl as [Hv Hl]. specialize (IH Hl).
  destruct v; try discriminate. cbn [to_string].
  match goal with
  | |- context [match ?j l with _ => _ end] => destruct (j l); [reflexivity|discriminate]
  end.
Qed.

Lemma in_skipn_in : forall (A : Type) (n : nat) (l : list A) (a : A), In a (skipn n l) -> In a l.
Proof.
  intros A n. induction n as [|n IH]; intros [|b l] a Ha; cbn in *; auto.
Qed.

Lemma objects_not_null : forall l,
  forallb is_object l = true ->
  existsb (fun e => match e with VUndefined | VNull => true | _ => false end) l = false.
Proof.
  induction l as [|e l IH]; [reflexivity|]. cbn [forallb existsb]. intros Ho.
  apply andb_true_iff in Ho as [He Hl]. rewrite (IH Hl).
  destruct e; try discriminate; reflexivity.
Qed.

(** X26: with entries in the journal, whenever [/api/insights] answers, the
    insights list shows one of the two texts of the server, whatever the
    language of the browser and the text the client drew for itself; the
    client's own text, one of the three of the browser's language, is shown
    only when the request fails or its body cannot be read, or when the
    request cannot even be made because a stored mood does not convert to a
    string. *)
Theorem journal_shows_server_insight : forall stored entries hi i rnd,
  loadEntries stored = VArr entries ->
  journal_of entries ->
  in_unit_interval rnd ->
  0 <= i < 3 ->
  let moods := map (fun e => get e (js "mood")) (skipn (List.length entries - 5) entries) in
  (forall ok raw,
     exists text,
       In (VStr text) (if converts (VArr moods) then insight_texts else insightTexts hi)
       /\ insightsClick stored hi i
            (Resolved ok (status (insights rnd)) raw (Some (body (insights rnd))))
          = InsightShown (js "<li>" ++ text ++ js "</li>"))
  /\ (forall net,
        match net with Resolved _ _ _ (Some _) => False | _ => True end ->
        exists text,
          In (VStr text) (insightTexts hi)
          /\ insightsClick stored hi i net = InsightShown (js "<li>" ++ text ++ js "</li>"))
  /\ (forallb (fun e => is_string (get e (js "mood"))) entries = true ->
      converts (VArr moods) = true).
Proof.
  intros stored entries hi i [n d] Hload [Hne Hobj] [Hlo Hhi] Hi moods.
  cbn [numer denom] in *.
  pose proof (skipn_last_nonempty _ entries 5 Hne ltac:(lia)) as Hlast.
  pose proof (objects_not_null _ Hobj) as Hnull.
  assert (Hown : exists text,
            In (VStr text) (insightTexts hi)
            /\ primitive_to_string (at_index (VArr (insightTexts hi)) i) = text).
  { assert (Hc : i = 0 \/ i = 1 \/ i = 2) by lia.
    destruct Hc as [-> | [-> | ->]]; destruct hi; eexists; (split; [|reflexivity]);
      cbn; auto. }
  destruct Hown as (own & Hin & Et).
  split; [|split].
  - intros ok raw. unfold insightsClick. rewrite Hload. fold moods.
    destruct (skipn (List.length entries - 5) entries) as [|e rest] eqn:Es;
      [now elim Hlast|].
    rewrite Hnull. subst moods. cbv zeta.
    destruct (converts (VArr (map _ (e :: rest)))); cbn [negb].
    + unfold insights. cbn [numer denom status body res_json].
      change (Z.of_nat (List.length insight_texts)) with 2.
      assert (Hq : 0 <= 2 * n / d < 2).
      { split; [apply Z.div_pos; lia|apply Z.div_lt_upper_bound; lia]. }
      assert (Hc : 2 * n / d = 0 \/ 2 * n / d = 1) by lia.
      destruct Hc as [-> | ->]; eexists; (split; [|reflexivity]); cbn; auto.
    + exists own. split; [exact Hin|]. now rewrite Et.
  - intros net Hnet. unfold insightsClick. rewrite Hload.
    destruct (skipn (List.length entries - 5) entries) as [|e rest] eqn:Es;
      [now elim Hlast|].
    rewrite Hnull. exists own. split; [exact Hin|]. cbv zeta.
    rewrite Et. destruct (converts _); cbn [negb]; [|reflexivity].
    destruct net as [e0|ok status raw [data|]]; [reflexivity|now elim Hnet|reflexivity].
  - intros Hstr. subst moods. apply strings_join.
    apply forallb_forall. intros v Hv. apply in_map_iff in Hv as (e & <- & He).
    rewrite forallb_forall in Hstr. apply Hstr.
    apply (in_skipn_in _ _ _ _ He).
Qed.

End JournalInsights.

(* ================================================================= *)
(** ** The further properties on concrete runs *)

Lemma chat_crisis_only_when_witness :
  exists n result reply,
    1 <= n <= maxAttempts
    /\ always_fine n = Returns result
    /\ extractReplyFromProviderObj (H := example_runtime) result = VStr reply
    /\ (declares_crisis (H := example_runtime) reply = true
        \/ exists msg, message hopeless_request = VStr msg
                       /\ has_trigger (H := example_runtime) msg = true).
Proof.
  apply (chat_crisis_only_when (H := example_runtime) google_env hopeless_request always_fine
           [Attempt 1]
           (res_json (crisis_body (VStr (crisis_text (VStr (js "en"))))
                                  (get fallbackHelplines (js "en"))))).
  - vm_compute. reflexivity.
  - reflexivity.
Defined.

Lemma chat_gemini_payload_flags_dropped_witness :
  chat (H := example_runtime) google_env calm_request fenced_photo_request
  = Some ([Attempt 1],
          res_json (reply_body (VStr (js "Could you share a photo?")) (VBool false))).
Proof.
  apply (chat_gemini_payload_flags_dropped (H := example_runtime)
           google_env GeminiClient calm_request fenced_photo_request 1
           (js "json") [newline] photo_request_body [newline] photo_request_value
           (js "Could you share a photo?") (js "I had a long day")).
  - reflexivity.
  - reflexivity.
  - unfold maxAttempts. lia.
  - intros j Hj. lia.
  - reflexivity.
  - reflexivity.
  - reflexivity.
  - reflexivity.
  - reflexivity.
  - vm_compute. reflexivity.
  - reflexivity.
  - reflexivity.
  - vm_compute. discriminate.
  - vm_compute. reflexivity.
  - reflexivity.
  - vm_compute. reflexivity.
Defined.

Lemma chat_openai_json_reply_kept_raw_witness :
  chat (H := example_runtime) google_env calm_request raw_photo_request
  = Some ([Attempt 1], res_json (reply_body (VStr photo_request_body) (VBool true))).
Proof.
  apply (chat_openai_json_reply_kept_raw (H := example_runtime)
           google_env GeminiClient calm_request raw_photo_request 1
           photo_request_body photo_request_value (js "I had a long day")).
  - reflexivity.
  - reflexivity.
  - unfold maxAttempts. lia.
  - intros j Hj. lia.
  - reflexivity.
  - vm_compute. reflexivity.
  - vm_compute. reflexivity.
  - reflexivity.
  - reflexivity.
  - vm_compute. reflexivity.
Defined.

Lemma stripCodeFences_word_only_fence_witness :
  stripCodeFences (VStr (ticks3 ++ js "json" ++ ticks3)) = VStr [].
Proof. apply (stripCodeFences_word_only_fence (js "json")). reflexivity. Defined.

Lemma chat_500_exactly_without_client_witness :
  (status missing_credentials = 500 <-> select_client no_key_env = None)
  /\ (select_client no_key_env = None
      <-> ~ ((provider_name no_key_env = js "google"
              /\ env_set (GOOGLE_API_KEY no_key_env) = true)
             \/ (provider_name no_key_env = js "openai"
                 /\ env_set (OPENAI_API_KEY no_key_env) = true))).
Proof.
  apply (chat_500_exactly_without_client (H := example_runtime)
           no_key_env calm_request always_fine [] missing_credentials).
  reflexivity.
Defined.

Lemma analyze_relays_members_witness :
  status (analyze upload_request (Answered true (Some (VObj relayed_fields)))) = 200
  /\ get (body (analyze upload_request (Answered true (Some (VObj relayed_fields)))))
         (js "type")
     = VStr (js "posture").
Proof.
  apply (analyze_relays_members upload_request relayed_fields (js "type")).
  - reflexivity.
  - constructor; [|constructor; [intros []|constructor]].
    intros [E|[]]. vm_compute in E. discriminate E.
Defined.

Lemma demo_endpoints_witness :
  exists text,
    In (VStr text) insight_texts
    /\ insights {| numer := 3; denom := 4 |}
       = res_json (VObj [(js "insight", VStr text)]).
Proof.
  apply (demo_endpoints {| numer := 3; denom := 4 |}).
  unfold in_unit_interval. cbn. lia.
Defined.

Lemma failed_upload_changes_nothing_witness :
  exerciseState (fst (handleFileSelected (H := example_runtime) true (Rejected OtherError)
                        exercise_started))
  = exerciseState exercise_started
  /\ chatHistory (fst (handleFileSelected (H := example_runtime) true (Rejected OtherError)
                         exercise_started))
     = chatHistory exercise_started.
Proof.
  apply (failed_upload_changes_nothing (H := example_runtime) (Rejected OtherError)
           exercise_started).
  reflexivity.
Defined.

Lemma analysis_supersedes_exercise_witness :
  exists st',
    handleAnalysisResult (H := example_runtime) two_step_analysis exercise_started
    = (st', Ok tt)
    /\ exerciseState st'
       = Some {| analysis := two_step_analysis; currentStep := 0; totalSteps := 2 |}
    /\ chatHistory st'
       = chatHistory exercise_started
         ++ [{| turn_role := Model;
                turn_text :=
                  VStr (js "Posture: Rounded shoulders" ++ [newline] ++ js "Score: 72") |}].
Proof.
  destruct (analysis_supersedes_exercise (H := example_runtime) two_step_analysis
              exercise_started eq_refl)
    as (st' & summary & notes & Es & En & E & Hex & Hh).
  - intros _ Hn. vm_compute in Hn. discriminate Hn.
  - reflexivity.
  - reflexivity.
  - exists st'. split; [exact E|]. split; [exact Hex|].
    rewrite Hh. vm_compute in Es. injection Es as <-. reflexivity.
Defined.

Lemma send_leaves_exercise_witness :
  exerciseState (fst (sendMessage (H := example_runtime) (js "hello")
                        (Resolved true 200 [] (Some padded_reply)) exercise_started))
  = exerciseState exercise_started.
Proof.
  apply (send_leaves_exercise (H := example_runtime) (js "hello")
           (Resolved true 200 [] (Some padded_reply)) exercise_started).
  vm_compute. reflexivity.
Defined.

Lemma send_reply_adds_two_turns_witness :
  exists st',
    sendMessage (H := example_runtime) (js "hello")
                (Resolved true 200 [] (Some padded_reply)) (initial_state (js "en"))
    = (st', Ok tt)
    /\ chatHistory st'
       = [ {| turn_role := User; turn_text := VStr (js "hello") |};
           {| turn_role := Model; turn_text := VStr (js "Hello there") |} ].
Proof.
  destruct (send_reply_adds_two_turns (H := example_runtime) 104%N (js "ello") 200 []
              padded_reply (js "  Hello there  ") (initial_state (js "en"))
              eq_refl eq_refl eq_refl eq_refl)
    as (_ & st' & E & Hh & _).
  exists st'. split; [exact E|]. rewrite Hh. vm_compute. reflexivity.
Defined.

Lemma send_crisis_with_null_helpline_witness :
  exists st',
    sendMessage (H := example_runtime) (js "hello")
                (Resolved true 200 [] (Some crisis_with_null_helpline))
                (initial_state (js "en"))
    = (st', Ok tt)
    /\ chatHistory st' = [{| turn_role := User; turn_text := VStr (js "hello") |}].
Proof.
  destruct (send_crisis_with_null_helpline (H := example_runtime) 104%N (js "ello") 200 []
              crisis_with_null_helpline [VNull] (initial_state (js "en"))
              eq_refl eq_refl eq_refl eq_refl eq_refl eq_refl eq_refl eq_refl)
    as (st' & E & Hh & _).
  exists st'. split; [exact E|exact Hh].
Defined.

Lemma goToStep_renders_clamped_step_witness :
  snd (goToStep 5 exercise_started) = Ok tt
  /\ exerciseState (fst (goToStep 5 exercise_started))
     = Some {| analysis := two_step_analysis; currentStep := 1; totalSteps := 2 |}.
Proof.
  rewrite (goToStep_renders_clamped_step 5 exercise_started
             {| analysis := two_step_analysis; currentStep := 0; totalSteps := 2 |}
             [VStr (js "Sit straight"); VStr (js "Relax shoulders")]
             eq_refl eq_refl eq_refl).
  split; reflexivity.
Defined.

Lemma stale_buttons_do_nothing_witness :
  run_actions (H := example_runtime) [ClickNext 0 2; ClickComplete; ClickPrev 1 2]
              (initial_state (js "en"))
  = initial_state (js "en").
Proof.
  apply (stale_buttons_do_nothing (H := example_runtime)
           [ClickNext 0 2; ClickComplete; ClickPrev 1 2] (initial_state (js "en"))).
  - reflexivity.
  - reflexivity.
Defined.

Lemma offline_pose_service_starts_exercise_witness :
  exists st',
    handleFileSelected (H := example_runtime) true
      (Resolved true (status (analyze upload_request Unreachable)) []
         (Some (body (analyze upload_request Unreachable))))
      (initial_state (js "en"))
    = (st', Ok tt)
    /\ exerciseState st'
       = Some {| analysis := fallback_analysis (VStr (js "en")); currentStep := 0;
                 totalSteps := 1 |}.
Proof.
  destruct (offline_pose_service_starts_exercise (H := example_runtime) upload_request
              Unreachable [] (initial_state (js "en")) eq_refl eq_refl eq_refl)
    as (st' & E & Hex & _).
  exists st'. split; [exact E|exact Hex].
Defined.

Lemma chat_malformed_request_exhausts_attempts_witness :
  chat (H := example_runtime) google_env no_message_request always_fine
  = Some ([Attempt 1; Sleep 1000; Attempt 2; Sleep 2000; Attempt 3],
          apology (VStr (js "en"))).
Proof.
  apply (chat_malformed_request_exhausts_attempts (H := example_runtime)
           google_env GeminiClient no_message_request always_fine).
  - reflexivity.
  - right. split; [reflexivity|]. intros n Hn. right.
    exists (openai_result (VStr (js "I am here for you."))), (js "I am here for you.").
    split; [reflexivity|]. split; [vm_compute; reflexivity|].
    split; [vm_compute; discriminate|vm_compute; reflexivity].
Defined.

Lemma crisis_in_unlisted_language_hides_box_witness :
  exists r st' spoken,
    chat (H := example_runtime) google_env hopeless_request_fr always_fine
    = Some ([Attempt 1], r)
    /\ get (body r) (js "type") = VStr (js "crisis")
    /\ get (body r) (js "helplines") = VUndefined
    /\ sendMessage (H := example_runtime) (js "I feel hopeless")
         (Resolved true (status r) [] (Some (body r))) (initial_state (js "fr"))
       = (st', Ok tt)
    /\ ui st' = ui (initial_state (js "fr"))
                ++ [CrisisHidden; UserBubble (js "I feel hopeless");
                    BotBubble (crisis_text (VStr (js "fr"))); CrisisHidden]
                ++ spoken.
Proof.
  destruct (crisis_in_unlisted_language_hides_box (H := example_runtime)
              google_env GeminiClient hopeless_request_fr always_fine
              (openai_result (VStr (js "I am here for you."))) (js "I am here for you.")
              (js "fr") 73%N (js " feel hopeless") [] (initial_state (js "fr")))
    as (r & st' & spoken & Ec & Et & Eh & Es & Hui & _).
  - reflexivity.
  - reflexivity.
  - reflexivity.
  - vm_compute. reflexivity.
  - vm_compute. discriminate.
  - vm_compute. reflexivity.
  - reflexivity.
  - vm_compute. reflexivity.
  - reflexivity.
  - vm_compute. reflexivity.
  - reflexivity.
  - reflexivity.
  - exists r, st', spoken. repeat split; assumption.
Defined.

Lemma journal_shows_server_insight_witness :
  exists text,
    In (VStr text) insight_texts
    /\ insightsClick (H := example_runtime) (Some one_entry_journal) true 2
         (Resolved true (status (insights {| numer := 3; denom := 4 |})) []
            (Some (body (insights {| numer := 3; denom := 4 |}))))
       = InsightShown (js "<li>" ++ text ++ js "</li>").
Proof.
  destruct (proj1 (journal_shows_server_insight (H := example_runtime)
                     (Some one_entry_journal)
                     [VObj [(js "mood", VStr (js "happy"));
                            (js "text", VStr (js "A good day"))]]
                     true 2 {| numer := 3; denom := 4 |}
                     ltac:(vm_compute; reflexivity)
                     ltac:(split; [discriminate|reflexivity])
                     ltac:(unfold in_unit_interval; cbn; lia)
                     ltac:(lia)) true [])
    as (text & Hin & E).
  exists text. split; [exact Hin|exact E].
Defined.
